(** * Genesys Cloud Terraform provider: CRUD reconciliation adapters

    A shallow embedding of the resource adapters for integration actions,
    OAuth clients, integration credentials, the generic SAML identity
    provider and phones, of their exporters, and of the routing-queue and
    schedule-group data sources, together with the properties the
    specification states about them and further properties of the same
    adapters: round trips of the builders and flatteners, the calls each
    operation makes, and what a read or an update does to the resource
    data.

    Conventions of the embedding:
    - a Go pointer field [*T] is an [option T]; dereferencing [nil] is the
      outcome [Panic];
    - [map[string]T] is a [gmap string T], a [*schema.Set] of strings a
      [gset string], a slice a [list];
    - the vendor REST API is a deterministic function of the history of
      calls and of the current request; every call is appended to a trace;
    - [time.Sleep] and the waits of the retry helpers advance a logical
      clock counted in nanoseconds, as [time.Duration] is;
    - [log.Printf] is not modelled. *)

From Stdlib Require Import ZArith String List Lia DecimalString DecimalNat.
From stdpp Require Import base option list gmap strings.

#[local] Set Warnings "-register-all".
#[local] Open Scope Z_scope.
#[local] Open Scope string_scope.

(** ** Outcomes *)

(** What running a piece of Go code yields: a value, a run-time panic (nil
    dereference, failed type assertion, index out of range), or no result
    within the allotted number of loop iterations. *)
Inductive Res (A : Type) : Type :=
| Val (a : A)
| Panic
| OutOfFuel.
Arguments Val {A} a.
Arguments Panic {A}.
Arguments OutOfFuel {A}.

Definition res_bind {A B} (r : Res A) (k : A -> Res B) : Res B :=
  match r with
  | Val a => k a
  | Panic => Panic
  | OutOfFuel => OutOfFuel
  end.

(** ** Attribute values of the declarative configuration *)

(** The dynamic values ([interface{}]) that [schema.ResourceData] hands out
    and accepts. [VMap] is a [map[string]interface{}], [VStringMap] a
    [map[string]string]; the two are different dynamic types in Go. [VSet]
    is a [*schema.Set] of strings, [VBlockSet] a [*schema.Set] of nested
    blocks whose attributes are strings. *)
Inductive Value : Type :=
| VString (s : string)
| VBool (b : bool)
| VInt (z : Z)
| VList (l : list Value)
| VMap (m : gmap string Value)
| VStringMap (m : gmap string string)
| VSet (s : gset string)
| VBlockSet (s : gset (gmap string string)).

(** Type assertions [v.(T)]; the [option] argument is the interface value,
    [None] being the nil interface, on which every assertion panics. *)
Definition assertString (v : option Value) : Res string :=
  match v with Some (VString s) => Val s | _ => Panic end.

Definition assertMap (v : option Value) : Res (gmap string Value) :=
  match v with Some (VMap m) => Val m | _ => Panic end.

(** The zero value test behind [GetOk]. *)
Definition isZeroValue (v : Value) : bool :=
  match v with
  | VString s => if decide (s = EmptyString) then true else false
  | VBool b => negb b
  | VInt z => Z.eqb z 0
  | VList l => Nat.eqb (length l) 0
  | VMap m => Nat.eqb (size m) 0
  | VStringMap m => Nat.eqb (size m) 0
  | VSet s => Nat.eqb (size s) 0
  | VBlockSet s => Nat.eqb (size s) 0
  end.

(** [schema.ResourceData]: the resource identifier, the attribute store and
    the new-resource mark the framework sets for the duration of a create.

    The framework hands out the zero value of the attribute's schema type
    for an attribute that is not set. The typed readers below fold that and
    the type assertion of the caller into one step: an unset attribute
    reads as the zero value of the asserted type, a value of another type
    makes the assertion panic. *)
Module ResourceData.
Record t : Type := mk {
  Id : string;
  attrs : gmap string Value;
  IsNewResource : bool
}.

Definition SetId (id : string) (d : t) : t :=
  mk id (attrs d) (IsNewResource d).

(** [d.Set(key, v)]; [None] is [d.Set(key, nil)], which unsets. *)
Definition Set_ (key : string) (v : option Value) (d : t) : t :=
  match v with
  | Some x => mk (Id d) (<[key := x]> (attrs d)) (IsNewResource d)
  | None => mk (Id d) (delete key (attrs d)) (IsNewResource d)
  end.

Definition GetString (d : t) (key : string) : Res string :=
  match attrs d !! key with
  | None => Val EmptyString
  | Some (VString s) => Val s
  | Some _ => Panic
  end.

Definition GetBool (d : t) (key : string) : Res bool :=
  match attrs d !! key with
  | None => Val false
  | Some (VBool b) => Val b
  | Some _ => Panic
  end.

Definition GetInt (d : t) (key : string) : Res Z :=
  match attrs d !! key with
  | None => Val 0
  | Some (VInt z) => Val z
  | Some _ => Panic
  end.

Definition GetList (d : t) (key : string) : Res (list Value) :=
  match attrs d !! key with
  | None => Val []
  | Some (VList l) => Val l
  | Some _ => Panic
  end.

(** [d.GetOk(key)]: the value, and whether it is set to a non-zero
    value. *)
Definition GetOk (d : t) (key : string) : option Value * bool :=
  match attrs d !! key with
  | None => (None, false)
  | Some v => (Some v, negb (isZeroValue v))
  end.
End ResourceData.

(** ** Wire structures of the vendor SDK *)

Module Requestconfig.
Record t : Type := mk {
  RequestUrlTemplate : option string;
  RequestTemplate : option string;
  RequestType : option string;
  Headers : option (gmap string string)
}.
Definition empty : t := mk None None None None.
End Requestconfig.

Module Responseconfig.
Record t : Type := mk {
  TranslationMap : option (gmap string string);
  TranslationMapDefaults : option (gmap string string);
  SuccessTemplate : option string
}.
Definition empty : t := mk None None None.
End Responseconfig.

Module Actionconfig.
Record t : Type := mk {
  Request : option Requestconfig.t;
  Response : option Responseconfig.t
}.
End Actionconfig.

(** The contract schemas are arbitrary JSON documents ([*interface{}]); they
    are carried as their JSON text. *)
Module ActionContract.
Record t : Type := mk {
  Output : option (option string);
  Input : option (option string)
}.
End ActionContract.

Module IntegrationAction.
Record t : Type := mk {
  Id : option string;
  Name : option string;
  Category : option string;
  IntegrationId : option string;
  Secure : option bool;
  Config : option Actionconfig.t;
  Contract : option ActionContract.t;
  Version : option Z
}.
End IntegrationAction.

Module Updateactioninput.
Record t : Type := mk {
  Category : option string;
  Name : option string;
  Config : option Actionconfig.t;
  Version : option Z
}.
End Updateactioninput.

Module Roledivision.
Record t : Type := mk {
  RoleId : option string;
  DivisionId : option string
}.
End Roledivision.

Module Oauthclientrequest.
Record t : Type := mk {
  Name : option string;
  AccessTokenValiditySeconds : option Z;
  Description : option string;
  RegisteredRedirectUri : option (list string);
  RoleDivisions : option (list Roledivision.t);
  AuthorizedGrantType : option string;
  Scope : option (list string);
  State : option string
}.
End Oauthclientrequest.

Module Oauthclient.
Record t : Type := mk {
  Id : option string;
  Name : option string;
  AccessTokenValiditySeconds : option Z;
  Description : option string;
  RegisteredRedirectUri : option (list string);
  RoleDivisions : option (list Roledivision.t);
  AuthorizedGrantType : option string;
  Scope : option (list string);
  State : option string
}.
End Oauthclient.

Module Credentialtype.
Record t : Type := mk { Name : option string }.
End Credentialtype.

Module Credential.
Record t : Type := mk {
  Id : option string;
  Name : option string;
  VarType : option Credentialtype.t;
  CredentialFields : option (gmap string string)
}.
End Credential.

Module Genericsaml.
Record t : Type := mk {
  Name : option string;
  Disabled : option bool;
  IssuerURI : option string;
  SsoTargetURI : option string;
  Certificate : option string;
  Certificates : option (list string);
  LogoImageData : option string;
  RelyingPartyIdentifier : option string;
  EndpointCompression : option bool;
  NameIdentifierFormat : option string
}.
End Genericsaml.

(** Entities of list and get responses; only the fields the adapters read
    are kept. *)
Module Phone.
Record t : Type := mk {
  Id : option string;
  Name : option string;
  State : option string
}.
End Phone.

Module Queue.
Record t : Type := mk { Id : option string; Name : option string }.
End Queue.

Module Schedulegroup.
Record t : Type := mk { Id : option string; Name : option string }.
End Schedulegroup.

Module ResourceMeta.
Record t : Type := mk { Name : string }.
End ResourceMeta.

(** [ResourceIDMetaMap]: what an exporter returns, keyed by entity ID. *)
Abbreviation ResourceIDMetaMap := (gmap string ResourceMeta.t).

(** ** Request builders and response flatteners *)

(** The loop [for key, val := range m { out[key] = val.(string) }] that
    copies a [map[string]interface{}] into a fresh [map[string]string]; one
    value that is not a string makes the whole copy panic. *)
Definition copyStringMap (m : gmap string Value) : Res (gmap string string) :=
  map_fold
    (fun key val (acc : Res (gmap string string)) =>
       res_bind acc (fun out =>
       res_bind (assertString (Some val)) (fun s =>
       Val (<[key := s]> out))))
    (Val ∅) m.

(** [buildSdkActionConfigRequest]. [d.Get] never yields the nil interface
    for an attribute of the schema, so the outer nil test of the source
    always passes. A key of [configMap] that holds nil behaves as a key
    that is missing. *)
Definition buildSdkActionConfigRequest (d : ResourceData.t)
  : Res (option Requestconfig.t) :=
  res_bind (ResourceData.GetList d "config_request") (fun configList =>
  match configList with
  | configBlock :: _ =>
      res_bind (assertMap (Some configBlock)) (fun configMap =>
      res_bind (assertString (configMap !! "request_url_template")) (fun urlTemplate =>
      res_bind (assertString (configMap !! "request_template")) (fun template =>
      res_bind (assertString (configMap !! "request_type")) (fun reqType =>
      res_bind
        (match configMap !! "headers" with
         | Some headerVal =>
             res_bind (assertMap (Some headerVal)) copyStringMap
         | None => Val ∅
         end) (fun headers =>
      Val (Some (Requestconfig.mk (Some urlTemplate) (Some template)
                   (Some reqType) (Some headers))))))))
  | [] => Val (Some Requestconfig.empty)
  end).

Definition buildSdkActionConfigResponse (d : ResourceData.t)
  : Res (option Responseconfig.t) :=
  res_bind (ResourceData.GetList d "config_response") (fun configList =>
  match configList with
  | configBlock :: _ =>
      res_bind (assertMap (Some configBlock)) (fun configMap =>
      res_bind
        (match configMap !! "translation_map" with
         | Some mapVal => res_bind (assertMap (Some mapVal)) copyStringMap
         | None => Val ∅
         end) (fun transMap =>
      res_bind
        (match configMap !! "translation_map_defaults" with
         | Some mapVal => res_bind (assertMap (Some mapVal)) copyStringMap
         | None => Val ∅
         end) (fun transMapDefaults =>
      res_bind
        (match configMap !! "success_template" with
         | Some tempVal => assertString (Some tempVal)
         | None => Val EmptyString
         end) (fun successTemplate =>
      Val (Some (Responseconfig.mk (Some transMap) (Some transMapDefaults)
                   (Some successTemplate)))))))
  | [] => Val (Some Responseconfig.empty)
  end).

Definition buildSdkActionConfig (d : ResourceData.t) : Res (option Actionconfig.t) :=
  res_bind (buildSdkActionConfigRequest d) (fun request =>
  res_bind (buildSdkActionConfigResponse d) (fun response =>
  Val (Some (Actionconfig.mk request response)))).

Definition flattenActionConfigRequest (sdkRequest : Requestconfig.t) : list Value :=
  let requestMap : gmap string Value := ∅ in
  let requestMap :=
    match Requestconfig.RequestUrlTemplate sdkRequest with
    | Some v => <["request_url_template" := VString v]> requestMap
    | None => requestMap
    end in
  let requestMap :=
    match Requestconfig.RequestType sdkRequest with
    | Some v => <["request_type" := VString v]> requestMap
    | None => requestMap
    end in
  let requestMap :=
    match Requestconfig.RequestTemplate sdkRequest with
    | Some v => <["request_template" := VString v]> requestMap
    | None => requestMap
    end in
  let requestMap :=
    match Requestconfig.Headers sdkRequest with
    | Some v => <["headers" := VStringMap v]> requestMap
    | None => requestMap
    end in
  [VMap requestMap].

Definition flattenActionConfigResponse (sdkResponse : Responseconfig.t) : list Value :=
  let responseMap : gmap string Value := ∅ in
  let responseMap :=
    match Responseconfig.TranslationMap sdkResponse with
    | Some v => <["translation_map" := VStringMap v]> responseMap
    | None => responseMap
    end in
  let responseMap :=
    match Responseconfig.TranslationMapDefaults sdkResponse with
    | Some v => <["translation_map_defaults" := VStringMap v]> responseMap
    | None => responseMap
    end in
  let responseMap :=
    match Responseconfig.SuccessTemplate sdkResponse with
    | Some v => <["success_template" := VString v]> responseMap
    | None => responseMap
    end in
  [VMap responseMap].

(** [flattenActionContract]: a nil schema flattens to the empty string.
    A schema document of the wire is represented by the text that
    [json.Marshal] gives for it, so that marshalling returns the
    representation; the error return of the source, taken only when
    [json.Marshal] fails, has no counterpart here. *)
Definition flattenActionContract (schema : option string) : string :=
  match schema with
  | None => EmptyString
  | Some schemaBytes => schemaBytes
  end.

(** Modelled from the spec: the helpers [setToStringList] and
    [stringListToSet] are not among the sources. The data model of the
    specification has set-valued attributes on the configuration side and
    JSON arrays on the wire; [setToStringList] is taken to list the members
    of the set, each once, as a non-nil slice, and [stringListToSet] to
    collect the members of a slice. *)
Definition setToStringList (strSet : gset string) : option (list string) :=
  Some (elements strSet).

Definition stringListToSet (list : list string) : Value :=
  VSet (list_to_set list).

(** Modelled from the spec: the helper [buildSdkStringList] is not among
    the sources. Following the specification's present-or-absent reading of
    optional wire fields it is taken to behave as its sibling
    [buildOAuthScopes]: nil unless the attribute is set to a non-empty set,
    the list of its members otherwise. *)
Definition buildSdkStringList (d : ResourceData.t) (attrName : string)
  : Res (option (list string)) :=
  match ResourceData.GetOk d attrName with
  | (Some (VSet s), true) => Val (setToStringList s)
  | (_, true) => Panic
  | (_, false) => Val None
  end.

Definition buildOAuthRedirectURIs (d : ResourceData.t) : Res (option (list string)) :=
  match ResourceData.GetOk d "registered_redirect_uris" with
  | (config, true) =>
      match config with
      | Some (VSet s) => Val (setToStringList s)
      | _ => Panic
      end
  | (_, false) => Val None
  end.

Definition buildOAuthScopes (d : ResourceData.t) : Res (option (list string)) :=
  match ResourceData.GetOk d "scopes" with
  | (config, true) =>
      match config with
      | Some (VSet s) => Val (setToStringList s)
      | _ => Panic
      end
  | (_, false) => Val None
  end.

Definition buildCredentialFields (d : ResourceData.t)
  : Res (option (gmap string string)) :=
  let results : gmap string string := ∅ in
  match ResourceData.GetOk d "fields" with
  | (fields, true) =>
      res_bind (assertMap fields) (fun fieldMap =>
      res_bind (copyStringMap fieldMap) (fun results =>
      Val (Some results)))
  | (_, false) => Val (Some results)
  end.

(** The request body [update] of [updateIdpGeneric] at the point where the
    PUT is issued. *)
Definition updateIdpGeneric_body (d : ResourceData.t) : Res Genericsaml.t :=
  res_bind (ResourceData.GetString d "name") (fun name =>
  res_bind (ResourceData.GetString d "issuer_uri") (fun issuerUri =>
  res_bind (ResourceData.GetString d "target_uri") (fun targetUri =>
  res_bind (ResourceData.GetString d "relying_party_identifier") (fun relyingPartyID =>
  res_bind (ResourceData.GetBool d "disabled") (fun disabled =>
  res_bind (ResourceData.GetString d "logo_image_data") (fun logoImageData =>
  res_bind (ResourceData.GetBool d "endpoint_compression") (fun endpointCompression =>
  res_bind (ResourceData.GetString d "name_identifier_format") (fun nameIdentifierFormat =>
  let update certificate certificates :=
    Genericsaml.mk (Some name) (Some disabled) (Some issuerUri) (Some targetUri)
      certificate certificates (Some logoImageData) (Some relyingPartyID)
      (Some endpointCompression) (Some nameIdentifierFormat) in
  res_bind (buildSdkStringList d "certificates") (fun certificates =>
  match certificates with
  | Some certs =>
      match certs with
      | [cert] => Val (update (Some cert) None)
      | _ => Val (update None certificates)
      end
  | None => Val (update None None)
  end))))))))).

(** The value [readIdpGeneric] stores under [certificates]. *)
Definition readIdpGeneric_certificates (generic : Genericsaml.t) : option Value :=
  match Genericsaml.Certificate generic with
  | Some certificate => Some (stringListToSet [certificate])
  | None =>
      match Genericsaml.Certificates generic with
      | Some certificates => Some (stringListToSet certificates)
      | None => None
      end
  end.

(** ** The vendor REST API *)

(** Entities of list responses; only the fields the adapters read are
    kept. *)
Module Action.
Record t : Type := mk { Id : option string; Name : option string }.
End Action.

Module Oauthclientlisting.
Record t : Type := mk {
  Id : option string;
  Name : option string;
  State : option string
}.
End Oauthclientlisting.

Module Credentialinfo.
Record t : Type := mk { Id : option string; Name : option string }.
End Credentialinfo.

Module Authzdivision.
Record t : Type := mk { Id : option string }.
End Authzdivision.

(** What the JSON decoder makes of a response body. An entity listing
    carries its [Entities] field, a pointer to a slice. *)
Inductive Body : Type :=
| BNone
| BAction (a : IntegrationAction.t)
| BActionListing (entities : option (list Action.t))
| BOauthClient (c : Oauthclient.t)
| BOauthClientListing (entities : option (list Oauthclientlisting.t))
| BCredential (c : Credential.t)
| BCredentialListing (entities : option (list Credentialinfo.t))
| BGenericsaml (g : Genericsaml.t)
| BPhone (p : Phone.t)
| BPhoneListing (entities : option (list Phone.t))
| BQueueListing (entities : option (list Queue.t))
| BSchedulegroupListing (entities : option (list Schedulegroup.t))
| BDivision (v : Authzdivision.t).

(** [platformclientv2.APIResponse]. [json.Unmarshal] is not modelled: a
    response carries its raw text together with the value the decoder
    yields from it. *)
Module APIResponse.
Record t : Type := mk {
  StatusCode : Z;
  Error : option string;
  ErrorMessage : string;
  RawBody : string;
  Payload : Body
}.
End APIResponse.

(** The two results of [APIClient.CallAPI]: the response pointer and the
    transport error. *)
Module Reply.
Record t : Type := mk {
  response : option APIResponse.t;
  err : option string
}.
End Reply.

(** The endpoints the modelled adapters call, with the arguments they
    pass. *)
Inductive Request : Type :=
| ReqGetIntegrationsActions (pageSize pageNumber : Z)
| ReqGetIntegrationAction (actionId : string)
| ReqGetIntegrationActionTemplate (actionId templateName : string)
| ReqPatchIntegrationsAction (actionId : string) (body : Updateactioninput.t)
| ReqDeleteIntegrationsAction (actionId : string)
| ReqGetOauthClients
| ReqGetOauthClient (clientId : string)
| ReqPutOauthClient (clientId : string) (body : Oauthclientrequest.t)
| ReqDeleteOauthClient (clientId : string)
| ReqGetAuthorizationDivisionsHome
| ReqGetIntegrationsCredentials (pageNumber pageSize : Z)
| ReqGetIntegrationsCredential (credentialId : string)
| ReqDeleteIntegrationsCredential (credentialId : string)
| ReqGetIdentityprovidersGeneric
| ReqPutIdentityprovidersGeneric (body : Genericsaml.t)
| ReqDeleteIdentityprovidersGeneric
| ReqGetTelephonyProvidersEdgesPhones (pageNumber pageSize : Z)
| ReqGetTelephonyProvidersEdgesPhone (phoneId : string)
| ReqDeleteTelephonyProvidersEdgesPhone (phoneId : string)
| ReqGetRoutingQueues (pageNumber pageSize : Z) (name : string)
| ReqGetArchitectSchedulegroups (pageNumber pageSize : Z) (name : string).

Definition Event : Type := Request * Reply.t.

(** The server and the transport: the reply to a request, given the calls
    made so far. *)
Definition Api : Type := list Event -> Request -> Reply.t.

(** [providerMeta]: the client configuration from which every adapter makes
    its API handle. *)
Module providerMeta.
Record t : Type := mk { ClientConfig : Api }.
End providerMeta.

(** ** Diagnostics and retry errors *)

(** Failures an operation returns, after the error taxonomy of the
    specification: an error surfaced as it is, and the exhaustion of a
    bounded retry budget with the last transient error. *)
Inductive Diag : Type :=
| DiagError (summary : string)
| DiagRetryExhausted (lastError : string).

(** [diag.Diagnostics]; [None] is nil. *)
Definition Diagnostics : Type := option Diag.

(** [resource.RetryError]. *)
Module RetryError.
Record t : Type := mk { Err : string; Retryable : bool }.
End RetryError.

Definition RetryableError (e : string) : option RetryError.t :=
  Some (RetryError.mk e true).

Definition NonRetryableError (e : string) : option RetryError.t :=
  Some (RetryError.mk e false).

(** ** The state monad of an operation *)

(** What an operation can change: the trace of API calls, the clock, and
    the [ResourceData] it was invoked on (a pointer in Go, mutated in
    place). *)
Module State.
Record t : Type := mk {
  trace : list Event;
  now : Z;
  rd : ResourceData.t
}.
End State.

Definition M (A : Type) : Type := State.t -> Res A * State.t.

Definition ret {A} (a : A) : M A := fun st => (Val a, st).

Definition bind {A B} (m : M A) (k : A -> M B) : M B :=
  fun st =>
    match m st with
    | (Val a, st') => k a st'
    | (Panic, st') => (Panic, st')
    | (OutOfFuel, st') => (OutOfFuel, st')
    end.

Notation "x <- m ; k" := (bind m (fun x => k))
  (at level 20, m at level 100, k at level 200, only parsing).
Notation "' pat <- m ; k" := (bind m (fun x => match x with pat => k end))
  (at level 20, pat pattern, m at level 100, k at level 200, only parsing).

Definition liftR {A} (r : Res A) : M A := fun st => (r, st).

Definition outOfFuel {A} : M A := fun st => (OutOfFuel, st).

(** [*p] for a pointer [p]. *)
Definition deref {A} (p : option A) : Res A :=
  match p with Some a => Val a | None => Panic end.

Definition getD : M ResourceData.t := fun st => (Val (State.rd st), st).

Definition modifyD (f : ResourceData.t -> ResourceData.t) : M unit :=
  fun st => (Val tt, State.mk (State.trace st) (State.now st) (f (State.rd st))).

(** [time.Sleep]. *)
Definition Sleep (duration : Z) : M unit :=
  fun st => (Val tt, State.mk (State.trace st) (State.now st + duration) (State.rd st)).

Definition Second : Z := 1000000000.

(** [APIClient.CallAPI]: the reply of the server, recorded in the trace.
    Calls take no time on the logical clock. *)
Definition CallAPI (api : Api) (req : Request) : M Reply.t :=
  fun st =>
    let reply := api (State.trace st) req in
    (Val reply, State.mk (State.trace st ++ [(req, reply)]) (State.now st) (State.rd st)).

(** ** The SDK methods *)

Definition jsonError : string := "json: cannot unmarshal response body".

(** [sdkGetIntegrationAction]. *)
Definition sdkGetIntegrationAction (actionId : string) (api : Api)
  : M (option IntegrationAction.t * option APIResponse.t * option string) :=
  response <- CallAPI api (ReqGetIntegrationAction actionId);
  match Reply.err response with
  | Some err => ret (None, Reply.response response, Some err)
  | None =>
      r <- liftR (deref (Reply.response response));
      match APIResponse.Error r with
      | Some _ => ret (None, Some r, Some (APIResponse.ErrorMessage r))
      | None =>
          match APIResponse.Payload r with
          | BAction successPayload => ret (Some successPayload, Some r, None)
          | _ => ret (None, Some r, Some jsonError)
          end
      end
  end.

(** [sdkGetIntegrationActionTemplate]: the payload is the raw body. *)
Definition sdkGetIntegrationActionTemplate (actionId templateName : string) (api : Api)
  : M (option string * option APIResponse.t * option string) :=
  response <- CallAPI api (ReqGetIntegrationActionTemplate actionId templateName);
  match Reply.err response with
  | Some err => ret (None, Reply.response response, Some err)
  | None =>
      r <- liftR (deref (Reply.response response));
      match APIResponse.Error r with
      | Some _ => ret (None, Some r, Some (APIResponse.ErrorMessage r))
      | None => ret (Some (APIResponse.RawBody r), Some r, None)
      end
  end.

(** The generated methods of [platformclientv2] are written after the same
    pattern as the two functions above: a transport error is passed on, an
    error response becomes an error carrying its message, and otherwise the
    body is decoded into the payload type. *)
Definition callSdk {A} (api : Api) (req : Request) (decode : Body -> option A)
  : M (option A * option APIResponse.t * option string) :=
  response <- CallAPI api req;
  match Reply.err response with
  | Some err => ret (None, Reply.response response, Some err)
  | None =>
      r <- liftR (deref (Reply.response response));
      match APIResponse.Error r with
      | Some _ => ret (None, Some r, Some (APIResponse.ErrorMessage r))
      | None =>
          match decode (APIResponse.Payload r) with
          | Some successPayload => ret (Some successPayload, Some r, None)
          | None => ret (None, Some r, Some jsonError)
          end
      end
  end.

(** The methods that return no payload ([DELETE]). *)
Definition callSdkNoPayload (api : Api) (req : Request)
  : M (option APIResponse.t * option string) :=
  response <- CallAPI api req;
  match Reply.err response with
  | Some err => ret (Reply.response response, Some err)
  | None =>
      r <- liftR (deref (Reply.response response));
      match APIResponse.Error r with
      | Some _ => ret (Some r, Some (APIResponse.ErrorMessage r))
      | None => ret (Some r, None)
      end
  end.

Definition GetIntegrationsActions (api : Api) (pageSize pageNumber : Z) :=
  callSdk api (ReqGetIntegrationsActions pageSize pageNumber)
    (fun b => match b with BActionListing l => Some l | _ => None end).

Definition PatchIntegrationsAction (api : Api) (actionId : string)
    (body : Updateactioninput.t) :=
  callSdk api (ReqPatchIntegrationsAction actionId body)
    (fun b => match b with BAction a => Some a | _ => None end).


Definition GetOauthClients (api : Api) :=
  callSdk api ReqGetOauthClients
    (fun b => match b with BOauthClientListing l => Some l | _ => None end).

Definition GetOauthClient (api : Api) (clientId : string) :=
  callSdk api (ReqGetOauthClient clientId)
    (fun b => match b with BOauthClient c => Some c | _ => None end).

Definition PutOauthClient (api : Api) (clientId : string)
    (body : Oauthclientrequest.t) :=
  callSdk api (ReqPutOauthClient clientId body)
    (fun b => match b with BOauthClient c => Some c | _ => None end).

Definition DeleteOauthClient (api : Api) (clientId : string) :=
  callSdkNoPayload api (ReqDeleteOauthClient clientId).

Definition GetAuthorizationDivisionsHome (api : Api) :=
  callSdk api ReqGetAuthorizationDivisionsHome
    (fun b => match b with BDivision v => Some v | _ => None end).

Definition GetIntegrationsCredentials (api : Api) (pageNumber pageSize : Z) :=
  callSdk api (ReqGetIntegrationsCredentials pageNumber pageSize)
    (fun b => match b with BCredentialListing l => Some l | _ => None end).

Definition GetIntegrationsCredential (api : Api) (credentialId : string) :=
  callSdk api (ReqGetIntegrationsCredential credentialId)
    (fun b => match b with BCredential c => Some c | _ => None end).

Definition DeleteIntegrationsCredential (api : Api) (credentialId : string) :=
  callSdkNoPayload api (ReqDeleteIntegrationsCredential credentialId).

Definition GetIdentityprovidersGeneric (api : Api) :=
  callSdk api ReqGetIdentityprovidersGeneric
    (fun b => match b with BGenericsaml g => Some g | _ => None end).

Definition PutIdentityprovidersGeneric (api : Api) (body : Genericsaml.t) :=
  callSdk api (ReqPutIdentityprovidersGeneric body)
    (fun b => match b with BGenericsaml g => Some g | _ => None end).


Definition GetTelephonyProvidersEdgesPhones (api : Api) (pageNumber pageSize : Z) :=
  callSdk api (ReqGetTelephonyProvidersEdgesPhones pageNumber pageSize)
    (fun b => match b with BPhoneListing l => Some l | _ => None end).

Definition GetTelephonyProvidersEdgesPhone (api : Api) (phoneId : string) :=
  callSdk api (ReqGetTelephonyProvidersEdgesPhone phoneId)
    (fun b => match b with BPhone p => Some p | _ => None end).


Definition GetRoutingQueues (api : Api) (pageNumber pageSize : Z) (name : string) :=
  callSdk api (ReqGetRoutingQueues pageNumber pageSize name)
    (fun b => match b with BQueueListing l => Some l | _ => None end).

Definition GetArchitectSchedulegroups (api : Api) (pageNumber pageSize : Z)
    (name : string) :=
  callSdk api (ReqGetArchitectSchedulegroups pageNumber pageSize name)
    (fun b => match b with BSchedulegroupListing l => Some l | _ => None end).

(** ** The retry helpers *)

(** [context.Context]. Cancellation is not modelled. The context carries
    the two constants of the retry helpers that the specification leaves
    open: the fixed poll interval, in nanoseconds, and the retry count of
    [retryWhen]. *)
Module Context.
Record t : Type := mk { pollInterval : positive; retryLimit : nat }.
End Context.

(** Modelled from the spec: the helper [isStatus404] is not among the
    sources. It recognises the not-found class of the error taxonomy: a
    response that is present and has status 404. *)
Definition isStatus404 (resp : option APIResponse.t) : bool :=
  match resp with
  | Some r => Z.eqb (APIResponse.StatusCode r) 404
  | None => false
  end.

(** Modelled from the spec: the helper [isVersionMismatch] is not among the
    sources. It recognises the version-conflict class of the error
    taxonomy, an update rejected because of a stale version; the class is
    taken to be encoded as the HTTP conflict status 409. *)
Definition isVersionMismatch (resp : option APIResponse.t) : bool :=
  match resp with
  | Some r => Z.eqb (APIResponse.StatusCode r) 409
  | None => false
  end.

(** The polling loop of [withRetries]: [method] is tried; a retryable
    error is followed by a wait of [interval] and another try as long as
    [retries] further tries fit into the budget. *)
Fixpoint retryLoop (interval : Z) (retries : nat)
    (method : M (option RetryError.t)) {struct retries} : M Diagnostics :=
  rerr <- method;
  match rerr with
  | None => ret None
  | Some e =>
      if RetryError.Retryable e then
        match retries with
        | O => ret (Some (DiagRetryExhausted (RetryError.Err e)))
        | S retries' => _ <- Sleep interval; retryLoop interval retries' method
        end
      else ret (Some (DiagError (RetryError.Err e)))
  end.

(** Modelled from the spec: the helper [withRetries] is not among the
    sources. Section 4.1: the method is polled with a fixed interval up to
    a bounded timeout; when the timeout elapses while the method still
    reports a retryable error the operation fails as retry-exhausted; an
    error that is not retryable is surfaced at once. The waits between the
    tries add up to at most [timeout]. *)
Definition withRetries (ctx : Context.t) (timeout : Z)
    (method : M (option RetryError.t)) : M Diagnostics :=
  let interval := Z.pos (Context.pollInterval ctx) in
  retryLoop interval (Z.to_nat (timeout / interval)) method.

(** Modelled from the spec: the helper [withRetriesForRead] is not among
    the sources. Section 4.1, Read: a not-found shortly after a create
    (the resource data carries the new-resource mark) is transient and the
    read is polled as in [withRetries]; a not-found in any other context
    clears the entity from state without error. The read methods report
    not-found, and only not-found, as their retryable error. *)
Definition withRetriesForRead (ctx : Context.t) (timeout : Z)
    (method : M (option RetryError.t)) : M Diagnostics :=
  d <- getD;
  if ResourceData.IsNewResource d then withRetries ctx timeout method
  else
    rerr <- method;
    match rerr with
    | None => ret None
    | Some e =>
        if RetryError.Retryable e then
          _ <- modifyD (ResourceData.SetId EmptyString);
          ret None
        else ret (Some (DiagError (RetryError.Err e)))
    end.

(** Modelled from the spec: the helper [retryWhen] is not among the
    sources. Section 4.1, Update: when the call fails and the response it
    returns satisfies [shouldRetry], the call is made again, bounded by a
    small retry count; the budget spent, the operation fails as
    retry-exhausted. Any other failure is surfaced at once. *)
Fixpoint retryWhen (retries : nat) (shouldRetry : option APIResponse.t -> bool)
    (callSdk : M (option APIResponse.t * Diagnostics)) {struct retries}
  : M Diagnostics :=
  '(resp, sdkErr) <- callSdk;
  match sdkErr with
  | None => ret None
  | Some e =>
      if shouldRetry resp then
        match retries with
        | O =>
            ret (Some (DiagRetryExhausted
                         match e with DiagError s => s | DiagRetryExhausted s => s end))
        | S retries' => retryWhen retries' shouldRetry callSdk
        end
      else ret (Some e)
  end.

(** [d.Set(key, value)] and [d.SetId(id)] on the resource data of the
    operation. *)
Definition dSet (key : string) (v : option Value) : M unit :=
  modifyD (ResourceData.Set_ key v).

Definition dSetId (id : string) : M unit :=
  modifyD (ResourceData.SetId id).

(** ** Integration actions *)

Definition addIntegrationAction (action : Action.t) (resources : ResourceIDMetaMap)
  : Res ResourceIDMetaMap :=
  res_bind (deref (Action.Id action)) (fun id =>
  if String.prefix "static" id then Val resources
  else
    res_bind (deref (Action.Name action)) (fun name =>
    Val (<[id := ResourceMeta.mk name]> resources))).

(** The body of [for _, action := range *actions.Entities]. *)
Definition addIntegrationActions (entities : list Action.t)
    (resources : ResourceIDMetaMap) : Res ResourceIDMetaMap :=
  foldl (fun acc action => res_bind acc (addIntegrationAction action))
        (Val resources) entities.

(** [getAllIntegrationActions]; [fuel] bounds the number of pages
    requested by the otherwise unbounded loop. *)
Fixpoint getAllIntegrationActions_from (fuel : nat) (integAPI : Api) (pageNum : Z)
    (resources : ResourceIDMetaMap)
  : M (option ResourceIDMetaMap * Diagnostics) :=
  match fuel with
  | O => outOfFuel
  | S fuel' =>
      let pageSize := 100 in
      '(actions, _, getErr) <- GetIntegrationsActions integAPI pageSize pageNum;
      match getErr with
      | Some e =>
          ret (None, Some (DiagError ("Failed to get page of integration actions: " +:+ e)))
      | None =>
          actions <- liftR (deref actions);
          match actions with
          | None | Some [] => ret (Some resources, None)
          | Some entities =>
              resources <- liftR (addIntegrationActions entities resources);
              getAllIntegrationActions_from fuel' integAPI (pageNum + 1) resources
          end
      end
  end.

Definition getAllIntegrationActions (fuel : nat) (clientConfig : Api)
  : M (option ResourceIDMetaMap * Diagnostics) :=
  getAllIntegrationActions_from fuel clientConfig 1 ∅.

(** The function literal that [readIntegrationAction] hands to
    [withRetriesForRead]. *)
Definition readIntegrationAction_try (integAPI : Api) : M (option RetryError.t) :=
  d <- getD;
  let id := ResourceData.Id d in
  '(action, resp, getErr) <- sdkGetIntegrationAction id integAPI;
  match getErr with
  | Some e =>
      if isStatus404 resp then
        ret (RetryableError ("Failed to read integration action " +:+ id +:+ ": " +:+ e))
      else
        ret (NonRetryableError ("Failed to read integration action " +:+ id +:+ ": " +:+ e))
  | None =>
  '(reqTemp, resp, getErr) <-
    sdkGetIntegrationActionTemplate id "requesttemplate.vm" integAPI;
  match getErr with
  | Some e =>
      if isStatus404 resp then (_ <- dSetId EmptyString; ret None)
      else
        ret (NonRetryableError
               ("Failed to read request template for integration action "
                  +:+ id +:+ ": " +:+ e))
  | None =>
  '(successTemp, resp, getErr) <-
    sdkGetIntegrationActionTemplate id "successtemplate.vm" integAPI;
  match getErr with
  | Some e =>
      if isStatus404 resp then (_ <- dSetId EmptyString; ret None)
      else
        ret (NonRetryableError
               ("Failed to read success template for integration action "
                  +:+ id +:+ ": " +:+ e))
  | None =>
  action <- liftR (deref action);
  _ <- dSet "name" (VString <$> IntegrationAction.Name action);
  _ <- dSet "category" (VString <$> IntegrationAction.Category action);
  _ <- dSet "integration_id" (VString <$> IntegrationAction.IntegrationId action);
  _ <- dSet "secure" (VBool <$> IntegrationAction.Secure action);
  _ <- dSet "contract_input"
         (match IntegrationAction.Contract action with
          | Some contract =>
              match ActionContract.Input contract with
              | Some (Some inputSchema) =>
                  Some (VString (flattenActionContract (Some inputSchema)))
              | _ => None
              end
          | None => None
          end);
  _ <- dSet "contract_output"
         (match IntegrationAction.Contract action with
          | Some contract =>
              match ActionContract.Output contract with
              | Some (Some successSchema) =>
                  Some (VString (flattenActionContract (Some successSchema)))
              | _ => None
              end
          | None => None
          end);
  _ <- dSet "config_request"
         (match IntegrationAction.Config action with
          | Some config =>
              match Actionconfig.Request config with
              | Some request =>
                  let request :=
                    Requestconfig.mk (Requestconfig.RequestUrlTemplate request)
                      reqTemp (Requestconfig.RequestType request)
                      (Requestconfig.Headers request) in
                  Some (VList (flattenActionConfigRequest request))
              | None => None
              end
          | None => None
          end);
  _ <- dSet "config_response"
         (match IntegrationAction.Config action with
          | Some config =>
              match Actionconfig.Response config with
              | Some response =>
                  let response :=
                    Responseconfig.mk (Responseconfig.TranslationMap response)
                      (Responseconfig.TranslationMapDefaults response)
                      successTemp in
                  Some (VList (flattenActionConfigResponse response))
              | None => None
              end
          | None => None
          end);
  (* the closing log line dereferences [action.Name] *)
  _ <- liftR (deref (IntegrationAction.Name action));
  ret None
  end end end.

Definition readIntegrationAction (ctx : Context.t) (meta : providerMeta.t)
  : M Diagnostics :=
  let integAPI := providerMeta.ClientConfig meta in
  withRetriesForRead ctx (30 * Second) (readIntegrationAction_try integAPI).

(** The function literal that [updateIntegrationAction] hands to
    [retryWhen]. *)
Definition updateIntegrationAction_call (meta : providerMeta.t)
    (name category : string) : M (option APIResponse.t * Diagnostics) :=
  let integAPI := providerMeta.ClientConfig meta in
  d <- getD;
  let id := ResourceData.Id d in
  '(action, resp, getErr) <- sdkGetIntegrationAction id integAPI;
  match getErr with
  | Some e =>
      ret (resp, Some (DiagError
                         ("Failed to read integration action " +:+ id +:+ ": " +:+ e)))
  | None =>
      action <- liftR (deref action);
      config <- liftR (buildSdkActionConfig d);
      '(_, _, err) <-
        PatchIntegrationsAction integAPI id
          (Updateactioninput.mk (Some category) (Some name) config
             (IntegrationAction.Version action));
      match err with
      | Some e =>
          ret (resp, Some (DiagError
                             ("Failed to update integration action " +:+ name +:+ ": " +:+ e)))
      | None => ret (resp, None)
      end
  end.

Definition updateIntegrationAction (ctx : Context.t) (meta : providerMeta.t)
  : M Diagnostics :=
  d <- getD;
  name <- liftR (ResourceData.GetString d "name");
  category <- liftR (ResourceData.GetString d "category");
  diagErr <-
    retryWhen (Context.retryLimit ctx) isVersionMismatch
      (updateIntegrationAction_call meta name category);
  match diagErr with
  | Some e => ret (Some e)
  | None =>
      _ <- Sleep (5 * Second);
      readIntegrationAction ctx meta
  end.

(** The function literal that [deleteIntegrationAction] hands to [withRetries]. *)
Definition deleteIntegrationAction_poll (integAPI : Api) : M (option RetryError.t) :=
  d <- getD;
  let id := ResourceData.Id d in
  '(_, resp, err) <- sdkGetIntegrationAction id integAPI;
  match err with
  | Some e =>
      if isStatus404 resp then ret None
      else
        ret (NonRetryableError
               ("Error deleting integration action " +:+ id +:+ ": " +:+ e))
  | None =>
      ret (RetryableError ("Integration action " +:+ id +:+ " still exists"))
  end.


(** ** OAuth clients *)

Definition addOAuthClient (client : Oauthclientlisting.t)
    (resources : ResourceIDMetaMap) : Res ResourceIDMetaMap :=
  if match Oauthclientlisting.State client with
     | Some state => bool_decide (state = "disabled")
     | None => false
     end
  then Val resources
  else
    res_bind (deref (Oauthclientlisting.Id client)) (fun id =>
    res_bind (deref (Oauthclientlisting.Name client)) (fun name =>
    Val (<[id := ResourceMeta.mk name]> resources))).

Definition addOAuthClients (entities : list Oauthclientlisting.t)
    (resources : ResourceIDMetaMap) : Res ResourceIDMetaMap :=
  foldl (fun acc client => res_bind acc (addOAuthClient client))
        (Val resources) entities.

Definition getAllOAuthClients (clientConfig : Api)
  : M (option ResourceIDMetaMap * Diagnostics) :=
  let resources : ResourceIDMetaMap := ∅ in
  '(clients, _, getErr) <- GetOauthClients clientConfig;
  match getErr with
  | Some e => ret (None, Some (DiagError ("Failed to get page of oauth clients: " +:+ e)))
  | None =>
      clients <- liftR (deref clients);
      match clients with
      | None | Some [] => ret (Some resources, None)
      | Some entities =>
          resources <- liftR (addOAuthClients entities resources);
          ret (Some resources, None)
      end
  end.

(** Modelled from the spec: the helper [getHomeDivisionID] is not among the
    sources. The schema of the [roles] block says that the home division is
    used when no division is set; the helper is taken to ask the server for
    the home division through the shared client configuration and to return
    its identifier. *)
Definition getHomeDivisionID (api : Api) : M (string * Diagnostics) :=
  '(homeDiv, _, getErr) <- GetAuthorizationDivisionsHome api;
  match getErr with
  | Some e => ret (EmptyString, Some (DiagError ("Failed to query home division: " +:+ e)))
  | None =>
      homeDiv <- liftR (deref homeDiv);
      id <- liftR (deref (Authzdivision.Id homeDiv));
      ret (id, None)
  end.

(** The loop of [buildOAuthRoles] over the blocks of the [roles] set. *)
Fixpoint buildOAuthRoles_range (api : Api) (roleConfig : list (gmap string string))
    (sdkRoles : list Roledivision.t)
  : M (option (list Roledivision.t) * Diagnostics) :=
  match roleConfig with
  | [] => ret (Some sdkRoles, None)
  | roleMap :: roleConfig' =>
      roleId <- liftR (deref (roleMap !! "role_id"));
      let divisionId := default EmptyString (roleMap !! "division_id") in
      '(divisionId, diagErr) <-
        (if decide (divisionId = EmptyString) then getHomeDivisionID api
         else ret (divisionId, None));
      match diagErr with
      | Some e => ret (None, Some e)
      | None =>
          buildOAuthRoles_range api roleConfig'
            (sdkRoles ++ [Roledivision.mk (Some roleId) (Some divisionId)])
      end
  end.

Definition buildOAuthRoles (api : Api) (d : ResourceData.t)
  : M (option (list Roledivision.t) * Diagnostics) :=
  match ResourceData.GetOk d "roles" with
  | (config, true) =>
      match config with
      | Some (VBlockSet s) => buildOAuthRoles_range api (elements s) []
      | _ => liftR Panic
      end
  | (_, false) => ret (None, None)
  end.

Definition flattenOAuthRoles (sdkRoles : list Roledivision.t) : Value :=
  VBlockSet
    (foldl
       (fun (roleSet : gset (gmap string string)) roleDiv =>
          let role : gmap string string := ∅ in
          let role :=
            match Roledivision.RoleId roleDiv with
            | Some v => <["role_id" := v]> role
            | None => role
            end in
          let role :=
            match Roledivision.DivisionId roleDiv with
            | Some v => <["division_id" := v]> role
            | None => role
            end in
          roleSet ∪ {[role]})
       ∅ sdkRoles).

(** The function literal that [readOAuthClient] hands to
    [withRetriesForRead]. *)
Definition readOAuthClient_try (oauthAPI : Api) : M (option RetryError.t) :=
  d <- getD;
  let id := ResourceData.Id d in
  '(client, resp, getErr) <- GetOauthClient oauthAPI id;
  match getErr with
  | Some e =>
      if isStatus404 resp then
        ret (RetryableError ("Failed to read oauth client " +:+ id +:+ ": " +:+ e))
      else
        ret (NonRetryableError ("Failed to read oauth client " +:+ id +:+ ": " +:+ e))
  | None =>
      client <- liftR (deref client);
      name <- liftR (deref (Oauthclient.Name client));
      _ <- dSet "name" (Some (VString name));
      _ <- dSet "description" (VString <$> Oauthclient.Description client);
      _ <- dSet "access_token_validity_seconds"
             (VInt <$> Oauthclient.AccessTokenValiditySeconds client);
      _ <- dSet "authorized_grant_type"
             (VString <$> Oauthclient.AuthorizedGrantType client);
      _ <- dSet "state" (VString <$> Oauthclient.State client);
      _ <- dSet "registered_redirect_uris"
             (stringListToSet <$> Oauthclient.RegisteredRedirectUri client);
      _ <- dSet "scopes" (stringListToSet <$> Oauthclient.Scope client);
      _ <- dSet "roles" (flattenOAuthRoles <$> Oauthclient.RoleDivisions client);
      ret None
  end.

Definition readOAuthClient (ctx : Context.t) (meta : providerMeta.t)
  : M Diagnostics :=
  let oauthAPI := providerMeta.ClientConfig meta in
  withRetriesForRead ctx (30 * Second) (readOAuthClient_try oauthAPI).

Definition updateOAuthClient (ctx : Context.t) (meta : providerMeta.t)
  : M Diagnostics :=
  d <- getD;
  name <- liftR (ResourceData.GetString d "name");
  description <- liftR (ResourceData.GetString d "description");
  tokenSeconds <- liftR (ResourceData.GetInt d "access_token_validity_seconds");
  grantType <- liftR (ResourceData.GetString d "authorized_grant_type");
  state <- liftR (ResourceData.GetString d "state");
  let oauthAPI := providerMeta.ClientConfig meta in
  '(roles, diagErr) <- buildOAuthRoles oauthAPI d;
  match diagErr with
  | Some e => ret (Some e)
  | None =>
      redirectURIs <- liftR (buildOAuthRedirectURIs d);
      scopes <- liftR (buildOAuthScopes d);
      '(_, _, err) <-
        PutOauthClient oauthAPI (ResourceData.Id d)
          (Oauthclientrequest.mk (Some name) (Some tokenSeconds) (Some description)
             redirectURIs roles (Some grantType) scopes (Some state));
      match err with
      | Some e =>
          ret (Some (DiagError ("Failed to update oauth client " +:+ name +:+ ": " +:+ e)))
      | None =>
          _ <- Sleep (5 * Second);
          readOAuthClient ctx meta
      end
  end.

(** The function literal that [deleteOAuthClient] hands to [withRetries]. *)
Definition deleteOAuthClient_poll (oauthAPI : Api) : M (option RetryError.t) :=
  d <- getD;
  let id := ResourceData.Id d in
  '(oauthClient, resp, err) <- GetOauthClient oauthAPI id;
  match err with
  | Some e =>
      if isStatus404 resp then ret None
      else ret (NonRetryableError ("Error deleting OAuth client " +:+ id +:+ ": " +:+ e))
  | None =>
      oauthClient <- liftR (deref oauthClient);
      state <- liftR (deref (Oauthclient.State oauthClient));
      if decide (state = "deleted") then ret None
      else ret (RetryableError ("OAuth client " +:+ id +:+ " still exists"))
  end.

Definition deleteOAuthClient (ctx : Context.t) (meta : providerMeta.t)
  : M Diagnostics :=
  d <- getD;
  name <- liftR (ResourceData.GetString d "name");
  let oauthAPI := providerMeta.ClientConfig meta in
  (* The client state must be set to inactive before deleting *)
  _ <- dSet "state" (Some (VString "inactive"));
  diagErr <- updateOAuthClient ctx meta;
  match diagErr with
  | Some e => ret (Some e)
  | None =>
      d <- getD;
      '(_, err) <- DeleteOauthClient oauthAPI (ResourceData.Id d);
      match err with
      | Some e =>
          ret (Some (DiagError ("Failed to delete oauth client " +:+ name +:+ ": " +:+ e)))
      | None =>
          withRetries ctx (30 * Second) (deleteOAuthClient_poll oauthAPI)
      end
  end.

(** ** Integration credentials *)

Definition addCredential (cred : Credentialinfo.t) (resources : ResourceIDMetaMap)
  : Res ResourceIDMetaMap :=
  match Credentialinfo.Name cred with
  | Some name =>
      res_bind (deref (Credentialinfo.Id cred)) (fun id =>
      Val (<[id := ResourceMeta.mk name]> resources))
  | None => Val resources
  end.

Definition addCredentials (entities : list Credentialinfo.t)
    (resources : ResourceIDMetaMap) : Res ResourceIDMetaMap :=
  foldl (fun acc cred => res_bind acc (addCredential cred))
        (Val resources) entities.

Fixpoint getAllCredentials_from (fuel : nat) (integrationAPI : Api) (pageNum : Z)
    (resources : ResourceIDMetaMap)
  : M (option ResourceIDMetaMap * Diagnostics) :=
  match fuel with
  | O => outOfFuel
  | S fuel' =>
      let pageSize := 100 in
      '(credentials, _, err) <- GetIntegrationsCredentials integrationAPI pageNum pageSize;
      match err with
      | Some e => ret (None, Some (DiagError ("Failed to get page of credentials: " +:+ e)))
      | None =>
          credentials <- liftR (deref credentials);
          match credentials with
          | None | Some [] => ret (Some resources, None)
          | Some entities =>
              resources <- liftR (addCredentials entities resources);
              getAllCredentials_from fuel' integrationAPI (pageNum + 1) resources
          end
      end
  end.

Definition getAllCredentials (fuel : nat) (clientConfig : Api)
  : M (option ResourceIDMetaMap * Diagnostics) :=
  getAllCredentials_from fuel clientConfig 1 ∅.

(** The function literal that [deleteCredential] hands to [withRetries]. *)
Definition deleteCredential_poll (integrationAPI : Api) : M (option RetryError.t) :=
  d <- getD;
  let id := ResourceData.Id d in
  '(_, resp, err) <- GetIntegrationsCredential integrationAPI id;
  match err with
  | Some e =>
      if isStatus404 resp then ret None
      else
        ret (NonRetryableError
               ("Error deleting credential action " +:+ id +:+ ": " +:+ e))
  | None =>
      ret (RetryableError ("Integration credential " +:+ id +:+ " still exists"))
  end.

Definition deleteCredential (ctx : Context.t) (meta : providerMeta.t)
  : M Diagnostics :=
  let integrationAPI := providerMeta.ClientConfig meta in
  d <- getD;
  '(_, err) <- DeleteIntegrationsCredential integrationAPI (ResourceData.Id d);
  match err with
  | Some e =>
      ret (Some (DiagError
                   ("Failed to delete the credential " +:+ ResourceData.Id d +:+ ": " +:+ e)))
  | None =>
      withRetries ctx (30 * Second) (deleteCredential_poll integrationAPI)
  end.

(** ** Generic SAML identity provider *)

(** The function literal that [readIdpGeneric] hands to
    [withRetriesForRead]. *)
Definition readIdpGeneric_try (idpAPI : Api) : M (option RetryError.t) :=
  '(generic, resp, getErr) <- GetIdentityprovidersGeneric idpAPI;
  match getErr with
  | Some e =>
      if isStatus404 resp then
        ret (RetryableError ("Failed to read IDP Generic: " +:+ e))
      else
        ret (NonRetryableError ("Failed to read IDP Generic: " +:+ e))
  | None =>
      generic <- liftR (deref generic);
      _ <- dSet "name" (VString <$> Genericsaml.Name generic);
      _ <- dSet "certificates" (readIdpGeneric_certificates generic);
      _ <- dSet "issuer_uri" (VString <$> Genericsaml.IssuerURI generic);
      _ <- dSet "target_uri" (VString <$> Genericsaml.SsoTargetURI generic);
      _ <- dSet "relying_party_identifier"
             (VString <$> Genericsaml.RelyingPartyIdentifier generic);
      _ <- dSet "disabled" (VBool <$> Genericsaml.Disabled generic);
      _ <- dSet "logo_image_data" (VString <$> Genericsaml.LogoImageData generic);
      _ <- dSet "endpoint_compression"
             (VBool <$> Genericsaml.EndpointCompression generic);
      _ <- dSet "name_identifier_format"
             (VString <$> Genericsaml.NameIdentifierFormat generic);
      ret None
  end.

Definition readIdpGeneric (ctx : Context.t) (meta : providerMeta.t)
  : M Diagnostics :=
  let idpAPI := providerMeta.ClientConfig meta in
  withRetriesForRead ctx (30 * Second) (readIdpGeneric_try idpAPI).

Definition updateIdpGeneric (ctx : Context.t) (meta : providerMeta.t)
  : M Diagnostics :=
  d <- getD;
  let idpAPI := providerMeta.ClientConfig meta in
  update <- liftR (updateIdpGeneric_body d);
  '(_, _, err) <- PutIdentityprovidersGeneric idpAPI update;
  match err with
  | Some e => ret (Some (DiagError ("Failed to update IDP Generic: " +:+ e)))
  | None =>
      (* Give time for public API caches to update *)
      _ <- Sleep (20 * Second);
      readIdpGeneric ctx meta
  end.

(** The function literal that [deleteIdpGeneric] hands to [withRetries]. *)
Definition deleteIdpGeneric_poll (idpAPI : Api) : M (option RetryError.t) :=
  '(_, resp, err) <- GetIdentityprovidersGeneric idpAPI;
  match err with
  | Some e =>
      if isStatus404 resp then ret None
      else ret (NonRetryableError ("Error deleting IDP Generic: " +:+ e))
  | None => ret (RetryableError "IDP Generic still exists")
  end.


(** ** Phones *)

Definition addPhone (phone : Phone.t) (resources : ResourceIDMetaMap)
  : Res ResourceIDMetaMap :=
  res_bind (deref (Phone.State phone)) (fun state =>
  if decide (state = "deleted") then Val resources
  else
    res_bind (deref (Phone.Id phone)) (fun id =>
    res_bind (deref (Phone.Name phone)) (fun name =>
    Val (<[id := ResourceMeta.mk name]> resources)))).

Definition addPhones (entities : list Phone.t) (resources : ResourceIDMetaMap)
  : Res ResourceIDMetaMap :=
  foldl (fun acc phone => res_bind acc (addPhone phone)) (Val resources) entities.

Fixpoint getAllPhones_from (fuel : nat) (edgesAPI : Api) (pageNum : Z)
    (resources : ResourceIDMetaMap)
  : M (option ResourceIDMetaMap * Diagnostics) :=
  match fuel with
  | O => outOfFuel
  | S fuel' =>
      let pageSize := 100 in
      '(phones, _, getErr) <- GetTelephonyProvidersEdgesPhones edgesAPI pageNum pageSize;
      match getErr with
      | Some e => ret (None, Some (DiagError ("Failed to get page of phones: " +:+ e)))
      | None =>
          phones <- liftR (deref phones);
          match phones with
          | None | Some [] => ret (Some resources, None)
          | Some entities =>
              resources <- liftR (addPhones entities resources);
              getAllPhones_from fuel' edgesAPI (pageNum + 1) resources
          end
      end
  end.

Definition getAllPhones (fuel : nat) (sdkConfig : Api)
  : M (option ResourceIDMetaMap * Diagnostics) :=
  getAllPhones_from fuel sdkConfig 1 ∅.

(** The function literal that [deletePhone] hands to [withRetries]. *)
Definition deletePhone_poll (edgesAPI : Api) : M (option RetryError.t) :=
  d <- getD;
  let id := ResourceData.Id d in
  '(phone, resp, err) <- GetTelephonyProvidersEdgesPhone edgesAPI id;
  match err with
  | Some e =>
      if isStatus404 resp then ret None
      else ret (NonRetryableError ("Error deleting Phone " +:+ id +:+ ": " +:+ e))
  | None =>
      phone <- liftR (deref phone);
      state <- liftR (deref (Phone.State phone));
      if decide (state = "deleted") then ret None
      else ret (RetryableError ("Phone " +:+ id +:+ " still exists"))
  end.


(** ** Data sources *)

(** The loop [for _, queue := range *queues.Entities] of
    [dataSourceRoutingQueueRead]: the ID of the first queue whose name is
    the requested one. *)
Fixpoint findRoutingQueue (name : string) (entities : list Queue.t)
  : Res (option string) :=
  match entities with
  | [] => Val None
  | queue :: entities' =>
      match Queue.Name queue with
      | Some queueName =>
          if decide (queueName = name) then
            res_bind (deref (Queue.Id queue)) (fun id => Val (Some id))
          else findRoutingQueue name entities'
      | None => findRoutingQueue name entities'
      end
  end.

(** One try of [dataSourceRoutingQueueRead]: the function literal handed to
    [withRetries], from page [pageNum] on; [fuel] bounds the number of
    pages. *)
Fixpoint dataSourceRoutingQueueRead_try (fuel : nat) (routingAPI : Api)
    (name : string) (pageNum : Z) : M (option RetryError.t) :=
  match fuel with
  | O => outOfFuel
  | S fuel' =>
      let pageSize := 100 in
      '(queues, _, getErr) <- GetRoutingQueues routingAPI pageNum pageSize name;
      match getErr with
      | Some e => ret (NonRetryableError ("Error requesting queue " +:+ name +:+ ": " +:+ e))
      | None =>
          queues <- liftR (deref queues);
          match queues with
          | None | Some [] =>
              ret (RetryableError ("No routing queues found with name " +:+ name))
          | Some entities =>
              found <- liftR (findRoutingQueue name entities);
              match found with
              | Some id => _ <- dSetId id; ret None
              | None => dataSourceRoutingQueueRead_try fuel' routingAPI name (pageNum + 1)
              end
          end
      end
  end.

Definition dataSourceRoutingQueueRead (fuel : nat) (ctx : Context.t)
    (m : providerMeta.t) : M Diagnostics :=
  let routingAPI := providerMeta.ClientConfig m in
  d <- getD;
  name <- liftR (ResourceData.GetString d "name");
  withRetries ctx (15 * Second) (dataSourceRoutingQueueRead_try fuel routingAPI name 1).

(** The function literal that [dataSourceScheduleGroupRead] hands to
    [withRetries]. *)
Definition dataSourceScheduleGroupRead_try (archAPI : Api) (name : string)
  : M (option RetryError.t) :=
  let pageNum := 1 in
  let pageSize := 100 in
  '(scheduleGroups, _, getErr) <-
    GetArchitectSchedulegroups archAPI pageNum pageSize name;
  match getErr with
  | Some e =>
      ret (NonRetryableError ("Error requesting schedule group " +:+ name +:+ ": " +:+ e))
  | None =>
      scheduleGroups <- liftR (deref scheduleGroups);
      match scheduleGroups with
      | None | Some [] =>
          ret (RetryableError ("No schedule groups found with name " +:+ name))
      | Some (scheduleGroup :: _) =>
          id <- liftR (deref (Schedulegroup.Id scheduleGroup));
          _ <- dSetId id;
          ret None
      end
  end.

Definition dataSourceScheduleGroupRead (ctx : Context.t) (m : providerMeta.t)
  : M Diagnostics :=
  let archAPI := providerMeta.ClientConfig m in
  d <- getD;
  name <- liftR (ResourceData.GetString d "name");
  withRetries ctx (15 * Second) (dataSourceScheduleGroupRead_try archAPI name).

(** ** Further adapters of the same files *)

(** [getAllIdpGeneric]: an organisation has one generic identity provider
    or none; it is exported under the fixed ID [0]. *)
Definition getAllIdpGeneric (clientConfig : Api)
  : M (option ResourceIDMetaMap * Diagnostics) :=
  let idpAPI := clientConfig in
  let resources : ResourceIDMetaMap := ∅ in
  '(_, resp, getErr) <- GetIdentityprovidersGeneric idpAPI;
  match getErr with
  | Some e =>
      if isStatus404 resp then ret (Some resources, None)
      else ret (None, Some (DiagError ("Failed to get IDP Generic: " +:+ e)))
  | None => ret (Some (<["0" := ResourceMeta.mk "generic"]> resources), None)
  end.

Definition createIdpGeneric (ctx : Context.t) (meta : providerMeta.t)
  : M Diagnostics :=
  _ <- dSetId "generic";
  updateIdpGeneric ctx meta.

(** The function literal that [readCredential] hands to
    [withRetriesForRead]. The arguments of the two [d.Set] calls are
    evaluated in turn: the name is stored before the type is
    dereferenced. *)
Definition readCredential_try (integrationAPI : Api) : M (option RetryError.t) :=
  d <- getD;
  let id := ResourceData.Id d in
  '(currentCredential, resp, getErr) <- GetIntegrationsCredential integrationAPI id;
  match getErr with
  | Some e =>
      if isStatus404 resp then
        ret (RetryableError ("Failed to read credential " +:+ id +:+ ": " +:+ e))
      else
        ret (NonRetryableError ("Failed to read credential " +:+ id +:+ ": " +:+ e))
  | None =>
      currentCredential <- liftR (deref currentCredential);
      name <- liftR (deref (Credential.Name currentCredential));
      _ <- dSet "name" (Some (VString name));
      varType <- liftR (deref (Credential.VarType currentCredential));
      typeName <- liftR (deref (Credentialtype.Name varType));
      _ <- dSet "credential_type_name" (Some (VString typeName));
      ret None
  end.

Definition readCredential (ctx : Context.t) (meta : providerMeta.t)
  : M Diagnostics :=
  let integrationAPI := providerMeta.ClientConfig meta in
  withRetriesForRead ctx (30 * Second) (readCredential_try integrationAPI).

(** ** Phone capabilities and lines *)

Module Phonecapabilities.
Record t : Type := mk {
  Provisions : option bool;
  Registers : option bool;
  DualRegisters : option bool;
  HardwareIdType : option string;
  AllowReboot : option bool;
  NoRebalance : option bool;
  NoCloudProvisioning : option bool;
  MediaCodecs : option (list string);
  Cdm : option bool
}.
Definition empty : t := mk None None None None None None None None None.
End Phonecapabilities.

Module Domainentityref.
Record t : Type := mk { Id : option string }.
End Domainentityref.

(** The values of a line's [Properties], a [map[string]interface{}] that
    is built in memory and decoded from JSON: the nil interface, a string,
    a boolean, a map and a pointer to a map. The last two are different
    dynamic types: the type assertion [v.(map[string]interface{})] accepts
    the first and panics on the second. *)
Inductive Iface : Type :=
| IfNil
| IfString (s : string)
| IfBool (b : bool)
| IfMap (m : gmap string Iface)
| IfMapPtr (m : gmap string Iface).

Module Line.
Record t : Type := mk {
  Name : option string;
  Properties : option (gmap string Iface);
  LineBaseSettings : option Domainentityref.t
}.
End Line.

Definition assertBool (v : option Value) : Res bool :=
  match v with Some (VBool b) => Val b | _ => Panic end.

Definition assertList (v : option Value) : Res (list Value) :=
  match v with Some (VList l) => Val l | _ => Panic end.

Definition assertIfaceMap (v : option Iface) : Res (gmap string Iface) :=
  match v with Some (IfMap m) => Val m | _ => Panic end.

Definition assertIfaceString (v : option Iface) : Res string :=
  match v with Some (IfString s) => Val s | _ => Panic end.

(** [strconv.Itoa] on a number that is not negative. *)
Definition Itoa (n : nat) : string := NilEmpty.string_of_uint (Nat.to_uint n).

(** [buildSdkCapabilities]. [d.Get] hands out a list that is not nil for
    an attribute of the schema, so the outer nil test of the source always
    passes. [Sprintv] is [fmt.Sprintf("%v", _)]; a [[]string] is held as
    the list of its elements. *)
Definition buildSdkCapabilities (Sprintv : Value -> string) (d : ResourceData.t)
  : Res (option Phonecapabilities.t) :=
  res_bind (ResourceData.GetList d "capabilities") (fun capabilities =>
  let sdkPhoneCapabilities := Phonecapabilities.empty in
  match capabilities with
  | capabilitiesBlock :: _ =>
      res_bind (assertMap (Some capabilitiesBlock)) (fun capabilitiesMap =>
      res_bind (assertBool (capabilitiesMap !! "provisions")) (fun provisions =>
      res_bind (assertBool (capabilitiesMap !! "registers")) (fun registers =>
      res_bind (assertBool (capabilitiesMap !! "dual_registers")) (fun dualRegisters =>
      res_bind (assertString (capabilitiesMap !! "hardware_id_type"))
        (fun checkHardwareIdType =>
      let hardwareIdType :=
        if (0 <? String.length checkHardwareIdType)%nat then checkHardwareIdType
        else EmptyString in
      res_bind (assertBool (capabilitiesMap !! "allow_reboot")) (fun allowReboot =>
      res_bind (assertBool (capabilitiesMap !! "no_rebalance")) (fun noRebalance =>
      res_bind (assertBool (capabilitiesMap !! "no_cloud_provisioning"))
        (fun noCloudProvisioning =>
      res_bind (assertList (capabilitiesMap !! "media_codecs")) (fun checkMediaCodecs =>
      let mediaCodecs :=
        if (0 <? length checkMediaCodecs)%nat then
          foldl (fun mediaCodecs codec => (mediaCodecs ++ [Sprintv codec])%list) []
                checkMediaCodecs
        else [] in
      res_bind (assertBool (capabilitiesMap !! "cdm")) (fun cdm =>
      Val (Some (Phonecapabilities.mk (Some provisions) (Some registers)
                   (Some dualRegisters) (Some hardwareIdType) (Some allowReboot)
                   (Some noRebalance) (Some noCloudProvisioning) (Some mediaCodecs)
                   (Some cdm)))))))))))))
  | [] => Val (Some sdkPhoneCapabilities)
  end).

(** [flattenPhoneCapabilities]; [None] is the nil slice. *)
Definition flattenPhoneCapabilities (capabilities : option Phonecapabilities.t)
  : option (list Value) :=
  match capabilities with
  | None => None
  | Some capabilities =>
      let capabilitiesMap : gmap string Value := ∅ in
      let capabilitiesMap :=
        match Phonecapabilities.Provisions capabilities with
        | Some v => <["provisions" := VBool v]> capabilitiesMap
        | None => capabilitiesMap
        end in
      let capabilitiesMap :=
        match Phonecapabilities.Registers capabilities with
        | Some v => <["registers" := VBool v]> capabilitiesMap
        | None => capabilitiesMap
        end in
      let capabilitiesMap :=
        match Phonecapabilities.DualRegisters capabilities with
        | Some v => <["dual_registers" := VBool v]> capabilitiesMap
        | None => capabilitiesMap
        end in
      let capabilitiesMap :=
        match Phonecapabilities.HardwareIdType capabilities with
        | Some v => <["hardware_id_type" := VString v]> capabilitiesMap
        | None => capabilitiesMap
        end in
      let capabilitiesMap :=
        match Phonecapabilities.AllowReboot capabilities with
        | Some v => <["allow_reboot" := VBool v]> capabilitiesMap
        | None => capabilitiesMap
        end in
      let capabilitiesMap :=
        match Phonecapabilities.NoRebalance capabilities with
        | Some v => <["no_rebalance" := VBool v]> capabilitiesMap
        | None => capabilitiesMap
        end in
      let capabilitiesMap :=
        match Phonecapabilities.NoCloudProvisioning capabilities with
        | Some v => <["no_cloud_provisioning" := VBool v]> capabilitiesMap
        | None => capabilitiesMap
        end in
      let capabilitiesMap :=
        match Phonecapabilities.MediaCodecs capabilities with
        | Some v => <["media_codecs" := VList (VString <$> v)]> capabilitiesMap
        | None => capabilitiesMap
        end in
      let capabilitiesMap :=
        match Phonecapabilities.Cdm capabilities with
        | Some v => <["cdm" := VBool v]> capabilitiesMap
        | None => capabilitiesMap
        end in
      Some [VMap capabilitiesMap]
  end.

(** The loop [for i := 0; i < len(lineStringList); i++] of [buildSdkLines],
    from index [i] on; [rest] are the addresses from that index on. *)
Fixpoint buildSdkLines_range (lineBaseSettings : option Domainentityref.t)
    (rest : list string) (i : nat) (lines : list Line.t) : Res (list Line.t) :=
  match rest with
  | [] => Val lines
  | address :: rest' =>
      res_bind (deref lineBaseSettings) (fun ref =>
      res_bind (deref (Domainentityref.Id ref)) (fun baseId =>
      let lineName := "line_" +:+ baseId +:+ "_" +:+ Itoa (i + 1) in
      let properties : gmap string Iface :=
        {[ "station_identity_address" :=
             IfMapPtr {[ "value" := IfMapPtr {[ "instance" := IfString address ]} ]} ]} in
      buildSdkLines_range lineBaseSettings rest' (S i)
        (lines ++ [Line.mk (Some lineName) (Some properties) lineBaseSettings])%list))
  end.

(** [buildSdkLines]. The helper [interfaceListToStrings] is not among the
    sources and is an argument of the model. An attribute that is not set
    reads as the empty list, the zero value of its schema type. *)
Definition buildSdkLines (interfaceListToStrings : list Value -> Res (list string))
    (d : ResourceData.t) (lineBaseSettings : option Domainentityref.t)
  : Res (option (list Line.t) * bool) :=
  let lines : list Line.t := [] in
  let '(lineAddresses, ok) := ResourceData.GetOk d "line_addresses" in
  res_bind
    (match lineAddresses with
     | None => Val []
     | Some v => assertList (Some v)
     end) (fun lineAddresses =>
  res_bind (interfaceListToStrings lineAddresses) (fun lineStringList =>
  if negb ok || (length lineStringList =? 0)%nat then
    res_bind (deref lineBaseSettings) (fun ref =>
    res_bind (deref (Domainentityref.Id ref)) (fun baseId =>
    let lineName := "line_" +:+ baseId in
    Val (Some (lines ++ [Line.mk (Some lineName) None lineBaseSettings])%list, false)))
  else
    res_bind (buildSdkLines_range lineBaseSettings lineStringList 0 lines) (fun lines =>
    Val (Some lines, true)))).

(** The loop of [flattenPhoneLines] over the lines. *)
Fixpoint flattenPhoneLines_range (lines : list Line.t) (lineAddressList : list string)
  : Res (list string) :=
  match lines with
  | [] => Val lineAddressList
  | line :: lines' =>
      res_bind (deref (Line.Properties line)) (fun properties =>
      res_bind
        (match properties !! "station_identity_address" with
         | None | Some IfNil => Val EmptyString
         | Some k =>
             res_bind (assertIfaceMap (Some k)) (fun kMap =>
             res_bind (assertIfaceMap (kMap !! "value")) (fun valueMap =>
             match valueMap !! "instance" with
             | None | Some IfNil => Val EmptyString
             | Some didI => assertIfaceString (Some didI)
             end))
         end) (fun did =>
      if (String.length did =? 0)%nat then flattenPhoneLines_range lines' lineAddressList
      else flattenPhoneLines_range lines' (lineAddressList ++ [did])%list))
  end.

(** [flattenPhoneLines]; [None] is nil. *)
Definition flattenPhoneLines (lines : option (list Line.t)) : Res (option (list string)) :=
  match lines with
  | None => Val None
  | Some lines =>
      res_bind (flattenPhoneLines_range lines []) (fun lineAddressList =>
      Val (Some lineAddressList))
  end.

(** * Vocabulary of the properties *)

(** ** Vocabulary of the builder properties *)



(** ** Vocabulary of the delete property *)

(** The entity types that support delete. *)
Inductive Deletable : Type :=
| DIntegrationAction
| DOAuthClient
| DCredential
| DIdpGeneric
| DPhone.


Definition deletePoll (ty : Deletable) : Api -> M (option RetryError.t) :=
  match ty with
  | DIntegrationAction => deleteIntegrationAction_poll
  | DOAuthClient => deleteOAuthClient_poll
  | DCredential => deleteCredential_poll
  | DIdpGeneric => deleteIdpGeneric_poll
  | DPhone => deletePhone_poll
  end.


Definition readRequest (ty : Deletable) (id : string) : Request :=
  match ty with
  | DIntegrationAction => ReqGetIntegrationAction id
  | DOAuthClient => ReqGetOauthClient id
  | DCredential => ReqGetIntegrationsCredential id
  | DIdpGeneric => ReqGetIdentityprovidersGeneric
  | DPhone => ReqGetTelephonyProvidersEdgesPhone id
  end.

(** What a reply to the get call tells about the entity: the server
    answers not-found (an error with status 404), the entity is returned in
    the terminal state [deleted], the entity is returned otherwise, the
    call fails in another way, or the reply cannot be read at all (no
    response and no error, or no state where the adapter dereferences
    one). Integration actions, credentials and the identity provider have
    no lifecycle state on the wire. *)
Inductive Observation : Type :=
| ObsNotFound
| ObsDeleted
| ObsPresent
| ObsFailure (e : string)
| ObsUnreadable.

Definition observeState (state : option string) : Observation :=
  match state with
  | Some s => if decide (s = "deleted") then ObsDeleted else ObsPresent
  | None => ObsUnreadable
  end.

Definition observeError (resp : option APIResponse.t) (e : string) : Observation :=
  if isStatus404 resp then ObsNotFound else ObsFailure e.

Definition observe (ty : Deletable) (reply : Reply.t) : Observation :=
  match Reply.err reply with
  | Some e => observeError (Reply.response reply) e
  | None =>
      match Reply.response reply with
      | None => ObsUnreadable
      | Some r =>
          match APIResponse.Error r with
          | Some _ => observeError (Some r) (APIResponse.ErrorMessage r)
          | None =>
              match ty, APIResponse.Payload r with
              | DIntegrationAction, BAction _ => ObsPresent
              | DOAuthClient, BOauthClient c => observeState (Oauthclient.State c)
              | DCredential, BCredential _ => ObsPresent
              | DIdpGeneric, BGenericsaml _ => ObsPresent
              | DPhone, BPhone p => observeState (Phone.State p)
              | _, _ => observeError (Some r) jsonError
              end
          end
      end
  end.

(** The server accepted a call: no transport error, and a response that
    carries no error. *)
Definition accepted (reply : Reply.t) : Prop :=
  Reply.err reply = None /\
  exists r, Reply.response reply = Some r /\ APIResponse.Error r = None.

Definition stillExistsMessage (ty : Deletable) (id : string) : string :=
  match ty with
  | DIntegrationAction => "Integration action " +:+ id +:+ " still exists"
  | DOAuthClient => "OAuth client " +:+ id +:+ " still exists"
  | DCredential => "Integration credential " +:+ id +:+ " still exists"
  | DIdpGeneric => "IDP Generic still exists"
  | DPhone => "Phone " +:+ id +:+ " still exists"
  end.

Definition pollFailureMessage (ty : Deletable) (id e : string) : string :=
  match ty with
  | DIntegrationAction => "Error deleting integration action " +:+ id +:+ ": " +:+ e
  | DOAuthClient => "Error deleting OAuth client " +:+ id +:+ ": " +:+ e
  | DCredential => "Error deleting credential action " +:+ id +:+ ": " +:+ e
  | DIdpGeneric => "Error deleting IDP Generic: " +:+ e
  | DPhone => "Error deleting Phone " +:+ id +:+ ": " +:+ e
  end.

(** What the poll of a delete returns to [withRetries] on an
    observation. *)
Definition pollVerdict (ty : Deletable) (id : string) (reply : Reply.t)
  : Res (option RetryError.t) :=
  match observe ty reply with
  | ObsNotFound | ObsDeleted => Val None
  | ObsPresent => Val (RetryableError (stillExistsMessage ty id))
  | ObsFailure e => Val (NonRetryableError (pollFailureMessage ty id e))
  | ObsUnreadable => Panic
  end.

(** One call followed by a verdict on its reply. *)
Definition pollOnce (api : Api) (req : Request)
    (verdict : Reply.t -> Res (option RetryError.t)) : M (option RetryError.t) :=
  reply <- CallAPI api req;
  liftR (verdict reply).

(** The number of tries [withRetries] makes at most. *)
Definition maxTries (ctx : Context.t) (timeout : Z) : nat :=
  S (Z.to_nat (timeout / Z.pos (Context.pollInterval ctx))).

(** What a run of the polling loop over a single request looks like: the
    calls it appends to the trace, all but the last of which drew a
    retryable verdict, and the result, which the verdict on the last reply
    decides. *)
Definition pollRun (req : Request) (verdict : Reply.t -> Res (option RetryError.t))
    (interval : Z) (retries : nat) (st : State.t)
    (res : Res Diagnostics) (st' : State.t) : Prop :=
  exists polls,
    State.trace st' = (State.trace st ++ polls)%list /\
    State.rd st' = State.rd st /\
    State.now st' = State.now st + interval * Z.of_nat (length polls - 1) /\
    Forall (fun ev : Event => ev.1 = req) polls /\
    (1 <= length polls <= S retries)%nat /\
    (forall k ev, polls !! k = Some ev -> (S k < length polls)%nat ->
       exists e, verdict ev.2 = Val (Some (RetryError.mk e true))) /\
    exists ev, last polls = Some ev /\
      match verdict ev.2 with
      | Val None => res = Val None
      | Val (Some e) =>
          if RetryError.Retryable e
          then res = Val (Some (DiagRetryExhausted (RetryError.Err e))) /\
               length polls = S retries
          else res = Val (Some (DiagError (RetryError.Err e)))
      | Panic => res = Panic
      | OutOfFuel => res = OutOfFuel
      end.

(** The state in which [deleteOAuthClient] starts the update: the resource
    data with [state] set to [inactive]. *)
Definition inactivated (st : State.t) : State.t :=
  State.mk (State.trace st) (State.now st)
    (ResourceData.Set_ "state" (Some (VString "inactive")) (State.rd st)).




(** ** Vocabulary of the trace properties *)

(** Every call that [m] makes, from whatever state, satisfies [P]: the
    trace only grows, and by events in [P]. *)
Definition emits {A} (P : Event -> Prop) (m : M A) : Prop :=
  forall st r st', m st = (r, st') ->
    exists evs, State.trace st' = (State.trace st ++ evs)%list /\ Forall P evs.

(** The calls [updateOAuthClient] may make on the resource data [d]: it
    asks for the home division, puts the client with the state configured
    in [d], and gets the client. *)
Definition updateOAuthClientEvent (d : ResourceData.t) (ev : Event) : Prop :=
  match ev.1 with
  | ReqGetAuthorizationDivisionsHome => True
  | ReqGetOauthClient _ => True
  | ReqPutOauthClient clientId body =>
      clientId = ResourceData.Id d /\
      ResourceData.GetString d "state" =
        match Oauthclientrequest.State body with
        | Some state => Val state
        | None => Panic
        end
  | _ => False
  end.

(** The calls of an update that inactivates an OAuth client: every PUT
    carries the state [inactive]; no call is a delete. *)
Definition inactivatingUpdateEvent (ev : Event) : Prop :=
  match ev.1 with
  | ReqGetAuthorizationDivisionsHome => True
  | ReqGetOauthClient _ => True
  | ReqPutOauthClient _ body => Oauthclientrequest.State body = Some "inactive"
  | _ => False
  end.

(** ** Vocabulary of the read property *)

(** The server answers not-found: the call fails and the response has
    status 404. *)
Definition notFound (reply : Reply.t) : Prop :=
  isStatus404 (Reply.response reply) = true /\
  (Reply.err reply <> None \/
   exists r, Reply.response reply = Some r /\ APIResponse.Error r <> None).


(** ** Vocabulary of the exporter properties *)

(** The accumulation loop of an exporter over the entities of a page. *)
Definition collect {E} (add : E -> ResourceIDMetaMap -> Res ResourceIDMetaMap)
    (entities : list E) (resources : ResourceIDMetaMap) : Res ResourceIDMetaMap :=
  foldl (fun acc e => res_bind acc (add e)) (Val resources) entities.

(** The pagination loop the three paginated exporters share: page
    [pageNum] is requested; an error ends the loop with a failure, an
    absent or empty entity list ends it with the resources gathered so
    far, and any other page is accumulated before the next page is
    requested. *)
Fixpoint paginate {E} (request : Z -> Request)
    (decode : Body -> option (option (list E)))
    (add : E -> ResourceIDMetaMap -> Res ResourceIDMetaMap) (failure : string)
    (fuel : nat) (api : Api) (pageNum : Z) (resources : ResourceIDMetaMap)
  : M (option ResourceIDMetaMap * Diagnostics) :=
  match fuel with
  | O => outOfFuel
  | S fuel' =>
      '(listing, _, err) <- callSdk api (request pageNum) decode;
      match err with
      | Some e => ret (None, Some (DiagError (failure +:+ e)))
      | None =>
          listing <- liftR (deref listing);
          match listing with
          | None | Some [] => ret (Some resources, None)
          | Some entities =>
              resources <- liftR (collect add entities resources);
              paginate request decode add failure fuel' api (pageNum + 1) resources
          end
      end
  end.

(** The server accepts the call and its response decodes to [body]. *)
Definition listed (reply : Reply.t) (body : Body) : Prop :=
  Reply.err reply = None /\
  exists r, Reply.response reply = Some r /\
    APIResponse.Error r = None /\ APIResponse.Payload r = body.

(** The collection does not change while it is listed: whatever calls were
    made before, page [i] of the collection is [pages !! (i - 1)], every
    such page is non-empty, and the page after the last has an absent or
    empty entity list. *)
Definition servesPages {E} (api : Api) (request : Z -> Request)
    (listing : option (list E) -> Body) (pages : list (list E))
    (final : option (list E)) : Prop :=
  Forall (fun page => page <> []) pages /\
  (final = None \/ final = Some []) /\
  (forall history i page,
     pages !! i = Some page ->
     listed (api history (request (1 + Z.of_nat i))) (listing (Some page))) /\
  (forall history,
     listed (api history (request (1 + Z.of_nat (length pages)))) (listing final)).

(** The requests for the pages [1 .. n]. *)
Definition pageRequests (request : Z -> Request) (n : nat) : list Request :=
  map (fun i => request (1 + Z.of_nat i)) (seq 0 n).

(** The resource map holds exactly the listed entities that are not
    excluded, each under its ID with its name. *)
Definition exportsExactly {E} (entities : list E) (ident name : E -> option string)
    (excluded : E -> Prop) (resources : ResourceIDMetaMap) : Prop :=
  forall id n,
    resources !! id = Some (ResourceMeta.mk n) <->
    exists e, e ∈ entities /\ ident e = Some id /\ name e = Some n /\ ~ excluded e.

(** What an entity contributes to the resource map: nothing, or a name
    under an ID. *)
Definition insertEntry (entry : option (string * string))
    (resources : ResourceIDMetaMap) : ResourceIDMetaMap :=
  match entry with
  | Some (id, name) => <[id := ResourceMeta.mk name]> resources
  | None => resources
  end.

Definition actionEntry (action : Action.t) : option (string * string) :=
  match Action.Id action, Action.Name action with
  | Some id, Some name => if String.prefix "static" id then None else Some (id, name)
  | _, _ => None
  end.

Definition oauthClientEntry (client : Oauthclientlisting.t) : option (string * string) :=
  match Oauthclientlisting.Id client, Oauthclientlisting.Name client with
  | Some id, Some name =>
      if decide (Oauthclientlisting.State client = Some "disabled") then None
      else Some (id, name)
  | _, _ => None
  end.

Definition credentialEntry (cred : Credentialinfo.t) : option (string * string) :=
  match Credentialinfo.Id cred, Credentialinfo.Name cred with
  | Some id, Some name => Some (id, name)
  | _, _ => None
  end.

Definition phoneEntry (phone : Phone.t) : option (string * string) :=
  match Phone.Id phone, Phone.Name phone with
  | Some id, Some name =>
      if decide (Phone.State phone = Some "deleted") then None else Some (id, name)
  | _, _ => None
  end.

(** A paginated exporter [getAll], given enough fuel, stops at the first
    page whose entity list is absent or empty, having requested every page
    up to that one and no other, and returns exactly the entities of the
    pages before it that are not excluded. The entities are assumed to be
    readable ([wellFormed]) and to have pairwise distinct IDs. *)
Definition paginatesToFirstEmptyPage {E}
    (getAll : nat -> Api -> M (option ResourceIDMetaMap * Diagnostics))
    (request : Z -> Request) (listing : option (list E) -> Body)
    (wellFormed : E -> Prop) (ident name : E -> option string)
    (excluded : E -> Prop) : Prop :=
  forall api pages final st fuel,
    servesPages api request listing pages final ->
    Forall wellFormed (concat pages) ->
    NoDup (omap ident (concat pages)) ->
    (length pages < fuel)%nat ->
    exists resources evs st',
      getAll fuel api st = (Val (Some resources, None), st') /\
      State.trace st' = (State.trace st ++ evs)%list /\
      map fst evs = pageRequests request (S (length pages)) /\
      exportsExactly (concat pages) ident name excluded resources.

(** The accumulation loop [addAll] of an exporter, run on readable
    entities with pairwise distinct IDs, returns exactly the entities that
    are not excluded. *)
Definition excludesExactly {E}
    (addAll : list E -> ResourceIDMetaMap -> Res ResourceIDMetaMap)
    (wellFormed : E -> Prop) (ident name : E -> option string)
    (excluded : E -> Prop) : Prop :=
  forall entities,
    Forall wellFormed entities ->
    NoDup (omap ident entities) ->
    exists resources,
      addAll entities ∅ = Val resources /\
      exportsExactly entities ident name excluded resources.

Definition staticAction (action : Action.t) : Prop :=
  exists id, Action.Id action = Some id /\ String.prefix "static" id = true.

Definition disabledClient (client : Oauthclientlisting.t) : Prop :=
  Oauthclientlisting.State client = Some "disabled".

Definition deletedPhone (phone : Phone.t) : Prop :=
  Phone.State phone = Some "deleted".

(** ** Vocabulary of the further properties *)

(** A block of the [roles] set: a role and a division. *)
Definition roleBlock (roleId divisionId : string) : gmap string string :=
  <["division_id" := divisionId]> (<["role_id" := roleId]> ∅).

(** The SDK role that carries the attributes of a block. *)
Definition roleOfBlock (role : gmap string string) : Roledivision.t :=
  Roledivision.mk (role !! "role_id") (role !! "division_id").

(** The call fails with the error [e]: a transport error, or a response
    that carries an error and the message [e]. *)
Definition failsWith (reply : Reply.t) (e : string) : Prop :=
  Reply.err reply = Some e \/
  (Reply.err reply = None /\
   exists r, Reply.response reply = Some r /\
     is_Some (APIResponse.Error r) /\ APIResponse.ErrorMessage r = e).

(** A paginated exporter, given enough fuel, on a collection whose first
    pages are served and whose next page fails with [e]: it requests the
    pages up to the failing one, and returns the failure and no
    resources. *)
Definition dropsPagesOnFailure {E}
    (getAll : nat -> Api -> M (option ResourceIDMetaMap * Diagnostics))
    (request : Z -> Request) (listing : option (list E) -> Body)
    (wellFormed : E -> Prop) (failure : string) : Prop :=
  forall api pages e st fuel,
    Forall (fun page => page <> []) pages ->
    (forall history i page,
       pages !! i = Some page ->
       listed (api history (request (1 + Z.of_nat i))) (listing (Some page))) ->
    (forall history,
       failsWith (api history (request (1 + Z.of_nat (length pages)))) e) ->
    Forall wellFormed (concat pages) ->
    (length pages < fuel)%nat ->
    exists evs st',
      getAll fuel api st = (Val (None, Some (DiagError (failure +:+ e))), st') /\
      State.trace st' = (State.trace st ++ evs)%list /\
      map fst evs = pageRequests request (S (length pages)).

(** The accumulation loop [addAll] of an exporter, run on readable
    entities of which [e] is the last to have the ID [id], stores the name
    of [e] under [id], provided [e] is not excluded. *)
Definition lastListedWins {E}
    (addAll : list E -> ResourceIDMetaMap -> Res ResourceIDMetaMap)
    (wellFormed : E -> Prop) (ident name : E -> option string)
    (excluded : E -> Prop) : Prop :=
  forall before e after id n,
    Forall wellFormed (before ++ e :: after)%list ->
    ident e = Some id -> name e = Some n -> ~ excluded e ->
    Forall (fun e' => ident e' <> Some id) after ->
    exists resources,
      addAll (before ++ e :: after)%list ∅ = Val resources /\
      resources !! id = Some (ResourceMeta.mk n).

(** Every run of [m] makes only calls in [P], leaves the resource data as
    it is and takes no time on the clock. *)
Definition onlyCalls {A} (P : Request -> Prop) (m : M A) : Prop :=
  forall st r st', m st = (r, st') ->
    (exists evs, State.trace st' = (State.trace st ++ evs)%list /\
                 Forall (fun ev : Event => P ev.1) evs) /\
    State.rd st' = State.rd st /\
    State.now st' = State.now st.

(** Every run of [m] changes the resource data by [R] steps only. *)
Definition changesDataBy {A} (R : ResourceData.t -> ResourceData.t -> Prop) (m : M A)
  : Prop :=
  forall st r st', m st = (r, st') -> R (State.rd st) (State.rd st').

(** The resource keeps its ID and its new-resource mark. *)
Definition sameEntity (d d' : ResourceData.t) : Prop :=
  ResourceData.Id d' = ResourceData.Id d /\
  ResourceData.IsNewResource d' = ResourceData.IsNewResource d.

(** The resource keeps its new-resource mark, and keeps its ID or has it
    reset to the empty string. *)
Definition sameEntityOrNone (d d' : ResourceData.t) : Prop :=
  (ResourceData.Id d' = ResourceData.Id d \/ ResourceData.Id d' = EmptyString) /\
  ResourceData.IsNewResource d' = ResourceData.IsNewResource d.

(** The server accepts the call and its response has the raw body
    [text]. *)
Definition servesText (reply : Reply.t) (text : string) : Prop :=
  Reply.err reply = None /\
  exists r, Reply.response reply = Some r /\
    APIResponse.Error r = None /\ APIResponse.RawBody r = text.

(** Every run of [m] makes at least one call, makes only calls of [req],
    and does not set the clock back. *)
Definition callsOnly {A} (req : Request) (m : M A) : Prop :=
  forall st r st', m st = (r, st') ->
    State.now st <= State.now st' /\
    exists ev evs,
      State.trace st' = (State.trace st ++ ev :: evs)%list /\
      Forall (fun ev : Event => ev.1 = req) (ev :: evs).

(** The attributes of the [capabilities] block. *)
Definition capabilityKeys : list string :=
  ["provisions"; "registers"; "dual_registers"; "hardware_id_type"; "allow_reboot";
   "no_rebalance"; "no_cloud_provisioning"; "media_codecs"; "cdm"].

(** What a JSON encoding followed by a decoding into [interface{}] makes
    of a value: a pointer to a map is followed, a map stays a map. *)
Fixpoint decoded (v : Iface) : Iface :=
  match v with
  | IfMap m => IfMap (decoded <$> m)
  | IfMapPtr m => IfMap (decoded <$> m)
  | IfNil => IfNil
  | IfString s => IfString s
  | IfBool b => IfBool b
  end.

(** A line after a JSON encoding and decoding of its properties. *)
Definition decodedLine (line : Line.t) : Line.t :=
  Line.mk (Line.Name line)
    ((fun properties : gmap string Iface => decoded <$> properties)
       <$> Line.Properties line)
    (Line.LineBaseSettings line).

(** The line that [buildSdkLines] builds for the address at index [i] of a
    standalone phone. *)
Definition standaloneLine (lineBaseSettings : Domainentityref.t) (baseId : string)
    (i : nat) (address : string) : Line.t :=
  Line.mk (Some ("line_" +:+ baseId +:+ "_" +:+ Itoa (i + 1)))
    (Some {[ "station_identity_address" :=
               IfMapPtr {[ "value" := IfMapPtr {[ "instance" := IfString address ]} ]} ]})
    (Some lineBaseSettings).

(** The attribute [line_addresses] holds the addresses [strs]; an attribute
    that is not set holds none. *)
Definition lineAddressesAre (d : ResourceData.t) (strs : list string) : Prop :=
  ResourceData.attrs d !! "line_addresses" = Some (VList (VString <$> strs)) \/
  (ResourceData.attrs d !! "line_addresses" = None /\ strs = []).

(** * Sample configurations and servers *)

Definition sampleConfigRequest : gmap string Value :=
  {[ "request_url_template" := VString "https://example.org/items";
     "request_type" := VString "GET";
     "request_template" := VString "${input.rawRequest}";
     "headers" := VMap {[ "Accept" := VString "application/json" ]} ]}.

Definition sampleActionData : ResourceData.t :=
  ResourceData.mk "action-1"
    {[ "name" := VString "lookup";
       "config_request" := VList [VMap sampleConfigRequest] ]}
    false.

(** A resource data on which no attribute is set. *)
Definition emptyData : ResourceData.t := ResourceData.mk "generic" ∅ false.

Definition sampleIdpData : ResourceData.t :=
  ResourceData.mk "generic"
    {[ "name" := VString "idp";
       "issuer_uri" := VString "https://issuer.example.org";
       "certificates" := VSet {[ "cert-a" ]} ]}
    false.

Definition okResponse (payload : Body) : APIResponse.t :=
  APIResponse.mk 200 None EmptyString EmptyString payload.

Definition okReply (payload : Body) : Reply.t :=
  Reply.mk (Some (okResponse payload)) None.

Definition errorReply (status : Z) (message : string) : Reply.t :=
  Reply.mk (Some (APIResponse.mk status (Some message) message EmptyString BNone)) None.

(** A context that polls every ten seconds and retries twice. *)
Definition sampleContext : Context.t := Context.mk 10000000000%positive 2.

Definition sampleCredential : Credential.t :=
  Credential.mk (Some "cred-1") (Some "token") None None.

(** A server on which a credential stays visible however often it is
    deleted. *)
Definition stubbornServer : Api :=
  fun history req =>
    match req with
    | ReqGetIntegrationsCredential _ => okReply (BCredential sampleCredential)
    | _ => okReply BNone
    end.

(** A server on which the credential is gone from the second get after the
    delete on. *)
Definition eventualServer : Api :=
  fun history req =>
    match req with
    | ReqGetIntegrationsCredential _ =>
        if (length history <=? 1)%nat then okReply (BCredential sampleCredential)
        else errorReply 404 "not found"
    | _ => okReply BNone
    end.

Definition sampleCredentialState : State.t :=
  State.mk [] 0 (ResourceData.mk "cred-1" ∅ false).

Definition sampleAction : IntegrationAction.t :=
  IntegrationAction.mk (Some "action-1") (Some "lookup") (Some "crm")
    (Some "integration-1") (Some false) None None (Some 3).

(** The number of PATCH calls in a history. *)
Definition patchCount (history : list Event) : nat :=
  length (List.filter
            (fun ev : Event =>
               match ev.1 with ReqPatchIntegrationsAction _ _ => true | _ => false end)
            history).

(** A server on which the action is at version 3 and whose first PATCH is
    rejected as a version conflict; any later PATCH is accepted. *)
Definition versionConflictServer : Api :=
  fun history req =>
    match req with
    | ReqGetIntegrationAction _ => okReply (BAction sampleAction)
    | ReqPatchIntegrationsAction _ _ =>
        if (patchCount history =? 0)%nat then errorReply 409 "version mismatch"
        else okReply (BAction sampleAction)
    | _ => okReply BNone
    end.

Definition sampleActionState : State.t := State.mk [] 0 sampleActionData.

Definition sampleScheduleGroup : Schedulegroup.t :=
  Schedulegroup.mk (Some "group-7") (Some "Support EMEA").

Definition sampleQueue : Queue.t := Queue.mk (Some "queue-7") (Some "Support EMEA").

(** A server whose name search matches by prefix: asked for [Support] it
    lists, on the first page, the one entity named [Support EMEA]; every
    further page is empty. *)
Definition prefixSearchServer : Api :=
  fun history req =>
    match req with
    | ReqGetArchitectSchedulegroups 1 _ _ =>
        okReply (BSchedulegroupListing (Some [sampleScheduleGroup]))
    | ReqGetRoutingQueues 1 _ _ => okReply (BQueueListing (Some [sampleQueue]))
    | ReqGetArchitectSchedulegroups _ _ _ => okReply (BSchedulegroupListing None)
    | ReqGetRoutingQueues _ _ _ => okReply (BQueueListing None)
    | _ => okReply BNone
    end.

Definition sampleLookupState : State.t :=
  State.mk [] 0 (ResourceData.mk EmptyString {[ "name" := VString "Support" ]} false).

Definition sampleActions : list Action.t :=
  [Action.mk (Some "static-1") (Some "builtin"); Action.mk (Some "action-1") (Some "lookup")].

Definition sampleCredentials : list Credentialinfo.t :=
  [Credentialinfo.mk (Some "cred-1") (Some "token")].

Definition samplePhones : list Phone.t :=
  [Phone.mk (Some "phone-1") (Some "lobby") (Some "deleted");
   Phone.mk (Some "phone-2") (Some "desk") (Some "active")].

Definition sampleClients : list Oauthclientlisting.t :=
  [Oauthclientlisting.mk (Some "client-1") (Some "support") (Some "disabled");
   Oauthclientlisting.mk (Some "client-2") (Some "deploy") (Some "active")].

(** A server whose collections each fit on one short page: the first page
    of every listing holds one or two entities, far fewer than the hundred
    asked for, and every further page has no entity list. *)
Definition shortPageServer : Api :=
  fun history req =>
    match req with
    | ReqGetIntegrationsActions _ 1 => okReply (BActionListing (Some sampleActions))
    | ReqGetIntegrationsActions _ _ => okReply (BActionListing None)
    | ReqGetIntegrationsCredentials 1 _ =>
        okReply (BCredentialListing (Some sampleCredentials))
    | ReqGetIntegrationsCredentials _ _ => okReply (BCredentialListing None)
    | ReqGetTelephonyProvidersEdgesPhones 1 _ => okReply (BPhoneListing (Some samplePhones))
    | ReqGetTelephonyProvidersEdgesPhones _ _ => okReply (BPhoneListing None)
    | ReqGetOauthClients => okReply (BOauthClientListing (Some sampleClients))
    | _ => okReply BNone
    end.

Definition emptyState : State.t := State.mk [] 0 emptyData.

(** A server that answers not-found to every call. *)
Definition notFoundServer : Api := fun history req => errorReply 404 "not found".

Definition sampleOauthClient : Oauthclient.t :=
  Oauthclient.mk (Some "client-2") (Some "deploy") (Some 86400) None None None
    (Some "CLIENT-CREDENTIALS") None (Some "inactive").

(** Whether a history holds a delete of an OAuth client. *)
Definition oauthClientDeleted (history : list Event) : bool :=
  existsb (fun ev : Event =>
             match ev.1 with ReqDeleteOauthClient _ => true | _ => false end)
          history.

(** A server that accepts every call and on which an OAuth client is gone
    once it has been deleted. *)
Definition oauthServer : Api :=
  fun history req =>
    match req with
    | ReqGetOauthClient _ =>
        if oauthClientDeleted history then errorReply 404 "not found"
        else okReply (BOauthClient sampleOauthClient)
    | ReqPutOauthClient _ _ => okReply (BOauthClient sampleOauthClient)
    | _ => okReply BNone
    end.

Definition sampleOauthState : State.t :=
  State.mk [] 0
    (ResourceData.mk "client-2"
       {[ "name" := VString "deploy"; "state" := VString "active" ]} false).

(** A response block without a map of defaults. *)
Definition sampleConfigResponse : gmap string Value :=
  {[ "translation_map" := VMap {[ "status" := VString "$.status" ]};
     "success_template" := VString "${rawResult}" ]}.

Definition sampleResponseData : ResourceData.t :=
  ResourceData.mk "action-1"
    {[ "config_response" := VList [VMap sampleConfigResponse] ]} false.

Definition sampleFieldsData : ResourceData.t :=
  ResourceData.mk "cred-1" {[ "fields" := VMap {[ "token" := VString "secret" ]} ]} false.

Definition sampleRolesData : ResourceData.t :=
  ResourceData.mk "client-2"
    {[ "roles" := VBlockSet {[ roleBlock "role-1" "division-1" ]} ]} false.

(** A configuration whose set of roles is empty. *)
Definition sampleNoRolesData : ResourceData.t :=
  ResourceData.mk "client-9" {[ "roles" := VBlockSet ∅ ]} false.

(** A server whose first page of credentials is served and whose every
    other call fails. *)
Definition brokenPageServer : Api :=
  fun history req =>
    match req with
    | ReqGetIntegrationsCredentials 1 _ =>
        okReply (BCredentialListing (Some sampleCredentials))
    | _ => errorReply 500 "internal error"
    end.

Definition sampleGeneric : Genericsaml.t :=
  Genericsaml.mk (Some "idp") (Some false) (Some "https://issuer.example.org")
    (Some EmptyString) (Some "cert-a") None (Some EmptyString) (Some EmptyString)
    (Some false) (Some EmptyString).

(** A server that has the identity provider [sampleGeneric] and accepts
    every call. *)
Definition idpServer : Api :=
  fun history req =>
    match req with
    | ReqGetIdentityprovidersGeneric => okReply (BGenericsaml sampleGeneric)
    | ReqPutIdentityprovidersGeneric body => okReply (BGenericsaml body)
    | _ => okReply BNone
    end.

(** A server that keeps the identity provider it was last sent. *)
Definition echoIdpServer : Api :=
  fun history req =>
    match req with
    | ReqGetIdentityprovidersGeneric =>
        match
          omap (fun ev : Event =>
                  match ev.1 with
                  | ReqPutIdentityprovidersGeneric body => Some body
                  | _ => None
                  end) (reverse history)
        with
        | body :: _ => okReply (BGenericsaml body)
        | [] => errorReply 404 "not found"
        end
    | ReqPutIdentityprovidersGeneric body => okReply (BGenericsaml body)
    | _ => okReply BNone
    end.

(** A server with two pages of queues found for [Support]; only the queue
    on the second page has that very name. *)
Definition queuePagesServer : Api :=
  fun history req =>
    match req with
    | ReqGetRoutingQueues 1 _ _ => okReply (BQueueListing (Some [sampleQueue]))
    | ReqGetRoutingQueues 2 _ _ =>
        okReply (BQueueListing (Some [Queue.mk (Some "queue-8") (Some "Support")]))
    | ReqGetRoutingQueues _ _ _ => okReply (BQueueListing None)
    | _ => okReply BNone
    end.

(** A credential as the server returns it, fields included. *)
Definition sampleTypedCredential : Credential.t :=
  Credential.mk (Some "cred-1") (Some "token")
    (Some (Credentialtype.mk (Some "basicAuth"))) (Some {[ "password" := "secret" ]}).

Definition credentialServer : Api :=
  fun history req => okReply (BCredential sampleTypedCredential).

Definition namelessCredentialServer : Api :=
  fun history req => okReply (BCredential (Credential.mk (Some "cred-1") None None None)).

(** An accepted reply with the raw body [text]. *)
Definition textReply (text : string) : Reply.t :=
  Reply.mk (Some (APIResponse.mk 200 None EmptyString text BNone)) None.

(** An action whose own configuration carries stale templates. *)
Definition sampleConfiguredAction : IntegrationAction.t :=
  IntegrationAction.mk (Some "action-1") (Some "lookup") (Some "crm")
    (Some "integration-1") (Some false)
    (Some (Actionconfig.mk
             (Some (Requestconfig.mk (Some "https://example.org/items")
                      (Some "stale") (Some "GET") None))
             (Some (Responseconfig.mk None None (Some "stale")))))
    None (Some 3).

(** A server on which the templates of the action are kept apart from the
    action. *)
Definition templateServer : Api :=
  fun history req =>
    match req with
    | ReqGetIntegrationAction _ => okReply (BAction sampleConfiguredAction)
    | ReqGetIntegrationActionTemplate _ "requesttemplate.vm" => textReply "${input.rawRequest}"
    | ReqGetIntegrationActionTemplate _ _ => textReply "${rawResult}"
    | _ => okReply BNone
    end.

(** A formatter that renders a string as itself. *)
Definition sampleSprintv (v : Value) : string :=
  match v with VString s => s | _ => EmptyString end.

Definition sampleCapabilities : gmap string Value :=
  {[ "provisions" := VBool false; "registers" := VBool true;
     "dual_registers" := VBool false; "hardware_id_type" := VString "mac";
     "allow_reboot" := VBool true; "no_rebalance" := VBool false;
     "no_cloud_provisioning" := VBool false;
     "media_codecs" := VList [VString "audio/opus"]; "cdm" := VBool true ]}.

Definition samplePhoneData : ResourceData.t :=
  ResourceData.mk "phone-2"
    {[ "capabilities" := VList [VMap sampleCapabilities];
       "line_addresses" := VList [VString "+13175550000"; VString "+13175550001"] ]}
    false.

(** A conversion of a list of strings, element by element. *)
Definition sampleInterfaceListToStrings (l : list Value) : Res (list string) :=
  foldr (fun v acc =>
           res_bind (assertString (Some v)) (fun s =>
           res_bind acc (fun strs => Val (s :: strs))))
        (Val []) l.

Definition sampleLineBaseSettings : Domainentityref.t :=
  Domainentityref.mk (Some "base-1").

(** * Properties *)

(** ** Builders and flatteners *)

Lemma copyStringMap_fmap (h : gmap string string) :
  copyStringMap (VString <$> h) = Val h.
Proof.
  unfold copyStringMap.
  induction h as [|k s h Hk IH] using map_ind.
  - rewrite fmap_empty. apply map_fold_empty.
  - rewrite fmap_insert. rewrite map_fold_insert_L.
    + rewrite IH. reflexivity.
    + intros j1 j2 z1 z2 y Hne _ _.
      destruct y as [out| |]; simpl; try (destruct z1, z2; reflexivity).
      destruct z1, z2; simpl; try reflexivity.
      f_equal. apply insert_insert_ne. congruence.
    + rewrite lookup_fmap, Hk. reflexivity.
Qed.

(** C6. Round trip of the [config_request] block: for every block with a
    URL template, a request type, a request template and (possibly) a map
    of string headers, flattening the SDK request built from it yields one
    block that carries the same URL template, request type and request
    template, and the same headers, and nothing else. A request type GET
    therefore reads back as GET. *)
Theorem config_request_roundtrip
    (d : ResourceData.t) (cfg : gmap string Value) (others : list Value)
    (url ty tpl : string) (headers : option (gmap string string)) :
  ResourceData.attrs d !! "config_request" = Some (VList (VMap cfg :: others)) ->
  cfg !! "request_url_template" = Some (VString url) ->
  cfg !! "request_type" = Some (VString ty) ->
  cfg !! "request_template" = Some (VString tpl) ->
  cfg !! "headers" = (fun h => VMap (VString <$> h)) <$> headers ->
  exists sdkRequest out,
    buildSdkActionConfigRequest d = Val (Some sdkRequest) /\
    flattenActionConfigRequest sdkRequest = [VMap out] /\
    out !! "request_url_template" = cfg !! "request_url_template" /\
    out !! "request_type" = cfg !! "request_type" /\
    out !! "request_template" = cfg !! "request_template" /\
    out !! "headers" = Some (VStringMap (default ∅ headers)) /\
    forall key, is_Some (out !! key) ->
      key = "request_url_template" \/ key = "request_type" \/
      key = "request_template" \/ key = "headers".
Proof.
  intros Hd Hurl Hty Htpl Hh.
  unfold buildSdkActionConfigRequest, ResourceData.GetList.
  rewrite Hd. simpl. rewrite Hurl, Htpl, Hty, Hh. simpl.
  assert (Hcopy :
    match (fun h => VMap (VString <$> h)) <$> headers with
    | Some headerVal =>
        res_bind match headerVal with VMap m => Val m | _ => Panic end copyStringMap
    | None => Val ∅
    end = Val (default ∅ headers)).
  { destruct headers as [h|]; simpl; [apply copyStringMap_fmap | reflexivity]. }
  rewrite Hcopy. simpl.
  eexists. eexists. split; [reflexivity|].
  unfold flattenActionConfigRequest. simpl.
  split; [reflexivity|].
  repeat split; try by simplify_map_eq.
  intros key [v Hv].
  destruct (decide (key = "headers")) as [->|?]; [tauto|].
  destruct (decide (key = "request_template")) as [->|?]; [tauto|].
  destruct (decide (key = "request_type")) as [->|?]; [tauto|].
  destruct (decide (key = "request_url_template")) as [->|?]; [tauto|].
  by simplify_map_eq.
Qed.

Lemma config_request_roundtrip_witness :
  exists sdkRequest out,
    buildSdkActionConfigRequest sampleActionData = Val (Some sdkRequest) /\
    flattenActionConfigRequest sdkRequest = [VMap out] /\
    out !! "request_type" = Some (VString "GET").
Proof.
  destruct (config_request_roundtrip sampleActionData sampleConfigRequest []
              "https://example.org/items" "GET" "${input.rawRequest}"
              (Some {[ "Accept" := "application/json" ]}))
    as (sdkRequest & out & Hb & Hf & _ & Hty & _).
  - reflexivity.
  - reflexivity.
  - reflexivity.
  - reflexivity.
  - simpl. rewrite map_fmap_singleton. reflexivity.
  - exists sdkRequest, out. split; [exact Hb|]. split; [exact Hf|].
    rewrite Hty. reflexivity.
Defined.









(** ** The retry helpers *)

Lemma retryLoop_unfold (interval : Z) (retries : nat)
    (method : M (option RetryError.t)) :
  retryLoop interval retries method =
    (rerr <- method;
     match rerr with
     | None => ret None
     | Some e =>
         if RetryError.Retryable e then
           match retries with
           | O => ret (Some (DiagRetryExhausted (RetryError.Err e)))
           | S retries' => _ <- Sleep interval; retryLoop interval retries' method
           end
         else ret (Some (DiagError (RetryError.Err e)))
     end).
Proof. destruct retries; reflexivity. Qed.

Lemma retryLoop_poll (api : Api) (req : Request)
    (verdict : Reply.t -> Res (option RetryError.t)) (d0 : ResourceData.t)
    (method : M (option RetryError.t)) (interval : Z) :
  (forall st, State.rd st = d0 -> method st = pollOnce api req verdict st) ->
  forall retries st res st',
    State.rd st = d0 ->
    retryLoop interval retries method st = (res, st') ->
    pollRun req verdict interval retries st res st'.
Proof.
  intros Hm. induction retries as [|retries IH]; intros st res st' Hd Hrun;
    rewrite retryLoop_unfold in Hrun; unfold bind at 1 in Hrun;
    rewrite (Hm st Hd) in Hrun;
    unfold pollOnce, bind, CallAPI, liftR in Hrun; simpl in Hrun;
    set (reply := api (State.trace st) req) in *;
    destruct (verdict reply) as [[[e [|]]|]| |] eqn:V; simpl in Hrun;
    unfold ret in Hrun.
  all: try (injection Hrun as <- <-;
            exists [(req, reply)]; simpl;
            split; [reflexivity|]; split; [reflexivity|]; split; [lia|];
            split; [repeat constructor|]; split; [lia|];
            split; [intros k ev Hk Hlt; destruct k; simpl in *; lia|];
            eexists; split; [reflexivity|]; simpl; rewrite V; simpl; auto).
  (* a retryable verdict with tries left *)
  unfold Sleep in Hrun; simpl in Hrun.
  set (st1 := State.mk (State.trace st ++ [(req, reply)])%list (State.now st + interval)
                (State.rd st)) in *.
  destruct (IH st1 res st' Hd Hrun)
    as (polls & Htr & Hrd & Hnow & Hreq & Hlen & Hmid & ev & Hlast & Hres).
  exists ((req, reply) :: polls). simpl.
  split; [rewrite Htr; simpl; rewrite <- app_assoc; reflexivity|].
  split; [rewrite Hrd; reflexivity|].
  split.
  { rewrite Hnow. cbn [State.now st1].
    replace (length polls - 0)%nat with (S (length polls - 1)) by lia.
    rewrite Nat2Z.inj_succ. lia. }
  split; [constructor; auto|].
  split; [lia|].
  split.
  - intros k ev' Hk Hlt. destruct k as [|k]; simpl in Hk.
    + inversion Hk; subst. simpl. eauto.
    + apply (Hmid k ev' Hk). lia.
  - exists ev. split.
    + destruct polls; [simpl in Hlen; lia|]. exact Hlast.
    + destruct (verdict ev.2) as [[e'|]| |]; auto.
      destruct (RetryError.Retryable e'); auto.
      destruct Hres as [-> Hl]. split; [reflexivity|]. lia.
Qed.

(** ** Delete: the call, then the bounded poll *)

Lemma deletePoll_pollOnce (ty : Deletable) (api : Api) (st : State.t) :
  deletePoll ty api st =
    pollOnce api (readRequest ty (ResourceData.Id (State.rd st)))
      (pollVerdict ty (ResourceData.Id (State.rd st))) st.
Proof.
  destruct ty; simpl;
    unfold deleteIntegrationAction_poll, deleteOAuthClient_poll,
      deleteCredential_poll, deleteIdpGeneric_poll, deletePhone_poll,
      sdkGetIntegrationAction, GetOauthClient, GetIntegrationsCredential,
      GetIdentityprovidersGeneric, GetTelephonyProvidersEdgesPhone, callSdk,
      pollOnce, pollVerdict, observe, observeError, observeState,
      bind, getD, CallAPI, liftR, ret, deref; simpl;
    match goal with
    | |- context [api ?h ?r] => destruct (api h r) as [[r0|] [e|]]; simpl
    end;
    try reflexivity;
    destruct r0 as [code [em|] msg raw payload]; simpl;
    try (destruct (Z.eqb code 404); reflexivity);
    destruct payload as [ |a|l|c|l|c|l|g|p|l|l|l|v]; simpl;
    try (destruct (Z.eqb code 404); reflexivity);
    try reflexivity.
  - destruct (Oauthclient.State c) as [state|]; simpl; [|reflexivity].
    destruct (decide (state = "deleted")); reflexivity.
  - destruct (Phone.State p) as [state|]; simpl; [|reflexivity].
    destruct (decide (state = "deleted")); reflexivity.
Qed.

(** ** Which calls an operation makes *)

Lemma emits_nil {A} (P : Event -> Prop) (m : M A) :
  (forall st, State.trace (m st).2 = State.trace st) -> emits P m.
Proof.
  intros H st r st' Hrun. exists []. rewrite app_nil_r.
  specialize (H st). rewrite Hrun in H. auto.
Qed.

Lemma emits_ret {A} (P : Event -> Prop) (a : A) : emits P (ret a).
Proof. apply emits_nil. reflexivity. Qed.

Lemma emits_liftR {A} (P : Event -> Prop) (r : Res A) : emits P (liftR r).
Proof. apply emits_nil. reflexivity. Qed.

Lemma emits_outOfFuel {A} (P : Event -> Prop) : emits P (@outOfFuel A).
Proof. apply emits_nil. reflexivity. Qed.

Lemma emits_getD (P : Event -> Prop) : emits P getD.
Proof. apply emits_nil. reflexivity. Qed.

Lemma emits_modifyD (P : Event -> Prop) f : emits P (modifyD f).
Proof. apply emits_nil. reflexivity. Qed.

Lemma emits_Sleep (P : Event -> Prop) duration : emits P (Sleep duration).
Proof. apply emits_nil. reflexivity. Qed.

Lemma emits_bind {A B} (P : Event -> Prop) (m : M A) (k : A -> M B) :
  emits P m -> (forall a, emits P (k a)) -> emits P (bind m k).
Proof.
  intros Hm Hk st r st' Hrun. unfold bind in Hrun.
  destruct (m st) as [[a| |] st1] eqn:E;
    destruct (Hm _ _ _ E) as (evs1 & Ht1 & HP1).
  - destruct (Hk a _ _ _ Hrun) as (evs2 & Ht2 & HP2).
    exists (evs1 ++ evs2)%list. rewrite Ht2, Ht1, app_assoc.
    split; [reflexivity | by apply Forall_app].
  - injection Hrun as <- <-. eauto.
  - injection Hrun as <- <-. eauto.
Qed.

Lemma emits_CallAPI (P : Event -> Prop) (api : Api) (req : Request) :
  (forall reply, P (req, reply)) -> emits P (CallAPI api req).
Proof.
  intros HP st r st' Hrun. unfold CallAPI in Hrun. injection Hrun as <- <-.
  eexists. split; [reflexivity|]. repeat constructor. apply HP.
Qed.

Ltac emits_step :=
  match goal with
  | |- emits _ (bind _ _) => apply emits_bind; [|intros]
  | |- emits _ (ret _) => apply emits_ret
  | |- emits _ (liftR _) => apply emits_liftR
  | |- emits _ outOfFuel => apply emits_outOfFuel
  | |- emits _ getD => apply emits_getD
  | |- emits _ (modifyD _) => apply emits_modifyD
  | |- emits _ (dSet _ _) => apply emits_modifyD
  | |- emits _ (dSetId _) => apply emits_modifyD
  | |- emits _ (Sleep _) => apply emits_Sleep
  | |- emits _ (CallAPI _ _) => apply emits_CallAPI; intros; simpl; eauto
  | |- emits _ (match ?x with _ => _ end) => destruct x
  end.

Ltac emits_auto := repeat emits_step.

Lemma emits_callSdk {A} (P : Event -> Prop) (api : Api) (req : Request)
    (decode : Body -> option A) :
  (forall reply, P (req, reply)) -> emits P (callSdk api req decode).
Proof. intros HP. unfold callSdk. emits_auto. Qed.

Lemma emits_callSdkNoPayload (P : Event -> Prop) (api : Api) (req : Request) :
  (forall reply, P (req, reply)) -> emits P (callSdkNoPayload api req).
Proof. intros HP. unfold callSdkNoPayload. emits_auto. Qed.

Lemma emits_retryLoop (P : Event -> Prop) interval retries method :
  emits P method -> emits P (retryLoop interval retries method).
Proof.
  intros Hm. induction retries as [|retries IH];
    rewrite retryLoop_unfold; emits_auto; assumption.
Qed.

Lemma emits_withRetries (P : Event -> Prop) ctx timeout method :
  emits P method -> emits P (withRetries ctx timeout method).
Proof. intros Hm. unfold withRetries. by apply emits_retryLoop. Qed.

Lemma emits_withRetriesForRead (P : Event -> Prop) ctx timeout method :
  emits P method -> emits P (withRetriesForRead ctx timeout method).
Proof.
  intros Hm. unfold withRetriesForRead. emits_auto;
    try assumption; by apply emits_withRetries.
Qed.

Lemma pollVerdict_retryable ty id reply e :
  pollVerdict ty id reply = Val (Some (RetryError.mk e true)) ->
  observe ty reply = ObsPresent.
Proof.
  unfold pollVerdict, RetryableError, NonRetryableError.
  destruct (observe ty reply); simpl; congruence.
Qed.


(** The polling phase of a delete, started in a state [st1]. *)
Lemma delete_poll_phase (ty : Deletable) (ctx : Context.t) (api : Api)
    (st1 : State.t) (res : Res Diagnostics) (st' : State.t) :
  withRetries ctx (30 * Second) (deletePoll ty api) st1 = (res, st') ->
  exists polls,
    let id := ResourceData.Id (State.rd st') in
    State.trace st' = (State.trace st1 ++ polls)%list /\
    State.rd st' = State.rd st1 /\
    polls <> [] /\
    Forall (fun ev : Event => ev.1 = readRequest ty id) polls /\
    (length polls <= maxTries ctx (30 * Second))%nat /\
    (forall k ev, polls !! k = Some ev -> (S k < length polls)%nat ->
       observe ty ev.2 = ObsPresent) /\
    forall ev, last polls = Some ev ->
      match observe ty ev.2 with
      | ObsNotFound | ObsDeleted => res = Val None
      | ObsPresent =>
          res = Val (Some (DiagRetryExhausted (stillExistsMessage ty id))) /\
          length polls = maxTries ctx (30 * Second)
      | ObsFailure e => res = Val (Some (DiagError (pollFailureMessage ty id e)))
      | ObsUnreadable => res = Panic
      end.
Proof.
  intros Hrun. unfold withRetries in Hrun.
  eapply (retryLoop_poll api (readRequest ty (ResourceData.Id (State.rd st1)))
            (pollVerdict ty (ResourceData.Id (State.rd st1))) (State.rd st1))
    in Hrun; [| |reflexivity].
  2: { intros st Hd. rewrite deletePoll_pollOnce, Hd. reflexivity. }
  destruct Hrun as (polls & Htr & Hrd & _ & Hreq & Hlen & Hmid & ev & Hlast & Hres).
  exists polls. simpl. rewrite Hrd.
  split; [exact Htr|]. split; [reflexivity|].
  split; [intros ->; simpl in Hlen; lia|].
  split; [exact Hreq|].
  split; [unfold maxTries; lia|].
  split.
  - intros k ev' Hk Hlt. destruct (Hmid k ev' Hk Hlt) as [e He].
    eapply pollVerdict_retryable; eauto.
  - intros ev' Hev'. rewrite Hlast in Hev'. injection Hev' as <-.
    unfold pollVerdict in Hres. unfold maxTries.
    destruct (observe ty ev.2); simpl in Hres; auto.
Qed.

(** The state after a call. *)
Lemma CallAPI_run (api : Api) (req : Request) (st : State.t) :
  CallAPI api req st =
    (Val (api (State.trace st) req),
     State.mk (State.trace st ++ [(req, api (State.trace st) req)])%list
       (State.now st) (State.rd st)).
Proof. reflexivity. Qed.

Lemma callSdkNoPayload_run (api : Api) (req : Request) (st : State.t) :
  let reply := api (State.trace st) req in
  let st1 := State.mk (State.trace st ++ [(req, reply)])%list
               (State.now st) (State.rd st) in
  (accepted reply /\
   exists r, callSdkNoPayload api req st = (Val (Some r, None), st1)) \/
  (~ accepted reply /\
   ((exists resp e, callSdkNoPayload api req st = (Val (resp, Some e), st1)) \/
    callSdkNoPayload api req st = (Panic, st1))).
Proof.
  intros reply st1. unfold callSdkNoPayload, bind. rewrite CallAPI_run.
  fold reply. fold st1. unfold accepted.
  destruct reply as [[r|] [e|]]; simpl.
  - right. split; [intros [? _]; discriminate | left; eauto].
  - destruct (APIResponse.Error r) as [em|] eqn:E; simpl.
    + right. split; [|left; eauto].
      intros (_ & r' & [= <-] & H). congruence.
    + left. split; eauto.
  - right. split; [intros [? _]; discriminate | left; eauto].
  - right. split; [|right; reflexivity].
    intros (_ & r' & ? & _). discriminate.
Qed.

Lemma callSdk_run {A} (api : Api) (req : Request) (decode : Body -> option A)
    (st : State.t) :
  let reply := api (State.trace st) req in
  let st1 := State.mk (State.trace st ++ [(req, reply)])%list
               (State.now st) (State.rd st) in
  (accepted reply /\
   exists r, Reply.response reply = Some r /\
     callSdk api req decode st =
       (match decode (APIResponse.Payload r) with
        | Some a => Val (Some a, Some r, None)
        | None => Val (None, Some r, Some jsonError)
        end, st1)) \/
  (~ accepted reply /\
   ((exists e, callSdk api req decode st =
                 (Val (None, Reply.response reply, Some e), st1)) \/
    callSdk api req decode st = (Panic, st1))).
Proof.
  intros reply st1. unfold callSdk, bind. rewrite CallAPI_run.
  fold reply. fold st1. unfold accepted.
  destruct reply as [[r|] [e|]]; simpl.
  - right. split; [intros [? _]; discriminate | left; eauto].
  - destruct (APIResponse.Error r) as [em|] eqn:E; simpl.
    + right. split; [|left; eauto].
      intros (_ & r' & [= <-] & H). congruence.
    + left. split; [eauto|]. exists r. split; [reflexivity|].
      destruct (decode (APIResponse.Payload r)); reflexivity.
  - right. split; [intros [? _]; discriminate | left; eauto].
  - right. split; [|right; reflexivity].
    intros (_ & r' & ? & _). discriminate.
Qed.

Lemma callSdk_listed {A} (api : Api) (req : Request) (decode : Body -> option A)
    (st : State.t) (body : Body) (a : A) :
  listed (api (State.trace st) req) body ->
  decode body = Some a ->
  exists r,
    callSdk api req decode st =
      (Val (Some a, Some r, None),
       State.mk (State.trace st ++ [(req, api (State.trace st) req)])%list
         (State.now st) (State.rd st)).
Proof.
  intros (Herr & r & Hr & He & Hp) Hd. exists r.
  unfold callSdk, bind. rewrite CallAPI_run. cbn beta iota.
  rewrite Herr, Hr. simpl. rewrite He, Hp, Hd. reflexivity.
Qed.









(** ** OAuth clients: update, then delete *)

Lemma bind_liftR {A B} (r : Res A) (k : A -> M B) (st : State.t) :
  bind (liftR r) k st =
    match r with
    | Val a => k a st
    | Panic => (Panic, st)
    | OutOfFuel => (OutOfFuel, st)
    end.
Proof. destruct r; reflexivity. Qed.

Lemma emits_getHomeDivisionID (api : Api) :
  emits (fun ev => ev.1 = ReqGetAuthorizationDivisionsHome) (getHomeDivisionID api).
Proof.
  unfold getHomeDivisionID, GetAuthorizationDivisionsHome.
  apply emits_bind; [by apply emits_callSdk|]. intros. emits_auto.
Qed.

Lemma emits_buildOAuthRoles (api : Api) (d : ResourceData.t) :
  emits (fun ev => ev.1 = ReqGetAuthorizationDivisionsHome) (buildOAuthRoles api d).
Proof.
  unfold buildOAuthRoles.
  destruct (ResourceData.GetOk d "roles") as [config [|]]; [|apply emits_ret].
  destruct config as [[]|]; try apply emits_liftR.
  generalize (@nil Roledivision.t).
  induction (elements s) as [|roleMap roleConfig IH]; intros sdkRoles; simpl.
  - apply emits_ret.
  - apply emits_bind; [apply emits_liftR|]. intros roleId.
    apply emits_bind.
    + destruct (decide _); [apply emits_getHomeDivisionID | apply emits_ret].
    + intros [divisionId [e|]]; [apply emits_ret | apply IH].
Qed.

Lemma emits_readOAuthClient ctx meta :
  emits (fun ev => exists id, ev.1 = ReqGetOauthClient id) (readOAuthClient ctx meta).
Proof.
  unfold readOAuthClient. apply emits_withRetriesForRead.
  unfold readOAuthClient_try, GetOauthClient.
  apply emits_bind; [apply emits_getD|]. intros d.
  apply emits_bind; [apply emits_callSdk; simpl; eauto|]. intros.
  emits_auto.
Qed.

(** The conclusion of [updateOAuthClient_run], for a run from [st] on the
    resource data [d]. *)
Lemma updateOAuthClient_stop (d : ResourceData.t) (st stP : State.t)
    (evs : list Event) (r res : Res Diagnostics) (st' : State.t) :
  State.trace stP = (State.trace st ++ evs)%list ->
  Forall (updateOAuthClientEvent d) evs ->
  r <> Val None ->
  (r, stP) = (res, st') ->
  exists evs,
    State.trace st' = (State.trace st ++ evs)%list /\
    Forall (updateOAuthClientEvent d) evs /\
    (res = Val None ->
       exists body reply,
         (ReqPutOauthClient (ResourceData.Id d) body, reply) ∈ evs /\
         accepted reply).
Proof.
  intros Ht HF Hr [= <- <-]. exists evs. split; [exact Ht|].
  split; [exact HF | intros; contradiction].
Qed.

Lemma updateOAuthClient_run ctx meta st res st' :
  updateOAuthClient ctx meta st = (res, st') ->
  exists evs,
    State.trace st' = (State.trace st ++ evs)%list /\
    Forall (updateOAuthClientEvent (State.rd st)) evs /\
    (res = Val None ->
       exists body reply,
         (ReqPutOauthClient (ResourceData.Id (State.rd st)) body, reply) ∈ evs /\
         accepted reply).
Proof.
  intros Hrun.
  pose proof (updateOAuthClient_stop (State.rd st) st st []) as Hfail.
  rewrite app_nil_r in Hfail.
  specialize (fun r => Hfail r res st' eq_refl (Forall_nil_2 _)).
  unfold updateOAuthClient in Hrun. unfold bind at 1, getD in Hrun.
  set (d := State.rd st) in *.
  rewrite bind_liftR in Hrun.
  destruct (ResourceData.GetString d "name") as [name| |];
    [|eapply Hfail; eauto; discriminate..].
  rewrite bind_liftR in Hrun.
  destruct (ResourceData.GetString d "description") as [description| |];
    [|eapply Hfail; eauto; discriminate..].
  rewrite bind_liftR in Hrun.
  destruct (ResourceData.GetInt d "access_token_validity_seconds") as [tokenSeconds| |];
    [|eapply Hfail; eauto; discriminate..].
  rewrite bind_liftR in Hrun.
  destruct (ResourceData.GetString d "authorized_grant_type") as [grantType| |];
    [|eapply Hfail; eauto; discriminate..].
  rewrite bind_liftR in Hrun.
  destruct (ResourceData.GetString d "state") as [state| |] eqn:Hstate;
    [|eapply Hfail; eauto; discriminate..].
  clear Hfail. unfold bind at 1 in Hrun.
  destruct (buildOAuthRoles (providerMeta.ClientConfig meta) d st)
    as [rolesRes st1] eqn:Hroles.
  destruct (emits_buildOAuthRoles _ _ _ _ _ Hroles) as (evs1 & Ht1 & HP1).
  assert (HQ1 : Forall (updateOAuthClientEvent d) evs1).
  { eapply Forall_impl; [exact HP1|]. intros ev Hev.
    unfold updateOAuthClientEvent. rewrite Hev. exact I. }
  pose proof (fun r => updateOAuthClient_stop d st st1 evs1 r res st' Ht1 HQ1) as Hstop.
  destruct rolesRes as [[roles [e|]]| |];
    [unfold ret in Hrun; eapply Hstop; eauto; discriminate
    | | eapply Hstop; eauto; discriminate..].
  cbn beta iota in Hrun. rewrite bind_liftR in Hrun.
  destruct (buildOAuthRedirectURIs d) as [redirectURIs| |];
    [|eapply Hstop; eauto; discriminate..].
  rewrite bind_liftR in Hrun.
  destruct (buildOAuthScopes d) as [scopes| |];
    [|eapply Hstop; eauto; discriminate..].
  clear Hstop. unfold bind at 1, PutOauthClient in Hrun.
  set (body := Oauthclientrequest.mk _ _ _ _ _ _ _ _) in *.
  set (req := ReqPutOauthClient (ResourceData.Id d) body) in *.
  set (reply := providerMeta.ClientConfig meta (State.trace st1) req).
  assert (Hput : updateOAuthClientEvent d (req, reply)).
  { unfold updateOAuthClientEvent. simpl. rewrite Hstate. auto. }
  set (stP := State.mk (State.trace st1 ++ [(req, reply)])%list
                (State.now st1) (State.rd st1)).
  assert (HtP : State.trace stP = (State.trace st ++ (evs1 ++ [(req, reply)]))%list).
  { simpl. rewrite Ht1, app_assoc. reflexivity. }
  assert (HQP : Forall (updateOAuthClientEvent d) (evs1 ++ [(req, reply)])%list).
  { apply Forall_app. split; [exact HQ1 | constructor; [exact Hput | constructor]]. }
  pose proof (fun r => updateOAuthClient_stop d st stP _ r res st' HtP HQP) as Hstop.
  destruct (callSdk_run (providerMeta.ClientConfig meta) req
              (fun b => match b with BOauthClient c => Some c | _ => None end) st1)
    as [[Hacc (r & Hr & Hc)] | [Hacc [(e & Hc) | Hc]]];
    rewrite Hc in Hrun; cbn beta iota in Hrun;
    [| unfold ret in Hrun; eapply Hstop; eauto; discriminate
     | eapply Hstop; eauto; discriminate].
  destruct (match APIResponse.Payload r with BOauthClient c => Some c | _ => None end);
    cbn beta iota in Hrun;
    [| unfold ret in Hrun; eapply Hstop; eauto; discriminate].
  clear Hstop. unfold bind at 1, Sleep in Hrun.
  destruct (emits_readOAuthClient _ _ _ _ _ Hrun) as (evs3 & Ht3 & HP3).
  simpl in Ht3.
  exists (evs1 ++ (req, reply) :: evs3)%list.
  split.
  { rewrite Ht3, <- app_assoc, (app_assoc (State.trace st)), <- Ht1. reflexivity. }
  split.
  - apply Forall_app. split; [exact HQ1|]. constructor; [exact Hput|].
    eapply Forall_impl; [exact HP3|]. intros ev [id Hev].
    unfold updateOAuthClientEvent. rewrite Hev. exact I.
  - intros _. exists body, reply. split; [|exact Hacc].
    apply elem_of_app. right. apply list_elem_of_here.
Qed.

Lemma deleteOAuthClient_unfold ctx meta st name :
  ResourceData.GetString (State.rd st) "name" = Val name ->
  deleteOAuthClient ctx meta st =
    match updateOAuthClient ctx meta (inactivated st) with
    | (Val None, stU) =>
        bind (DeleteOauthClient (providerMeta.ClientConfig meta)
                (ResourceData.Id (State.rd stU)))
          (fun '(_, err) =>
             match err with
             | Some e =>
                 ret (Some (DiagError
                              ("Failed to delete oauth client " +:+ name +:+ ": " +:+ e)))
             | None =>
                 withRetries ctx (30 * Second)
                   (deleteOAuthClient_poll (providerMeta.ClientConfig meta))
             end) stU
    | (Val (Some e), stU) => (Val (Some e), stU)
    | (Panic, stU) => (Panic, stU)
    | (OutOfFuel, stU) => (OutOfFuel, stU)
    end.
Proof.
  intros Hname. unfold deleteOAuthClient. unfold bind at 1, getD.
  rewrite bind_liftR, Hname. unfold bind at 1 2, dSet, modifyD. fold (inactivated st).
  destruct (updateOAuthClient ctx meta (inactivated st)) as [[[e|]| |] stU];
    reflexivity.
Qed.

Lemma inactivated_state (st : State.t) :
  ResourceData.GetString (State.rd (inactivated st)) "state" = Val "inactive".
Proof.
  unfold inactivated, ResourceData.GetString. simpl.
  rewrite lookup_insert_eq. reflexivity.
Qed.

Lemma updateOAuthClientEvent_inactivating (st : State.t) (ev : Event) :
  updateOAuthClientEvent (State.rd (inactivated st)) ev -> inactivatingUpdateEvent ev.
Proof.
  unfold updateOAuthClientEvent, inactivatingUpdateEvent.
  destruct ev.1; auto. rewrite inactivated_state. intros [_ H].
  destruct (Oauthclientrequest.State body); congruence.
Qed.



(** At a poll interval of ten seconds the credential that never disappears
    is looked for four times, over thirty seconds, before the delete gives
    up. *)
Example deleteCredential_exhausted :
  let run := deleteCredential sampleContext (providerMeta.mk stubbornServer)
               sampleCredentialState in
  run.1 = Val (Some (DiagRetryExhausted "Integration credential cred-1 still exists")) /\
  map fst (State.trace run.2) =
    [ReqDeleteIntegrationsCredential "cred-1";
     ReqGetIntegrationsCredential "cred-1"; ReqGetIntegrationsCredential "cred-1";
     ReqGetIntegrationsCredential "cred-1"; ReqGetIntegrationsCredential "cred-1"] /\
  State.now run.2 = 30 * Second.
Proof. vm_compute. auto. Qed.

Example deleteCredential_gone :
  let run := deleteCredential sampleContext (providerMeta.mk eventualServer)
               sampleCredentialState in
  run.1 = Val None /\
  map fst (State.trace run.2) =
    [ReqDeleteIntegrationsCredential "cred-1";
     ReqGetIntegrationsCredential "cred-1"; ReqGetIntegrationsCredential "cred-1"] /\
  State.now run.2 = 10 * Second.
Proof. vm_compute. auto. Qed.

(** C2. Deleting an OAuth client runs the update first, on the resource
    data with [state] set to [inactive]: the calls of that update come
    first in the trace, every PUT among them carries the state [inactive],
    and none of them is a delete. When the update fails, its failure is
    the result of the delete operation and no further call is made, so no
    delete call is issued at all. When the update succeeds, its PUT was
    accepted by the server, and only then does the delete call follow,
    itself followed by nothing but gets of the client. *)
Theorem oauth_delete_inactivates_first (ctx : Context.t) (meta : providerMeta.t)
    (st : State.t) :
  let update := updateOAuthClient ctx meta (inactivated st) in
  let delete := deleteOAuthClient ctx meta st in
  match ResourceData.GetString (State.rd st) "name" with
  | Val _ =>
      exists updateEvents,
        State.trace update.2 = (State.trace st ++ updateEvents)%list /\
        Forall inactivatingUpdateEvent updateEvents /\
        match update.1 with
        | Val None =>
            (exists body reply,
               (ReqPutOauthClient (ResourceData.Id (State.rd st)) body, reply)
                 ∈ updateEvents /\
               Oauthclientrequest.State body = Some "inactive" /\
               accepted reply) /\
            exists reply polls,
              State.trace delete.2 =
                (State.trace update.2 ++
                 (ReqDeleteOauthClient (ResourceData.Id (State.rd update.2)), reply)
                   :: polls)%list /\
              Forall (fun ev : Event =>
                        ev.1 = ReqGetOauthClient (ResourceData.Id (State.rd update.2)))
                     polls
        | failure => delete = (failure, update.2)
        end
  | _ => delete = (Panic, st)
  end.
Proof.
  intros update delete. subst update delete.
  destruct (ResourceData.GetString (State.rd st) "name") as [name| |] eqn:Hname.
  2: { unfold deleteOAuthClient, bind at 1, getD. by rewrite bind_liftR, Hname. }
  2: { unfold ResourceData.GetString in Hname.
       destruct (ResourceData.attrs (State.rd st) !! "name") as [[]|]; discriminate. }
  rewrite (deleteOAuthClient_unfold _ _ _ _ Hname).
  destruct (updateOAuthClient ctx meta (inactivated st)) as [ures stU] eqn:Hup.
  destruct (updateOAuthClient_run _ _ _ _ _ Hup) as (uevs & Htu & HFu & Hput).
  cbn [inactivated State.trace] in Htu. cbn [fst snd].
  exists uevs. split; [exact Htu|].
  assert (HFi : Forall inactivatingUpdateEvent uevs).
  { eapply Forall_impl; [exact HFu|]. apply updateOAuthClientEvent_inactivating. }
  split; [exact HFi|].
  destruct ures as [[e|]| |]; try reflexivity.
  split.
  - destruct (Hput eq_refl) as (body & reply & Hin & Hacc).
    exists body, reply. split; [exact Hin|]. split; [|exact Hacc].
    rewrite Forall_forall in HFi. apply (HFi _ Hin).
  - set (api := providerMeta.ClientConfig meta).
    set (req := ReqDeleteOauthClient (ResourceData.Id (State.rd stU))).
    exists (api (State.trace stU) req).
    unfold DeleteOauthClient, bind. fold req.
    destruct (callSdkNoPayload_run api req stU)
      as [[Hacc [r Hc]] | [Hacc [(resp & e & Hc) | Hc]]];
      rewrite Hc; cbn beta iota.
    + destruct (withRetries ctx (30 * Second) (deleteOAuthClient_poll api) _)
        as [res st'] eqn:Hpoll.
      destruct (delete_poll_phase DOAuthClient ctx api _ res st' Hpoll)
        as (polls & Htr & Hrd & _ & Hreq & _).
      exists polls. cbn [snd]. rewrite Htr. cbn [State.trace State.rd] in *.
      split; [rewrite <- app_assoc; reflexivity|].
      rewrite <- Hrd. exact Hreq.
    + exists []. split; [reflexivity | constructor].
    + exists []. split; [reflexivity | constructor].
Qed.

(** ** Update of an integration action under a version conflict *)

(** The response that the function literal of [updateIntegrationAction]
    hands to [retryWhen] is the response of the GET, also when it is the
    PATCH that failed. *)
Lemma updateIntegrationAction_call_response meta name category st resp diag st' :
  updateIntegrationAction_call meta name category st = (Val (resp, diag), st') ->
  resp = Reply.response
           (providerMeta.ClientConfig meta (State.trace st)
              (ReqGetIntegrationAction (ResourceData.Id (State.rd st)))).
Proof.
  unfold updateIntegrationAction_call, sdkGetIntegrationAction.
  unfold bind at 1, getD. unfold bind at 1. unfold bind at 1. rewrite CallAPI_run.
  cbn beta iota.
  set (reply := providerMeta.ClientConfig meta (State.trace st) _).
  destruct (Reply.err reply) as [e|]; [intros [= <- _ _]; reflexivity|].
  rewrite bind_liftR.
  destruct (Reply.response reply) as [r|]; simpl; [|discriminate].
  destruct (APIResponse.Error r) as [em|]; [intros [= <- _ _]; reflexivity|].
  destruct (APIResponse.Payload r); try (intros [= <- _ _]; reflexivity).
  unfold ret at 1. cbn beta iota. rewrite bind_liftR. cbn [deref].
  rewrite bind_liftR.
  destruct (buildSdkActionConfig (State.rd st)) as [config| |]; try discriminate.
  unfold bind.
  destruct (PatchIntegrationsAction _ _ _ _) as [[[[p resp'] [e|]]| |] st2];
    try discriminate; intros [= <- _ _]; reflexivity.
Qed.

(** C3, on the code. The action is at version 3 on the server, the first
    PATCH is rejected with a version conflict (409) and any later PATCH
    would be accepted. [updateIntegrationAction] makes one GET and one
    PATCH and fails with the error of the PATCH: the conflict is judged on
    the response of the GET, which is no conflict, so there is no re-read
    and no second PATCH. *)
Theorem updateIntegrationAction_version_conflict_not_retried :
  let run := updateIntegrationAction sampleContext
               (providerMeta.mk versionConflictServer) sampleActionState in
  run.1 = Val (Some (DiagError
                       "Failed to update integration action lookup: version mismatch")) /\
  map fst (State.trace run.2) =
    [ReqGetIntegrationAction "action-1";
     ReqPatchIntegrationsAction "action-1"
       (Updateactioninput.mk (Some EmptyString) (Some "lookup")
          (Some (Actionconfig.mk
                   (Some (Requestconfig.mk (Some "https://example.org/items")
                            (Some "${input.rawRequest}") (Some "GET")
                            (Some {[ "Accept" := "application/json" ]})))
                   (Some Responseconfig.empty)))
          (Some 3))] /\
  isVersionMismatch (Reply.response
                       (versionConflictServer [] (ReqPatchIntegrationsAction "action-1"
                          (Updateactioninput.mk None None None None)))) = true /\
  Context.retryLimit sampleContext = 2%nat.
Proof. vm_compute. auto. Qed.

(** On that server the retry the claim describes would have succeeded: the
    function literal, run once more after the failed update, re-reads the
    action and its PATCH is accepted. *)
Example updateIntegrationAction_second_try_accepted :
  let meta := providerMeta.mk versionConflictServer in
  let failed := updateIntegrationAction sampleContext meta sampleActionState in
  exists resp,
    (updateIntegrationAction_call meta "lookup" EmptyString failed.2).1 =
      Val (resp, None).
Proof. eexists. vm_compute. reflexivity. Qed.

(** ** Data sources *)

(** The routing-queue lookup binds only the ID of a queue that bears the
    requested name. *)
Lemma findRoutingQueue_exact (name : string) (entities : list Queue.t) (id : string) :
  findRoutingQueue name entities = Val (Some id) ->
  exists queue, queue ∈ entities /\
    Queue.Name queue = Some name /\ Queue.Id queue = Some id.
Proof.
  induction entities as [|queue entities IH]; simpl; [discriminate|].
  destruct (Queue.Name queue) as [queueName|] eqn:Hn.
  - destruct (decide (queueName = name)) as [->|Hne].
    + destruct (Queue.Id queue) as [qid|] eqn:Hi; simpl; [|discriminate].
      intros [= <-]. exists queue. split; [apply list_elem_of_here | auto].
    + intros H. destruct (IH H) as (q & Hin & Hq).
      exists q. split; [by apply list_elem_of_further | exact Hq].
  - intros H. destruct (IH H) as (q & Hin & Hq).
    exists q. split; [by apply list_elem_of_further | exact Hq].
Qed.

Lemma findRoutingQueue_none (name : string) (entities : list Queue.t) :
  Forall (fun queue => Queue.Name queue <> Some name) entities ->
  findRoutingQueue name entities = Val None.
Proof.
  induction 1 as [|queue entities Hq _ IH]; simpl; [reflexivity|].
  destruct (Queue.Name queue) as [queueName|]; [|exact IH].
  destruct (decide (queueName = name)) as [->|]; [congruence | exact IH].
Qed.

(** Whatever name is asked for, one try of the schedule-group lookup binds
    the ID of the first group of the page the server lists; the name of that
    group is never read. *)
Lemma dataSourceScheduleGroupRead_try_binds_first (archAPI : Api) (name : string)
    (st : State.t) (scheduleGroup : Schedulegroup.t) (others : list Schedulegroup.t)
    (id : string) :
  let req := ReqGetArchitectSchedulegroups 1 100 name in
  listed (archAPI (State.trace st) req)
    (BSchedulegroupListing (Some (scheduleGroup :: others))) ->
  Schedulegroup.Id scheduleGroup = Some id ->
  dataSourceScheduleGroupRead_try archAPI name st =
    (Val None,
     State.mk (State.trace st ++ [(req, archAPI (State.trace st) req)])%list
       (State.now st) (ResourceData.SetId id (State.rd st))).
Proof.
  intros req Hlisted Hid. unfold dataSourceScheduleGroupRead_try.
  unfold bind at 1. unfold GetArchitectSchedulegroups.
  destruct (callSdk_listed archAPI req
              (fun b => match b with BSchedulegroupListing l => Some l | _ => None end)
              st _ _ Hlisted eq_refl) as [r Hcall].
  fold req. rewrite Hcall. cbn beta iota.
  rewrite bind_liftR. cbn [deref]. rewrite bind_liftR, Hid. reflexivity.
Qed.

(** C8, on the code. Asked for the schedule group named [Support], a
    server whose search matches by prefix lists the one group named
    [Support EMEA]. [dataSourceScheduleGroupRead] succeeds and binds the ID
    of that differently named group. The routing-queue lookup, given the
    same kind of listing, binds nothing and ends as retry-exhausted. *)
Theorem dataSourceScheduleGroupRead_binds_other_name :
  let m := providerMeta.mk prefixSearchServer in
  let groups := dataSourceScheduleGroupRead sampleContext m sampleLookupState in
  let queues := dataSourceRoutingQueueRead 3 sampleContext m sampleLookupState in
  ResourceData.GetString (State.rd sampleLookupState) "name" = Val "Support" /\
  Schedulegroup.Name sampleScheduleGroup = Some "Support EMEA" /\
  groups.1 = Val None /\
  ResourceData.Id (State.rd groups.2) = "group-7" /\
  queues.1 = Val (Some (DiagRetryExhausted "No routing queues found with name Support")) /\
  ResourceData.Id (State.rd queues.2) = EmptyString.
Proof. vm_compute. auto 10. Qed.

(** ** Read: an absent entity *)



Lemma sdkGetIntegrationAction_callSdk (actionId : string) (api : Api) (st : State.t) :
  sdkGetIntegrationAction actionId api st =
    callSdk api (ReqGetIntegrationAction actionId)
      (fun b => match b with BAction a => Some a | _ => None end) st.
Proof.
  unfold sdkGetIntegrationAction, callSdk, bind. rewrite CallAPI_run.
  destruct (Reply.err _); [reflexivity|].
  destruct (liftR _ _) as [[r| |] st1]; try reflexivity.
  destruct (APIResponse.Error r); [reflexivity|].
  destruct (APIResponse.Payload r); reflexivity.
Qed.

Lemma callSdk_notFound {A} (api : Api) (req : Request) (decode : Body -> option A)
    (st : State.t) :
  notFound (api (State.trace st) req) ->
  exists e,
    callSdk api req decode st =
      (Val (None, Reply.response (api (State.trace st) req), Some e),
       State.mk (State.trace st ++ [(req, api (State.trace st) req)])%list
         (State.now st) (State.rd st)).
Proof.
  intros [H404 Hfail]. unfold callSdk, bind. rewrite CallAPI_run.
  destruct (api (State.trace st) req) as [[r|] [e|]]; simpl in *; eauto.
  - destruct Hfail as [?|(r' & [= <-] & Hr)]; [congruence|].
    destruct (APIResponse.Error r); [eauto | congruence].
  - discriminate.
Qed.






Lemma sdkGetIntegrationActionTemplate_notFound (actionId templateName : string)
    (api : Api) (st : State.t) :
  let req := ReqGetIntegrationActionTemplate actionId templateName in
  notFound (api (State.trace st) req) ->
  exists e,
    sdkGetIntegrationActionTemplate actionId templateName api st =
      (Val (None, Reply.response (api (State.trace st) req), Some e),
       State.mk (State.trace st ++ [(req, api (State.trace st) req)])%list
         (State.now st) (State.rd st)).
Proof.
  intros req [H404 Hfail]. unfold sdkGetIntegrationActionTemplate, bind.
  rewrite CallAPI_run. fold req.
  destruct (api (State.trace st) req) as [[r|] [e|]]; simpl in *; eauto.
  - destruct Hfail as [?|(r' & [= <-] & Hr)]; [congruence|].
    destruct (APIResponse.Error r); [eauto | congruence].
  - discriminate.
Qed.

(** The same treatment inside one try of [readIntegrationAction]: when
    the action itself is served and its request template is answered with
    404, the try resets the resource ID and reports no error, in the
    read-back of a create as in a routine read. *)
Lemma readIntegrationAction_try_template_not_found (integAPI : Api) (st : State.t)
    (action : IntegrationAction.t) :
  let id := ResourceData.Id (State.rd st) in
  let get := ReqGetIntegrationAction id in
  let template := ReqGetIntegrationActionTemplate id "requesttemplate.vm" in
  let history := (State.trace st ++ [(get, integAPI (State.trace st) get)])%list in
  listed (integAPI (State.trace st) get) (BAction action) ->
  notFound (integAPI history template) ->
  readIntegrationAction_try integAPI st =
    (Val None,
     State.mk (history ++ [(template, integAPI history template)])%list
       (State.now st) (ResourceData.SetId EmptyString (State.rd st))).
Proof.
  intros id get template history Hlisted Hnot.
  unfold readIntegrationAction_try.
  unfold bind at 1, getD. unfold bind at 1.
  rewrite sdkGetIntegrationAction_callSdk. fold id. fold get.
  destruct (callSdk_listed integAPI get
              (fun b => match b with BAction a => Some a | _ => None end)
              st _ _ Hlisted eq_refl) as [r ->].
  cbn beta iota. unfold bind at 1. fold history.
  destruct (sdkGetIntegrationActionTemplate_notFound id "requesttemplate.vm"
              integAPI (State.mk history (State.now st) (State.rd st)) Hnot)
    as [e ->].
  cbn beta iota. cbn [State.trace State.now State.rd].
  fold template. destruct Hnot as [-> _]. reflexivity.
Qed.


(** ** Exporters *)

Lemma collect_failed {E} (add : E -> ResourceIDMetaMap -> Res ResourceIDMetaMap)
    (entities : list E) (acc : Res ResourceIDMetaMap) :
  (forall m, acc <> Val m) ->
  foldl (fun acc e => res_bind acc (add e)) acc entities = acc.
Proof.
  intros Hacc. induction entities as [|e entities IH]; simpl; [reflexivity|].
  destruct acc as [m| |]; [by destruct (Hacc m) | exact IH | exact IH].
Qed.

Lemma collect_app {E} (add : E -> ResourceIDMetaMap -> Res ResourceIDMetaMap)
    (l1 l2 : list E) (resources : ResourceIDMetaMap) :
  collect add (l1 ++ l2) resources =
    res_bind (collect add l1 resources) (collect add l2).
Proof.
  unfold collect. rewrite foldl_app.
  destruct (foldl _ (Val resources) l1) as [m| |]; simpl;
    [reflexivity | by apply collect_failed..].
Qed.

Lemma collect_entries {E} (add : E -> ResourceIDMetaMap -> Res ResourceIDMetaMap)
    (entry : E -> option (string * string)) (entities : list E) :
  Forall (fun e => forall m, add e m = Val (insertEntry (entry e) m)) entities ->
  forall resources,
    collect add entities resources =
      Val (foldl (fun m e => insertEntry (entry e) m) resources entities).
Proof.
  unfold collect. induction 1 as [|e entities He _ IH]; intros resources; simpl;
    [reflexivity|]. rewrite He. apply IH.
Qed.

Lemma insertEntries_lookup {E} (entry : E -> option (string * string))
    (entities : list E) (resources : ResourceIDMetaMap) (id n : string) :
  NoDup (fst <$> omap entry entities) ->
  foldl (fun m e => insertEntry (entry e) m) resources entities !! id
    = Some (ResourceMeta.mk n) <->
  (exists e, e ∈ entities /\ entry e = Some (id, n)) \/
  (resources !! id = Some (ResourceMeta.mk n) /\ id ∉ (fst <$> omap entry entities)).
Proof.
  revert resources. induction entities as [|e entities IH]; intros resources Hnd.
  - simpl. split.
    + intros H. right. split; [exact H | apply not_elem_of_nil].
    + intros [(e & He & _)|[H _]]; [by apply elem_of_nil in He | exact H].
  - cbn [foldl omap list_omap] in *.
    destruct (entry e) as [[id' n']|] eqn:He; cbn [insertEntry fmap list_fmap fst] in *.
    + apply NoDup_cons in Hnd as [Hnotin Hnd]. rewrite (IH _ Hnd). split.
      * intros [(e' & Hin & He')|[Hl Hni]].
        -- left. exists e'. split; [by apply list_elem_of_further | exact He'].
        -- destruct (decide (id' = id)) as [->|Hne].
           ++ rewrite lookup_insert_eq in Hl. injection Hl as ->.
              left. exists e. split; [apply list_elem_of_here | exact He].
           ++ rewrite lookup_insert_ne in Hl by exact Hne.
              right. split; [exact Hl|]. rewrite not_elem_of_cons. auto.
      * intros [(e' & Hin & He')|[Hl Hni]].
        -- apply elem_of_cons in Hin as [->|Hin].
           ++ rewrite He in He'. injection He' as -> ->.
              right. split; [apply lookup_insert_eq | exact Hnotin].
           ++ left. eauto.
        -- rewrite not_elem_of_cons in Hni. destruct Hni as [Hne Hni].
           right. split; [|exact Hni]. rewrite lookup_insert_ne by congruence. exact Hl.
    + rewrite (IH _ Hnd). split.
      * intros [(e' & Hin & He')|H]; [|by right].
        left. exists e'. split; [by apply list_elem_of_further | exact He'].
      * intros [(e' & Hin & He')|H]; [|by right].
        apply elem_of_cons in Hin as [->|Hin]; [congruence|]. left. eauto.
Qed.

(** Entities with pairwise distinct IDs keep distinct IDs when some of them
    are left out. *)
Lemma NoDup_kept_ids {E} (ident : E -> option string)
    (entry : E -> option (string * string)) (entities : list E) :
  (forall e id n, entry e = Some (id, n) -> ident e = Some id) ->
  NoDup (omap ident entities) ->
  NoDup (fst <$> omap entry entities).
Proof.
  intros Hentry. induction entities as [|e entities IH]; [constructor|].
  cbn [omap list_omap]. intros Hnd.
  destruct (entry e) as [[id n]|] eqn:He; cbn [fmap list_fmap fst].
  - rewrite (Hentry _ _ _ He) in Hnd. apply NoDup_cons in Hnd as [Hni Hnd].
    apply NoDup_cons. split; [|by apply IH].
    intros Hin. apply Hni. apply list_elem_of_fmap in Hin as ([id' n'] & -> & Hin).
    apply list_elem_of_omap in Hin as (e' & Hin & He').
    apply list_elem_of_omap. exists e'. split; [exact Hin|]. eapply Hentry. exact He'.
  - apply IH. destruct (ident e); [by apply NoDup_cons in Hnd as [_ ?] | exact Hnd].
Qed.

Lemma paginate_run {E} (request : Z -> Request)
    (decode : Body -> option (option (list E)))
    (add : E -> ResourceIDMetaMap -> Res ResourceIDMetaMap) (failure : string)
    (listing : option (list E) -> Body) (api : Api) :
  (forall l, decode (listing l) = Some l) ->
  forall pages final,
    Forall (fun page => page <> []) pages ->
    final = None \/ final = Some [] ->
    forall fuel pageNum resources st m,
      (forall history i page,
         pages !! i = Some page ->
         listed (api history (request (pageNum + Z.of_nat i))) (listing (Some page))) ->
      (forall history,
         listed (api history (request (pageNum + Z.of_nat (length pages))))
           (listing final)) ->
      collect add (concat pages) resources = Val m ->
      (length pages < fuel)%nat ->
      exists evs st',
        paginate request decode add failure fuel api pageNum resources st =
          (Val (Some m, None), st') /\
        State.trace st' = (State.trace st ++ evs)%list /\
        map fst evs =
          map (fun i => request (pageNum + Z.of_nat i)) (seq 0 (S (length pages))) /\
        State.rd st' = State.rd st /\
        State.now st' = State.now st.
Proof.
  intros Hdecode pages final Hne Hfinal.
  induction Hne as [|page pages Hpage _ IH];
    intros fuel pageNum resources st m Hpages Hlast Hcollect Hfuel;
    (destruct fuel as [|fuel]; [simpl in Hfuel; lia|]).
  - simpl in Hcollect. injection Hcollect as <-.
    cbn [paginate]. unfold bind at 1.
    destruct (callSdk_listed api (request pageNum) decode st (listing final) final)
      as [r ->]; [|apply Hdecode|].
    { specialize (Hlast (State.trace st)). simpl in Hlast.
      by rewrite Z.add_0_r in Hlast. }
    cbn beta iota. rewrite bind_liftR. cbn [deref].
    eexists. eexists. split.
    + destruct Hfinal as [-> | ->]; reflexivity.
    + simpl. rewrite Z.add_0_r. auto.
  - cbn [concat] in Hcollect. rewrite collect_app in Hcollect.
    destruct (collect add page resources) as [r1| |] eqn:Hc1; try discriminate.
    simpl in Hcollect.
    cbn [paginate]. unfold bind at 1.
    destruct (callSdk_listed api (request pageNum) decode st
                (listing (Some page)) (Some page)) as [r ->]; [|apply Hdecode|].
    { specialize (Hpages (State.trace st) 0%nat page eq_refl).
      by rewrite Z.add_0_r in Hpages. }
    cbn beta iota. rewrite bind_liftR. cbn [deref].
    destruct page as [|e page]; [congruence|].
    rewrite bind_liftR, Hc1.
    set (st1 := State.mk _ _ _).
    destruct (IH fuel (pageNum + 1) r1 st1 m) as (evs & st' & Hrun & Htr & Hreqs & Hrd & Hnow).
    + intros history i page' Hi.
      replace (pageNum + 1 + Z.of_nat i) with (pageNum + Z.of_nat (S i)) by lia.
      apply Hpages. exact Hi.
    + intros history.
      replace (pageNum + 1 + Z.of_nat (length pages))
        with (pageNum + Z.of_nat (length ((e :: page) :: pages))) by (simpl; lia).
      apply Hlast.
    + exact Hcollect.
    + simpl in Hfuel. lia.
    + exists ((request pageNum, api (State.trace st) (request pageNum)) :: evs), st'.
      split; [exact Hrun|]. split.
      { rewrite Htr. subst st1. simpl. rewrite <- app_assoc. reflexivity. }
      split; [|auto].
      cbn [map fst length]. rewrite Hreqs.
      change (seq 0 (S (S (length pages)))) with (0%nat :: seq 1 (S (length pages))).
      rewrite <- seq_shift. cbn [map]. rewrite Z.add_0_r. f_equal.
      rewrite map_map. apply map_ext. intros i. f_equal. lia.
Qed.

Lemma bind_ext {A B} (m : M A) (k1 k2 : A -> M B) (st : State.t) :
  (forall a s, k1 a s = k2 a s) -> bind m k1 st = bind m k2 st.
Proof.
  intros H. unfold bind. destruct (m st) as [[a| |] s]; [apply H | reflexivity..].
Qed.

Lemma getAllIntegrationActions_from_paginate fuel api pageNum resources st :
  getAllIntegrationActions_from fuel api pageNum resources st =
    paginate (fun n => ReqGetIntegrationsActions 100 n)
      (fun b => match b with BActionListing l => Some l | _ => None end)
      addIntegrationAction "Failed to get page of integration actions: "
      fuel api pageNum resources st.
Proof.
  revert pageNum resources st. induction fuel as [|fuel IH]; intros; [reflexivity|].
  cbn [getAllIntegrationActions_from paginate]. unfold GetIntegrationsActions.
  apply bind_ext. intros [[l resp] [e|]] s1; [reflexivity|].
  apply bind_ext. intros [[|a ents]|] s2; try reflexivity.
  apply bind_ext. intros. apply IH.
Qed.

Lemma getAllCredentials_from_paginate fuel api pageNum resources st :
  getAllCredentials_from fuel api pageNum resources st =
    paginate (fun n => ReqGetIntegrationsCredentials n 100)
      (fun b => match b with BCredentialListing l => Some l | _ => None end)
      addCredential "Failed to get page of credentials: "
      fuel api pageNum resources st.
Proof.
  revert pageNum resources st. induction fuel as [|fuel IH]; intros; [reflexivity|].
  cbn [getAllCredentials_from paginate]. unfold GetIntegrationsCredentials.
  apply bind_ext. intros [[l resp] [e|]] s1; [reflexivity|].
  apply bind_ext. intros [[|a ents]|] s2; try reflexivity.
  apply bind_ext. intros. apply IH.
Qed.

Lemma getAllPhones_from_paginate fuel api pageNum resources st :
  getAllPhones_from fuel api pageNum resources st =
    paginate (fun n => ReqGetTelephonyProvidersEdgesPhones n 100)
      (fun b => match b with BPhoneListing l => Some l | _ => None end)
      addPhone "Failed to get page of phones: "
      fuel api pageNum resources st.
Proof.
  revert pageNum resources st. induction fuel as [|fuel IH]; intros; [reflexivity|].
  cbn [getAllPhones_from paginate]. unfold GetTelephonyProvidersEdgesPhones.
  apply bind_ext. intros [[l resp] [e|]] s1; [reflexivity|].
  apply bind_ext. intros [[|a ents]|] s2; try reflexivity.
  apply bind_ext. intros. apply IH.
Qed.

Lemma addIntegrationAction_entry (action : Action.t) (m : ResourceIDMetaMap) :
  is_Some (Action.Id action) /\ is_Some (Action.Name action) ->
  addIntegrationAction action m = Val (insertEntry (actionEntry action) m).
Proof.
  intros [[id Hid] [name Hname]]. unfold addIntegrationAction, actionEntry.
  rewrite Hid, Hname. simpl. destruct (String.prefix "static" id); reflexivity.
Qed.

Lemma addOAuthClient_entry (client : Oauthclientlisting.t) (m : ResourceIDMetaMap) :
  is_Some (Oauthclientlisting.Id client) /\ is_Some (Oauthclientlisting.Name client) ->
  addOAuthClient client m = Val (insertEntry (oauthClientEntry client) m).
Proof.
  intros [[id Hid] [name Hname]]. unfold addOAuthClient, oauthClientEntry.
  rewrite Hid, Hname. simpl.
  destruct (Oauthclientlisting.State client) as [state|].
  - destruct (decide (Some state = Some "disabled")) as [[= ->]|Hne].
    + reflexivity.
    + rewrite bool_decide_eq_false_2 by congruence. reflexivity.
  - destruct (decide _); [discriminate | reflexivity].
Qed.

Lemma addCredential_entry (cred : Credentialinfo.t) (m : ResourceIDMetaMap) :
  is_Some (Credentialinfo.Id cred) ->
  addCredential cred m = Val (insertEntry (credentialEntry cred) m).
Proof.
  intros [id Hid]. unfold addCredential, credentialEntry. rewrite Hid.
  destruct (Credentialinfo.Name cred); reflexivity.
Qed.

Lemma addPhone_entry (phone : Phone.t) (m : ResourceIDMetaMap) :
  is_Some (Phone.Id phone) /\ is_Some (Phone.Name phone) /\ is_Some (Phone.State phone) ->
  addPhone phone m = Val (insertEntry (phoneEntry phone) m).
Proof.
  intros ([id Hid] & [name Hname] & [state Hstate]). unfold addPhone, phoneEntry.
  rewrite Hid, Hname, Hstate. simpl.
  destruct (decide (state = "deleted")) as [->|Hne].
  - destruct (decide _); [reflexivity | congruence].
  - destruct (decide _); [congruence | reflexivity].
Qed.

Lemma exportsExactly_intro {E}
    (add : E -> ResourceIDMetaMap -> Res ResourceIDMetaMap)
    (entry : E -> option (string * string)) (wellFormed : E -> Prop)
    (ident name : E -> option string) (excluded : E -> Prop) (entities : list E) :
  (forall e m, wellFormed e -> add e m = Val (insertEntry (entry e) m)) ->
  (forall e id n, entry e = Some (id, n) -> ident e = Some id) ->
  (forall e id n, wellFormed e ->
     entry e = Some (id, n) <-> ident e = Some id /\ name e = Some n /\ ~ excluded e) ->
  Forall wellFormed entities ->
  NoDup (omap ident entities) ->
  exists resources,
    collect add entities ∅ = Val resources /\
    exportsExactly entities ident name excluded resources.
Proof.
  intros Hadd Hident Hentry Hwf Hnd.
  eexists. split.
  - apply collect_entries with (entry := entry).
    eapply Forall_impl; [exact Hwf|]. intros e He m. by apply Hadd.
  - intros id n.
    rewrite insertEntries_lookup by (eapply NoDup_kept_ids; eauto).
    rewrite Forall_forall in Hwf. split.
    + intros [(e & Hin & He)|[Hl _]]; [|by rewrite lookup_empty in Hl].
      exists e. split; [exact Hin|]. apply Hentry; auto.
    + intros (e & Hin & He). left. exists e. split; [exact Hin|].
      apply Hentry; auto.
Qed.

Lemma actionEntry_spec (action : Action.t) (id n : string) :
  actionEntry action = Some (id, n) <->
  Action.Id action = Some id /\ Action.Name action = Some n /\ ~ staticAction action.
Proof.
  unfold actionEntry, staticAction.
  destruct (Action.Id action) as [id'|]; [|split; [discriminate | intros [? _]; discriminate]].
  destruct (Action.Name action) as [n'|];
    [|split; [discriminate | intros (_ & ? & _); discriminate]].
  destruct (String.prefix "static" id') eqn:Hp; split.
  - discriminate.
  - intros ([= ->] & _ & Hns). exfalso. apply Hns. eauto.
  - intros [= -> ->]. split; [reflexivity|]. split; [reflexivity|].
    intros (id' & [= <-] & H). congruence.
  - intros ([= ->] & [= ->] & _). reflexivity.
Qed.

Lemma oauthClientEntry_spec (client : Oauthclientlisting.t) (id n : string) :
  oauthClientEntry client = Some (id, n) <->
  Oauthclientlisting.Id client = Some id /\ Oauthclientlisting.Name client = Some n /\
  ~ disabledClient client.
Proof.
  unfold oauthClientEntry, disabledClient.
  destruct (Oauthclientlisting.Id client) as [id'|];
    [|split; [discriminate | intros [? _]; discriminate]].
  destruct (Oauthclientlisting.Name client) as [n'|];
    [|split; [discriminate | intros (_ & ? & _); discriminate]].
  destruct (decide _) as [Hd|Hd]; split.
  - discriminate.
  - intros (_ & _ & Hn). contradiction.
  - intros [= -> ->]. auto.
  - intros ([= ->] & [= ->] & _). reflexivity.
Qed.

Lemma credentialEntry_spec (cred : Credentialinfo.t) (id n : string) :
  credentialEntry cred = Some (id, n) <->
  Credentialinfo.Id cred = Some id /\ Credentialinfo.Name cred = Some n /\ ~ False.
Proof.
  unfold credentialEntry.
  destruct (Credentialinfo.Id cred) as [id'|];
    [|split; [discriminate | intros [? _]; discriminate]].
  destruct (Credentialinfo.Name cred) as [n'|];
    [|split; [discriminate | intros (_ & ? & _); discriminate]].
  split.
  - intros [= -> ->]. auto.
  - intros ([= ->] & [= ->] & _). reflexivity.
Qed.

Lemma phoneEntry_spec (phone : Phone.t) (id n : string) :
  phoneEntry phone = Some (id, n) <->
  Phone.Id phone = Some id /\ Phone.Name phone = Some n /\ ~ deletedPhone phone.
Proof.
  unfold phoneEntry, deletedPhone.
  destruct (Phone.Id phone) as [id'|];
    [|split; [discriminate | intros [? _]; discriminate]].
  destruct (Phone.Name phone) as [n'|];
    [|split; [discriminate | intros (_ & ? & _); discriminate]].
  destruct (decide _) as [Hd|Hd]; split.
  - discriminate.
  - intros (_ & _ & Hn). contradiction.
  - intros [= -> ->]. auto.
  - intros ([= ->] & [= ->] & _). reflexivity.
Qed.

(** C5. The accumulation loops of the exporters leave out exactly the
    system-owned or synthetic entities: run on readable entities with
    pairwise distinct IDs, the loop of [getAllIntegrationActions] returns
    each action under its ID with its name unless the ID begins with
    [static], that of [getAllOAuthClients] each client unless its state is
    [disabled], and that of [getAllPhones] each phone unless its state is
    [deleted]; nothing else is in the result. [getAllOAuthClients] as a
    whole, which lists in one call, returns that result for the clients
    the server lists. *)
Theorem exporters_exclude_exactly :
  excludesExactly addIntegrationActions
    (fun a => is_Some (Action.Id a) /\ is_Some (Action.Name a))
    Action.Id Action.Name staticAction /\
  excludesExactly addOAuthClients
    (fun c => is_Some (Oauthclientlisting.Id c) /\ is_Some (Oauthclientlisting.Name c))
    Oauthclientlisting.Id Oauthclientlisting.Name disabledClient /\
  excludesExactly addPhones
    (fun p => is_Some (Phone.Id p) /\ is_Some (Phone.Name p) /\ is_Some (Phone.State p))
    Phone.Id Phone.Name deletedPhone /\
  (forall api st entities,
     listed (api (State.trace st) ReqGetOauthClients) (BOauthClientListing (Some entities)) ->
     Forall (fun c => is_Some (Oauthclientlisting.Id c) /\
                      is_Some (Oauthclientlisting.Name c)) entities ->
     NoDup (omap Oauthclientlisting.Id entities) ->
     exists resources st',
       getAllOAuthClients api st = (Val (Some resources, None), st') /\
       exportsExactly entities Oauthclientlisting.Id Oauthclientlisting.Name
         disabledClient resources).
Proof.
  assert (Hclients :
    excludesExactly addOAuthClients
      (fun c => is_Some (Oauthclientlisting.Id c) /\ is_Some (Oauthclientlisting.Name c))
      Oauthclientlisting.Id Oauthclientlisting.Name disabledClient).
  { intros entities Hwf Hnd.
    apply (exportsExactly_intro addOAuthClient oauthClientEntry) with (wellFormed :=
      fun c => is_Some (Oauthclientlisting.Id c) /\ is_Some (Oauthclientlisting.Name c));
      auto.
    + intros e m He. by apply addOAuthClient_entry.
    + intros e id n He. by apply oauthClientEntry_spec in He as [? _].
    + intros e id n _. apply oauthClientEntry_spec. }
  split; [|split; [exact Hclients|split]]; [| |intros api st entities Hl Hwf Hnd].
  3: { destruct (Hclients entities Hwf Hnd) as (resources & Hadd & Hex).
       unfold getAllOAuthClients, GetOauthClients, bind at 1.
       destruct (callSdk_listed api ReqGetOauthClients
                   (fun b => match b with BOauthClientListing l => Some l | _ => None end)
                   st _ (Some entities) Hl eq_refl) as [r ->].
       cbn beta iota. rewrite bind_liftR. cbn [deref].
       destruct entities as [|c entities].
       - injection Hadd as <-. eauto.
       - rewrite bind_liftR, Hadd. eauto. }
  all: intros entities Hwf Hnd.
  - apply (exportsExactly_intro addIntegrationAction actionEntry) with (wellFormed :=
      fun a => is_Some (Action.Id a) /\ is_Some (Action.Name a)); auto.
    + intros e m He. by apply addIntegrationAction_entry.
    + intros e id n He. by apply actionEntry_spec in He as [? _].
    + intros e id n _. apply actionEntry_spec.
  - apply (exportsExactly_intro addPhone phoneEntry) with (wellFormed :=
      fun p => is_Some (Phone.Id p) /\ is_Some (Phone.Name p) /\ is_Some (Phone.State p));
      auto.
    + intros e m He. by apply addPhone_entry.
    + intros e id n He. by apply phoneEntry_spec in He as [? _].
    + intros e id n _. apply phoneEntry_spec.
Qed.

Lemma exporters_exclude_exactly_witness :
  exists actions clients phones,
    addIntegrationActions sampleActions ∅ = Val actions /\
    actions !! "action-1" = Some (ResourceMeta.mk "lookup") /\
    addOAuthClients sampleClients ∅ = Val clients /\
    clients !! "client-2" = Some (ResourceMeta.mk "deploy") /\
    addPhones samplePhones ∅ = Val phones /\
    phones !! "phone-2" = Some (ResourceMeta.mk "desk").
Proof.
  destruct exporters_exclude_exactly as (Ha & Hc & Hp & _).
  destruct (Ha sampleActions) as (actions & Hactions & Hea).
  { repeat constructor; simpl; eauto. }
  { apply (bool_decide_unpack _). vm_compute. reflexivity. }
  destruct (Hc sampleClients) as (clients & Hclients & Hec).
  { repeat constructor; simpl; eauto. }
  { apply (bool_decide_unpack _). vm_compute. reflexivity. }
  destruct (Hp samplePhones) as (phones & Hphones & Hep).
  { repeat constructor; simpl; eauto. }
  { apply (bool_decide_unpack _). vm_compute. reflexivity. }
  exists actions, clients, phones.
  split; [exact Hactions|]. split.
  { apply Hea. exists (Action.mk (Some "action-1") (Some "lookup")).
    split; [set_solver|]. split; [reflexivity|]. split; [reflexivity|].
    intros (id & [= <-] & H). discriminate. }
  split; [exact Hclients|]. split.
  { apply Hec.
    exists (Oauthclientlisting.mk (Some "client-2") (Some "deploy") (Some "active")).
    split; [set_solver|]. split; [reflexivity|]. split; [reflexivity|]. discriminate. }
  split; [exact Hphones|].
  apply Hep. exists (Phone.mk (Some "phone-2") (Some "desk") (Some "active")).
  split; [set_solver|]. split; [reflexivity|]. split; [reflexivity|]. discriminate.
Defined.

(** C4, as stated, fails: the first page of credentials holds one entity,
    fewer than the hundred requested, and [getAllCredentials] goes on to
    request the second page instead of stopping there. *)
Lemma short_page_does_not_stop_pagination :
  let run := getAllCredentials 5 shortPageServer emptyState in
  (length sampleCredentials < 100)%nat /\
  map fst (State.trace run.2) =
    [ReqGetIntegrationsCredentials 1 100; ReqGetIntegrationsCredentials 2 100] /\
  map fst (State.trace run.2) <> [ReqGetIntegrationsCredentials 1 100].
Proof. vm_compute. split; [lia|]. split; [reflexivity | discriminate]. Qed.

Lemma paginatesToFirstEmptyPage_intro {E}
    (getAll : nat -> Api -> M (option ResourceIDMetaMap * Diagnostics))
    (request : Z -> Request) (listing : option (list E) -> Body)
    (decode : Body -> option (option (list E)))
    (add : E -> ResourceIDMetaMap -> Res ResourceIDMetaMap) (failure : string)
    (entry : E -> option (string * string))
    (wellFormed : E -> Prop) (ident name : E -> option string) (excluded : E -> Prop) :
  (forall fuel api st,
     getAll fuel api st = paginate request decode add failure fuel api 1 ∅ st) ->
  (forall l, decode (listing l) = Some l) ->
  (forall e m, wellFormed e -> add e m = Val (insertEntry (entry e) m)) ->
  (forall e id n,
     entry e = Some (id, n) <-> ident e = Some id /\ name e = Some n /\ ~ excluded e) ->
  paginatesToFirstEmptyPage getAll request listing wellFormed ident name excluded.
Proof.
  intros HgetAll Hdecode Hadd Hentry api pages final st fuel
    (Hne & Hfinal & Hpages & Hlast) Hwf Hnd Hfuel.
  destruct (exportsExactly_intro add entry wellFormed ident name excluded (concat pages))
    as (resources & Hcollect & Hexact); auto.
  { intros e id n He. by apply Hentry in He as [? _]. }
  destruct (paginate_run request decode add failure listing api Hdecode pages final
              Hne Hfinal fuel 1 ∅ st resources Hpages Hlast Hcollect Hfuel)
    as (evs & st' & Hrun & Htr & Hreqs & _).
  exists resources, evs, st'. rewrite HgetAll. auto.
Qed.

(** C4, amended. Each of the three paginated exporters requests the pages
    1, 2, 3, ... with page size 100 and, given enough fuel, stops at the
    first page whose entity list is absent or empty; a page that is merely
    short does not stop it. On a collection that does not change
    meanwhile, whose entities are readable and have pairwise distinct IDs,
    the result holds, keyed by ID, exactly the entities of the pages
    fetched that are not excluded (actions whose ID begins with [static],
    credentials without a name, phones in state [deleted]), each once and
    with its name. *)
Theorem exporters_paginate_to_first_empty_page :
  paginatesToFirstEmptyPage getAllIntegrationActions
    (fun n => ReqGetIntegrationsActions 100 n) BActionListing
    (fun a => is_Some (Action.Id a) /\ is_Some (Action.Name a))
    Action.Id Action.Name staticAction /\
  paginatesToFirstEmptyPage getAllCredentials
    (fun n => ReqGetIntegrationsCredentials n 100) BCredentialListing
    (fun c => is_Some (Credentialinfo.Id c))
    Credentialinfo.Id Credentialinfo.Name (fun _ => False) /\
  paginatesToFirstEmptyPage getAllPhones
    (fun n => ReqGetTelephonyProvidersEdgesPhones n 100) BPhoneListing
    (fun p => is_Some (Phone.Id p) /\ is_Some (Phone.Name p) /\ is_Some (Phone.State p))
    Phone.Id Phone.Name deletedPhone.
Proof.
  split; [|split].
  - eapply paginatesToFirstEmptyPage_intro with (entry := actionEntry).
    + intros. apply getAllIntegrationActions_from_paginate.
    + reflexivity.
    + intros e m He. by apply addIntegrationAction_entry.
    + apply actionEntry_spec.
  - eapply paginatesToFirstEmptyPage_intro with (entry := credentialEntry).
    + intros. apply getAllCredentials_from_paginate.
    + reflexivity.
    + intros e m He. by apply addCredential_entry.
    + apply credentialEntry_spec.
  - eapply paginatesToFirstEmptyPage_intro with (entry := phoneEntry).
    + intros. apply getAllPhones_from_paginate.
    + reflexivity.
    + intros e m He. by apply addPhone_entry.
    + apply phoneEntry_spec.
Qed.

Lemma shortPageServer_serves_credentials :
  servesPages shortPageServer (fun n => ReqGetIntegrationsCredentials n 100)
    BCredentialListing [sampleCredentials] None.
Proof.
  split; [repeat constructor; discriminate|]. split; [auto|]. split.
  - intros history [|i] page Hi; [|by destruct i].
    injection Hi as <-. unfold listed. simpl. eauto 10.
  - intros history. unfold listed. simpl. eauto 10.
Qed.

Lemma shortPageServer_serves_actions :
  servesPages shortPageServer (fun n => ReqGetIntegrationsActions 100 n)
    BActionListing [sampleActions] None.
Proof.
  split; [repeat constructor; discriminate|]. split; [auto|]. split.
  - intros history [|i] page Hi; [|by destruct i].
    injection Hi as <-. unfold listed. simpl. eauto 10.
  - intros history. unfold listed. simpl. eauto 10.
Qed.

Lemma shortPageServer_serves_phones :
  servesPages shortPageServer (fun n => ReqGetTelephonyProvidersEdgesPhones n 100)
    BPhoneListing [samplePhones] None.
Proof.
  split; [repeat constructor; discriminate|]. split; [auto|]. split.
  - intros history [|i] page Hi; [|by destruct i].
    injection Hi as <-. unfold listed. simpl. eauto 10.
  - intros history. unfold listed. simpl. eauto 10.
Qed.

Lemma exporters_paginate_to_first_empty_page_witness :
  exists actions credentials phones,
    (getAllIntegrationActions 2 shortPageServer emptyState).1 = Val (Some actions, None) /\
    actions !! "action-1" = Some (ResourceMeta.mk "lookup") /\
    (getAllCredentials 2 shortPageServer emptyState).1 = Val (Some credentials, None) /\
    credentials !! "cred-1" = Some (ResourceMeta.mk "token") /\
    (getAllPhones 2 shortPageServer emptyState).1 = Val (Some phones, None) /\
    phones !! "phone-2" = Some (ResourceMeta.mk "desk").
Proof.
  destruct exporters_paginate_to_first_empty_page as (Ha & Hc & Hp).
  destruct (Ha shortPageServer [sampleActions] None emptyState 2%nat)
    as (actions & evsa & sta & Hruna & _ & _ & Hea).
  { exact shortPageServer_serves_actions. }
  { repeat constructor; simpl; eauto. }
  { apply (bool_decide_unpack _). vm_compute. reflexivity. }
  { simpl. lia. }
  destruct (Hc shortPageServer [sampleCredentials] None emptyState 2%nat)
    as (credentials & evsc & stc & Hrunc & _ & _ & Hec).
  { exact shortPageServer_serves_credentials. }
  { repeat constructor; simpl; eauto. }
  { apply (bool_decide_unpack _). vm_compute. reflexivity. }
  { simpl. lia. }
  destruct (Hp shortPageServer [samplePhones] None emptyState 2%nat)
    as (phones & evsp & stp & Hrunp & _ & _ & Hep).
  { exact shortPageServer_serves_phones. }
  { repeat constructor; simpl; eauto. }
  { apply (bool_decide_unpack _). vm_compute. reflexivity. }
  { simpl. lia. }
  exists actions, credentials, phones.
  rewrite Hruna, Hrunc, Hrunp. simpl.
  split; [reflexivity|]. split.
  { apply Hea. exists (Action.mk (Some "action-1") (Some "lookup")).
    split; [set_solver|]. split; [reflexivity|]. split; [reflexivity|].
    intros (id & [= <-] & H). discriminate. }
  split; [reflexivity|]. split.
  { apply Hec. exists (Credentialinfo.mk (Some "cred-1") (Some "token")).
    split; [set_solver|]. split; [reflexivity|]. split; [reflexivity|]. tauto. }
  split; [reflexivity|].
  apply Hep. exists (Phone.mk (Some "phone-2") (Some "desk") (Some "active")).
  split; [set_solver|]. split; [reflexivity|]. split; [reflexivity|]. discriminate.
Defined.

(** ** The properties on sample servers *)


(** An active client is deleted in two steps: it is put with the state
    [inactive] and read back, and only then deleted and looked for again. *)
Example deleteOAuthClient_two_steps :
  let run := deleteOAuthClient sampleContext (providerMeta.mk oauthServer)
               sampleOauthState in
  run.1 = Val None /\
  map fst (State.trace run.2) =
    [ReqPutOauthClient "client-2"
       (Oauthclientrequest.mk (Some "deploy") (Some 0) (Some EmptyString) None None
          (Some EmptyString) None (Some "inactive"));
     ReqGetOauthClient "client-2";
     ReqDeleteOauthClient "client-2";
     ReqGetOauthClient "client-2"].
Proof. vm_compute. auto. Qed.

Lemma oauth_delete_inactivates_first_witness :
  exists updateEvents,
    State.trace (updateOAuthClient sampleContext (providerMeta.mk oauthServer)
                   (inactivated sampleOauthState)).2 = updateEvents /\
    Forall inactivatingUpdateEvent updateEvents.
Proof.
  destruct (oauth_delete_inactivates_first sampleContext (providerMeta.mk oauthServer)
              sampleOauthState) as (updateEvents & Htr & HF & _).
  exists updateEvents. split; [exact Htr | exact HF].
Defined.


(** * Further properties of the adapters *)

(** ** Builders and flatteners, continued *)

Lemma copyStringMap_step (k : string) (v : Value) (m : gmap string Value) :
  m !! k = None ->
  copyStringMap (<[k := v]> m) =
    res_bind (copyStringMap m) (fun out =>
    res_bind (assertString (Some v)) (fun s => Val (<[k := s]> out))).
Proof.
  intros Hk. unfold copyStringMap. rewrite map_fold_insert_L; [reflexivity| |exact Hk].
  intros j1 j2 z1 z2 y Hne _ _.
  destruct y as [out| |]; simpl; try (destruct z1, z2; reflexivity).
  destruct z1, z2; simpl; try reflexivity.
  f_equal. apply insert_insert_ne. congruence.
Qed.

Lemma copyStringMap_Val (m : gmap string Value) (h : gmap string string) :
  copyStringMap m = Val h <-> m = VString <$> h.
Proof.
  split; [|intros ->; apply copyStringMap_fmap].
  revert h. induction m as [|k v m Hk IH] using map_ind; intros h.
  - unfold copyStringMap. rewrite map_fold_empty. intros [= <-].
    by rewrite fmap_empty.
  - rewrite copyStringMap_step by done.
    destruct (copyStringMap m) as [out| |]; simpl; try discriminate.
    destruct v; simpl; try discriminate. intros [= <-].
    rewrite fmap_insert, (IH out eq_refl). reflexivity.
Qed.

Lemma copyStringMap_fuel (m : gmap string Value) : copyStringMap m <> OutOfFuel.
Proof.
  induction m as [|k v m Hk IH] using map_ind.
  - unfold copyStringMap. rewrite map_fold_empty. discriminate.
  - rewrite copyStringMap_step by done.
    destruct (copyStringMap m) as [out| |]; simpl; try done.
    destruct v; discriminate.
Qed.

Lemma copyStringMap_Panic (m : gmap string Value) :
  copyStringMap m = Panic <->
  exists k v, m !! k = Some v /\ forall s, v <> VString s.
Proof.
  induction m as [|k v m Hk IH] using map_ind.
  - unfold copyStringMap. rewrite map_fold_empty. split; [discriminate|].
    intros (k & v & Hkv & _). by rewrite lookup_empty in Hkv.
  - rewrite copyStringMap_step by done.
    pose proof (copyStringMap_fuel m) as Hfuel. split.
    + destruct (copyStringMap m) as [out| |] eqn:Hm; simpl; [| |done].
      * destruct v; simpl; try discriminate; intros _;
          eexists k, _; (split; [apply lookup_insert_eq | discriminate]).
      * intros _. destruct (proj1 IH eq_refl) as (k' & v' & Hkv & Hv).
        exists k', v'. split; [|exact Hv].
        rewrite lookup_insert_ne; [exact Hkv | congruence].
    + intros (k' & v' & Hkv & Hv).
      destruct (decide (k = k')) as [<-|Hne].
      * rewrite lookup_insert_eq in Hkv. injection Hkv as ->.
        destruct (copyStringMap m) as [out| |] eqn:Hm; simpl; [|reflexivity|done].
        destruct v'; simpl; try reflexivity. by destruct (Hv s).
      * rewrite lookup_insert_ne in Hkv by done.
        rewrite (proj2 IH); [reflexivity | eauto].
Qed.

(** X1. For a [fields] attribute that holds a map, [buildCredentialFields]
    returns the map [h] exactly when the attribute holds the strings of
    [h], key by key; it panics exactly when some value of the attribute is
    not a string; and it never returns nil. *)
Theorem buildCredentialFields_exact (d : ResourceData.t) (m : gmap string Value) :
  ResourceData.attrs d !! "fields" = Some (VMap m) ->
  (forall h, buildCredentialFields d = Val (Some h) <-> m = VString <$> h) /\
  (buildCredentialFields d = Panic <->
     exists k v, m !! k = Some v /\ forall s, v <> VString s) /\
  buildCredentialFields d <> Val None.
Proof.
  intros Hd.
  assert (buildCredentialFields d =
          res_bind (copyStringMap m) (fun results => Val (Some results))) as ->.
  { unfold buildCredentialFields, ResourceData.GetOk. rewrite Hd.
    cbn [isZeroValue]. destruct (decide (m = ∅)) as [->|Hne].
    - rewrite map_size_empty. reflexivity.
    - assert (Nat.eqb (size m) 0 = false) as ->; [|reflexivity].
      apply Nat.eqb_neq. by rewrite map_size_empty_iff. }
  pose proof (copyStringMap_fuel m) as Hfuel.
  split; [|split].
  - intros h. rewrite <- copyStringMap_Val.
    destruct (copyStringMap m); simpl; split; congruence.
  - rewrite <- copyStringMap_Panic.
    destruct (copyStringMap m); simpl; split; congruence.
  - destruct (copyStringMap m); simpl; congruence.
Qed.

(** X2. Round trip of the [config_response] block: the translation map,
    the map of defaults and the success template of the first block come
    back when the SDK response built from the block is flattened. A key
    that the block lacks comes back as the empty map, or as the empty
    string for the template: the flattened block always has the three keys
    and no other. *)
Theorem config_response_roundtrip
    (d : ResourceData.t) (cfg : gmap string Value) (others : list Value)
    (transMap transMapDefaults : option (gmap string string))
    (successTemplate : option string) :
  ResourceData.attrs d !! "config_response" = Some (VList (VMap cfg :: others)) ->
  cfg !! "translation_map" = (fun h => VMap (VString <$> h)) <$> transMap ->
  cfg !! "translation_map_defaults" =
    (fun h => VMap (VString <$> h)) <$> transMapDefaults ->
  cfg !! "success_template" = VString <$> successTemplate ->
  exists sdkResponse out,
    buildSdkActionConfigResponse d = Val (Some sdkResponse) /\
    flattenActionConfigResponse sdkResponse = [VMap out] /\
    out !! "translation_map" = Some (VStringMap (default ∅ transMap)) /\
    out !! "translation_map_defaults" = Some (VStringMap (default ∅ transMapDefaults)) /\
    out !! "success_template" = Some (VString (default EmptyString successTemplate)) /\
    forall key, is_Some (out !! key) ->
      key = "translation_map" \/ key = "translation_map_defaults" \/
      key = "success_template".
Proof.
  intros Hd Hmap Hdefaults Htemplate.
  unfold buildSdkActionConfigResponse, ResourceData.GetList.
  rewrite Hd. simpl. rewrite Hmap, Hdefaults, Htemplate.
  destruct transMap as [tm|], transMapDefaults as [td|], successTemplate as [t|];
    simpl; rewrite ?copyStringMap_fmap; simpl; rewrite ?copyStringMap_fmap; simpl;
    (eexists; eexists; split; [reflexivity|]);
    unfold flattenActionConfigResponse; simpl;
    (split; [reflexivity|]);
    (repeat split; try by simplify_map_eq);
    intros key [v Hv];
    (destruct (decide (key = "success_template")) as [->|?]; [tauto|]);
    (destruct (decide (key = "translation_map_defaults")) as [->|?]; [tauto|]);
    (destruct (decide (key = "translation_map")) as [->|?]; [tauto|]);
    by simplify_map_eq.
Qed.

Lemma res_bind_Val {A B} (r : Res A) (k : A -> Res B) (b : B) :
  res_bind r k = Val b -> exists a, r = Val a /\ k a = Val b.
Proof. destruct r; simpl; [eauto | discriminate | discriminate]. Qed.

Ltac res_inv H :=
  repeat match type of H with
  | res_bind _ _ = Val _ =>
      let a := fresh "a" in
      let Ha := fresh "Ha" in
      apply res_bind_Val in H; destruct H as (a & Ha & H)
  end.

Lemma buildSdkActionConfigRequest_some (d : ResourceData.t) request :
  buildSdkActionConfigRequest d = Val request -> is_Some request.
Proof.
  unfold buildSdkActionConfigRequest. intros H. res_inv H.
  destruct a as [|block l]; [injection H as <-; eauto|].
  res_inv H. injection H as <-. eauto.
Qed.

Lemma buildSdkActionConfigResponse_some (d : ResourceData.t) response :
  buildSdkActionConfigResponse d = Val response -> is_Some response.
Proof.
  unfold buildSdkActionConfigResponse. intros H. res_inv H.
  destruct a as [|block l]; [injection H as <-; eauto|].
  res_inv H. injection H as <-. eauto.
Qed.

(** X3. Whenever [buildSdkActionConfig] returns, the configuration and
    both its parts are present, never nil. With neither block configured
    the parts are the empty structures, and each of them flattens to a list
    of one empty block, not to the empty list. *)
Theorem buildSdkActionConfig_never_nil (d : ResourceData.t) :
  (forall config, buildSdkActionConfig d = Val config ->
     exists request response,
       config = Some (Actionconfig.mk (Some request) (Some response))) /\
  (ResourceData.attrs d !! "config_request" = None ->
   ResourceData.attrs d !! "config_response" = None ->
   buildSdkActionConfig d =
     Val (Some (Actionconfig.mk (Some Requestconfig.empty) (Some Responseconfig.empty))) /\
   flattenActionConfigRequest Requestconfig.empty = [VMap ∅] /\
   flattenActionConfigResponse Responseconfig.empty = [VMap ∅]).
Proof.
  split.
  - intros config. unfold buildSdkActionConfig.
    destruct (buildSdkActionConfigRequest d) as [request| |] eqn:Hrq; simpl;
      try discriminate.
    destruct (buildSdkActionConfigResponse d) as [response| |] eqn:Hrs; simpl;
      try discriminate.
    destruct (buildSdkActionConfigRequest_some _ _ Hrq) as [rq ->].
    destruct (buildSdkActionConfigResponse_some _ _ Hrs) as [rs ->].
    intros [= <-]. eauto.
  - intros Hrq Hrs.
    unfold buildSdkActionConfig, buildSdkActionConfigRequest,
      buildSdkActionConfigResponse, ResourceData.GetList.
    rewrite Hrq, Hrs. auto.
Qed.

Lemma buildOAuthRoles_range_divisions (api : Api) (roleConfig : list (gmap string string)) :
  Forall (fun role => exists roleId divisionId,
            role = roleBlock roleId divisionId /\ divisionId <> EmptyString) roleConfig ->
  forall sdkRoles st,
    buildOAuthRoles_range api roleConfig sdkRoles st =
      (Val (Some (sdkRoles ++ (roleOfBlock <$> roleConfig))%list, None), st).
Proof.
  induction 1 as [|role roleConfig (roleId & divisionId & -> & Hdiv) _ IH];
    intros sdkRoles st.
  - simpl. by rewrite app_nil_r.
  - cbn [buildOAuthRoles_range]. rewrite bind_liftR.
    unfold roleBlock at 1 2. simplify_map_eq. cbn [deref default].
    destruct (decide (divisionId = EmptyString)) as [?|_]; [done|].
    unfold bind at 1, ret at 1. rewrite IH.
    rewrite <- app_assoc. unfold roleOfBlock at 2, roleBlock.
    by simplify_map_eq.
Qed.

Lemma flattenOAuthRoles_blocks (roleConfig : list (gmap string string)) :
  Forall (fun role => exists roleId divisionId,
            role = roleBlock roleId divisionId) roleConfig ->
  flattenOAuthRoles (roleOfBlock <$> roleConfig) = VBlockSet (list_to_set roleConfig).
Proof.
  intros Hall. unfold flattenOAuthRoles. f_equal.
  rewrite <- (left_id_L ∅ (∪) (list_to_set roleConfig)).
  generalize (∅ : gset (gmap string string)) as acc.
  induction Hall as [|role roleConfig (roleId & divisionId & ->) _ IH]; intros acc.
  - simpl. by rewrite (right_id_L ∅ (∪)).
  - rewrite fmap_cons. cbn [foldl]. rewrite IH.
    unfold roleOfBlock, roleBlock. simplify_map_eq.
    by rewrite (assoc_L (∪)).
Qed.

(** X4. Roles whose blocks name a role and a division that is not empty
    are built without a call to the server, one SDK role per block, and
    flattening the SDK roles gives the configured set back. No roles at
    all (nil) are built exactly when the set is empty. *)
Theorem oauth_roles_roundtrip (api : Api) (d : ResourceData.t)
    (s : gset (gmap string string)) (st : State.t) :
  ResourceData.attrs d !! "roles" = Some (VBlockSet s) ->
  (forall role, role ∈ s ->
     exists roleId divisionId,
       role = roleBlock roleId divisionId /\ divisionId <> EmptyString) ->
  exists sdkRoles,
    buildOAuthRoles api d st = (Val (sdkRoles, None), st) /\
    match sdkRoles with
    | Some l => s <> ∅ /\ flattenOAuthRoles l = VBlockSet s /\ length l = size s
    | None => s = ∅
    end.
Proof.
  intros Hd Hroles. unfold buildOAuthRoles, ResourceData.GetOk. rewrite Hd.
  cbn [isZeroValue]. destruct (decide (s = ∅)) as [->|Hne].
  - rewrite size_empty. simpl. eexists. split; [reflexivity|]. reflexivity.
  - assert (Nat.eqb (size s) 0 = false) as ->.
    { apply Nat.eqb_neq. intros Hs. by apply size_empty_inv, leibniz_equiv in Hs. }
    cbn [negb].
    assert (Hall : Forall (fun role => exists roleId divisionId,
                             role = roleBlock roleId divisionId /\
                             divisionId <> EmptyString) (elements s)).
    { apply Forall_forall. intros role Hin. apply Hroles. by apply elem_of_elements. }
    rewrite (buildOAuthRoles_range_divisions api _ Hall).
    eexists. split; [reflexivity|]. cbn [app]. split; [exact Hne|]. split.
    + rewrite flattenOAuthRoles_blocks.
      * by rewrite list_to_set_elements_L.
      * eapply Forall_impl; [exact Hall|]. intros role (r & dv & -> & _). eauto.
    + by rewrite length_fmap.
Qed.

(** ** Exporters, continued *)

Lemma callSdk_failsWith {A} (api : Api) (req : Request) (decode : Body -> option A)
    (st : State.t) (e : string) :
  failsWith (api (State.trace st) req) e ->
  callSdk api req decode st =
    (Val (None, Reply.response (api (State.trace st) req), Some e),
     State.mk (State.trace st ++ [(req, api (State.trace st) req)])%list
       (State.now st) (State.rd st)).
Proof.
  unfold callSdk, bind. rewrite CallAPI_run. cbn beta iota.
  intros [He|(He & r & Hr & [x Hx] & Hm)]; rewrite He; [reflexivity|].
  rewrite Hr. simpl. rewrite Hx, Hm. reflexivity.
Qed.

Lemma paginate_failed {E} (request : Z -> Request)
    (decode : Body -> option (option (list E)))
    (add : E -> ResourceIDMetaMap -> Res ResourceIDMetaMap) (failure : string)
    (listing : option (list E) -> Body) (api : Api) (e : string) :
  (forall l, decode (listing l) = Some l) ->
  forall pages,
    Forall (fun page => page <> []) pages ->
    forall fuel pageNum resources st m,
      (forall history i page,
         pages !! i = Some page ->
         listed (api history (request (pageNum + Z.of_nat i))) (listing (Some page))) ->
      (forall history,
         failsWith (api history (request (pageNum + Z.of_nat (length pages)))) e) ->
      collect add (concat pages) resources = Val m ->
      (length pages < fuel)%nat ->
      exists evs st',
        paginate request decode add failure fuel api pageNum resources st =
          (Val (None, Some (DiagError (failure +:+ e))), st') /\
        State.trace st' = (State.trace st ++ evs)%list /\
        map fst evs =
          map (fun i => request (pageNum + Z.of_nat i)) (seq 0 (S (length pages))).
Proof.
  intros Hdecode pages Hne.
  induction Hne as [|page pages Hpage _ IH];
    intros fuel pageNum resources st m Hpages Hlast Hcollect Hfuel;
    (destruct fuel as [|fuel]; [simpl in Hfuel; lia|]).
  - cbn [paginate]. unfold bind at 1.
    rewrite (callSdk_failsWith api (request pageNum) decode st e).
    2:{ specialize (Hlast (State.trace st)). simpl in Hlast.
        by rewrite Z.add_0_r in Hlast. }
    cbn beta iota. eexists. eexists. split; [reflexivity|].
    simpl. rewrite Z.add_0_r. auto.
  - cbn [concat] in Hcollect. rewrite collect_app in Hcollect.
    destruct (collect add page resources) as [r1| |] eqn:Hc1; try discriminate.
    simpl in Hcollect.
    cbn [paginate]. unfold bind at 1.
    destruct (callSdk_listed api (request pageNum) decode st
                (listing (Some page)) (Some page)) as [r ->]; [|apply Hdecode|].
    { specialize (Hpages (State.trace st) 0%nat page eq_refl).
      by rewrite Z.add_0_r in Hpages. }
    cbn beta iota. rewrite bind_liftR. cbn [deref].
    destruct page as [|x page]; [congruence|].
    rewrite bind_liftR, Hc1.
    set (st1 := State.mk _ _ _).
    destruct (IH fuel (pageNum + 1) r1 st1 m) as (evs & st' & Hrun & Htr & Hreqs).
    + intros history i page' Hi.
      replace (pageNum + 1 + Z.of_nat i) with (pageNum + Z.of_nat (S i)) by lia.
      apply Hpages. exact Hi.
    + intros history.
      replace (pageNum + 1 + Z.of_nat (length pages))
        with (pageNum + Z.of_nat (length ((x :: page) :: pages))) by (simpl; lia).
      apply Hlast.
    + exact Hcollect.
    + simpl in Hfuel. lia.
    + exists ((request pageNum, api (State.trace st) (request pageNum)) :: evs), st'.
      split; [exact Hrun|]. split.
      { rewrite Htr. subst st1. simpl. rewrite <- app_assoc. reflexivity. }
      cbn [map fst length]. rewrite Hreqs.
      change (seq 0 (S (S (length pages)))) with (0%nat :: seq 1 (S (length pages))).
      rewrite <- seq_shift. cbn [map]. rewrite Z.add_0_r. f_equal.
      rewrite map_map. apply map_ext. intros i. f_equal. lia.
Qed.

Lemma dropsPagesOnFailure_intro {E}
    (getAll : nat -> Api -> M (option ResourceIDMetaMap * Diagnostics))
    (request : Z -> Request) (listing : option (list E) -> Body)
    (decode : Body -> option (option (list E)))
    (add : E -> ResourceIDMetaMap -> Res ResourceIDMetaMap) (failure : string)
    (entry : E -> option (string * string)) (wellFormed : E -> Prop) :
  (forall fuel api st,
     getAll fuel api st = paginate request decode add failure fuel api 1 ∅ st) ->
  (forall l, decode (listing l) = Some l) ->
  (forall e m, wellFormed e -> add e m = Val (insertEntry (entry e) m)) ->
  dropsPagesOnFailure getAll request listing wellFormed failure.
Proof.
  intros HgetAll Hdecode Hadd api pages e st fuel Hne Hpages Hlast Hwf Hfuel.
  rewrite HgetAll.
  eapply (paginate_failed request decode add failure listing api e Hdecode pages Hne
            fuel 1 ∅ st); eauto.
  apply collect_entries with (entry := entry).
  eapply Forall_impl; [exact Hwf|]. intros x Hx m. by apply Hadd.
Qed.

(** X5. When the request for a page fails, each of the three paginated
    exporters returns the failure, prefixed with its own message, and no
    resources at all, although the pages before were fetched and read: the
    requests made are those for the pages 1 up to the failing one. *)
Theorem exporters_drop_pages_on_failure :
  dropsPagesOnFailure getAllIntegrationActions
    (fun n => ReqGetIntegrationsActions 100 n) BActionListing
    (fun a => is_Some (Action.Id a) /\ is_Some (Action.Name a))
    "Failed to get page of integration actions: " /\
  dropsPagesOnFailure getAllCredentials
    (fun n => ReqGetIntegrationsCredentials n 100) BCredentialListing
    (fun c => is_Some (Credentialinfo.Id c))
    "Failed to get page of credentials: " /\
  dropsPagesOnFailure getAllPhones
    (fun n => ReqGetTelephonyProvidersEdgesPhones n 100) BPhoneListing
    (fun p => is_Some (Phone.Id p) /\ is_Some (Phone.Name p) /\ is_Some (Phone.State p))
    "Failed to get page of phones: ".
Proof.
  split; [|split].
  - eapply dropsPagesOnFailure_intro with (entry := actionEntry).
    + intros. apply getAllIntegrationActions_from_paginate.
    + reflexivity.
    + intros. by apply addIntegrationAction_entry.
  - eapply dropsPagesOnFailure_intro with (entry := credentialEntry).
    + intros. apply getAllCredentials_from_paginate.
    + reflexivity.
    + intros. by apply addCredential_entry.
  - eapply dropsPagesOnFailure_intro with (entry := phoneEntry).
    + intros. apply getAllPhones_from_paginate.
    + reflexivity.
    + intros. by apply addPhone_entry.
Qed.

Lemma callSdk_state {A} (api : Api) (req : Request) (decode : Body -> option A)
    (st : State.t) :
  (callSdk api req decode st).2 =
    State.mk (State.trace st ++ [(req, api (State.trace st) req)])%list
      (State.now st) (State.rd st).
Proof.
  destruct (callSdk_run api req decode st) as [(_ & r & _ & ->)|[_ [[e ->]| ->]]];
    [destruct (decode _)|..]; reflexivity.
Qed.

(** X6. [getAllOAuthClients] makes exactly one call, the listing of the
    clients, whatever the server answers and however long the listing is;
    it asks for no further page, and leaves the clock and the resource data
    as they are. *)
Theorem getAllOAuthClients_single_call (api : Api) (st : State.t) :
  (getAllOAuthClients api st).2 =
    State.mk
      (State.trace st ++ [(ReqGetOauthClients, api (State.trace st) ReqGetOauthClients)])%list
      (State.now st) (State.rd st).
Proof.
  unfold getAllOAuthClients, GetOauthClients. unfold bind at 1.
  pose proof (callSdk_state api ReqGetOauthClients
                (fun b => match b with BOauthClientListing l => Some l | _ => None end)
                st) as Hst.
  destruct (callSdk _ _ _ st) as [[[[clients resp] [e|]]| |] st1]; simpl in Hst;
    subst st1; try reflexivity.
  rewrite bind_liftR. destruct clients as [[[|client entities]|]|]; try reflexivity.
  cbn [deref]. rewrite bind_liftR.
  destruct (addOAuthClients _ _); reflexivity.
Qed.

Lemma insertEntries_last {E} (entry : E -> option (string * string))
    (before after : list E) (e : E) (id n : string) (resources : ResourceIDMetaMap) :
  entry e = Some (id, n) ->
  Forall (fun e' => forall n', entry e' <> Some (id, n')) after ->
  foldl (fun m e => insertEntry (entry e) m) resources (before ++ e :: after) !! id =
    Some (ResourceMeta.mk n).
Proof.
  intros He Hafter. rewrite foldl_app. cbn [foldl]. rewrite He. cbn [insertEntry].
  generalize (foldl (fun m e0 => insertEntry (entry e0) m) resources before) as acc.
  intros acc.
  assert (Hacc : <[id := ResourceMeta.mk n]> acc !! id = Some (ResourceMeta.mk n))
    by apply lookup_insert_eq.
  revert Hacc. generalize (<[id := ResourceMeta.mk n]> acc) as m.
  induction Hafter as [|e' after He' _ IH]; intros m Hm; [exact Hm|].
  cbn [foldl]. apply IH.
  destruct (entry e') as [[id' n']|] eqn:Hentry; cbn [insertEntry]; [|exact Hm].
  rewrite lookup_insert_ne; [exact Hm|]. intros ->. by apply (He' n').
Qed.

Lemma lastListedWins_intro {E}
    (add : E -> ResourceIDMetaMap -> Res ResourceIDMetaMap)
    (entry : E -> option (string * string)) (wellFormed : E -> Prop)
    (ident name : E -> option string) (excluded : E -> Prop) :
  (forall e m, wellFormed e -> add e m = Val (insertEntry (entry e) m)) ->
  (forall e id n,
     entry e = Some (id, n) <-> ident e = Some id /\ name e = Some n /\ ~ excluded e) ->
  lastListedWins (collect add) wellFormed ident name excluded.
Proof.
  intros Hadd Hentry before e after id n Hwf Hid Hname Hex Hafter.
  eexists. split.
  - apply collect_entries with (entry := entry).
    eapply Forall_impl; [exact Hwf|]. intros x Hx m. by apply Hadd.
  - apply insertEntries_last.
    + by apply Hentry.
    + eapply Forall_impl; [exact Hafter|]. intros e' Hne n' He'.
      apply Hentry in He' as [? _]. done.
Qed.

(** X7. The accumulation loops of the four exporters overwrite: of the
    listed entities that share an ID, the one listed last (and not
    excluded) gives the name exported under that ID. *)
Theorem exporters_last_listed_wins :
  lastListedWins addIntegrationActions
    (fun a => is_Some (Action.Id a) /\ is_Some (Action.Name a))
    Action.Id Action.Name staticAction /\
  lastListedWins addOAuthClients
    (fun c => is_Some (Oauthclientlisting.Id c) /\ is_Some (Oauthclientlisting.Name c))
    Oauthclientlisting.Id Oauthclientlisting.Name disabledClient /\
  lastListedWins addCredentials
    (fun c => is_Some (Credentialinfo.Id c))
    Credentialinfo.Id Credentialinfo.Name (fun _ => False) /\
  lastListedWins addPhones
    (fun p => is_Some (Phone.Id p) /\ is_Some (Phone.Name p) /\ is_Some (Phone.State p))
    Phone.Id Phone.Name deletedPhone.
Proof.
  split; [|split; [|split]].
  - apply lastListedWins_intro with (entry := actionEntry).
    + intros. by apply addIntegrationAction_entry.
    + apply actionEntry_spec.
  - apply lastListedWins_intro with (entry := oauthClientEntry).
    + intros. by apply addOAuthClient_entry.
    + apply oauthClientEntry_spec.
  - apply lastListedWins_intro with (entry := credentialEntry).
    + intros. by apply addCredential_entry.
    + apply credentialEntry_spec.
  - apply lastListedWins_intro with (entry := phoneEntry).
    + intros. by apply addPhone_entry.
    + apply phoneEntry_spec.
Qed.

(** X8. [getAllIdpGeneric] makes one call. When the identity provider is
    served it exports the single resource [0], named [generic]; when the
    server answers not-found it exports nothing and succeeds; it never
    exports anything else, and every failure it returns stems from a reply
    that is not a 404. *)
Theorem getAllIdpGeneric_exports_at_most_one (api : Api) (st : State.t) :
  let reply := api (State.trace st) ReqGetIdentityprovidersGeneric in
  let run := getAllIdpGeneric api st in
  run.2 = State.mk (State.trace st ++ [(ReqGetIdentityprovidersGeneric, reply)])%list
            (State.now st) (State.rd st) /\
  (forall generic, listed reply (BGenericsaml generic) ->
     run.1 = Val (Some {[ "0" := ResourceMeta.mk "generic" ]}, None)) /\
  (notFound reply -> run.1 = Val (Some ∅, None)) /\
  (forall resources diagErr, run.1 = Val (Some resources, diagErr) ->
     diagErr = None /\
     (resources = ∅ \/ resources = {[ "0" := ResourceMeta.mk "generic" ]})) /\
  (forall diagErr, run.1 = Val (None, diagErr) ->
     exists e, diagErr = Some (DiagError ("Failed to get IDP Generic: " +:+ e)) /\
               isStatus404 (Reply.response reply) = false).
Proof.
  intros reply run. subst run reply.
  unfold getAllIdpGeneric, GetIdentityprovidersGeneric.
  set (decode := fun b => match b with BGenericsaml g => Some g | _ => None end).
  split; [|split; [|split; [|split]]].
  - unfold bind at 1.
    pose proof (callSdk_state api ReqGetIdentityprovidersGeneric decode st) as Hst.
    destruct (callSdk _ _ _ st) as [[[[g resp] [e|]]| |] st1]; simpl in Hst;
      subst st1; try reflexivity.
    destruct (isStatus404 resp); reflexivity.
  - intros generic Hlisted. unfold bind at 1.
    destruct (callSdk_listed api ReqGetIdentityprovidersGeneric decode st _ generic
                Hlisted eq_refl) as [r ->]. reflexivity.
  - intros Hnot. unfold bind at 1.
    destruct (callSdk_notFound api ReqGetIdentityprovidersGeneric decode st Hnot)
      as [e ->]. cbn beta iota. destruct Hnot as [-> _]. reflexivity.
  - intros resources diagErr. unfold bind at 1.
    destruct (callSdk _ _ _ st) as [[[[g resp] [e|]]| |] st1]; cbn beta iota;
      try discriminate.
    + destruct (isStatus404 resp); unfold ret; simpl; intros [= <- <-]; auto.
    + unfold ret; simpl. intros [= <- <-]. auto.
  - intros diagErr. unfold bind at 1.
    destruct (callSdk_run api ReqGetIdentityprovidersGeneric decode st)
      as [(_ & r & Hr & ->)|[_ [[e ->]| ->]]]; cbn beta iota; try discriminate.
    + destruct (decode _); cbn beta iota.
      * unfold ret; simpl. discriminate.
      * rewrite Hr. destruct (isStatus404 (Some r)) eqn:H404; unfold ret; simpl;
          [discriminate|]. intros [= <-]. eauto.
    + destruct (isStatus404 (Reply.response _)) eqn:H404;
        unfold ret; simpl; [discriminate|]. intros [= <-]. eauto.
Qed.

Lemma onlyCalls_silent {A} (P : Request -> Prop) (m : M A) :
  (forall st, (m st).2 = st) -> onlyCalls P m.
Proof.
  intros H st r st' Hrun. specialize (H st). rewrite Hrun in H. simpl in H. subst st'.
  split; [|auto]. exists []. rewrite app_nil_r. split; [reflexivity | constructor].
Qed.

Lemma onlyCalls_bind {A B} (P : Request -> Prop) (m : M A) (k : A -> M B) :
  onlyCalls P m -> (forall a, onlyCalls P (k a)) -> onlyCalls P (bind m k).
Proof.
  intros Hm Hk st r st' Hrun. unfold bind in Hrun.
  destruct (m st) as [[a| |] st1] eqn:Hmst;
    [|injection Hrun as <- <-; eapply Hm; eauto..].
  destruct (Hm _ _ _ Hmst) as ((evs1 & Htr1 & Hall1) & Hrd1 & Hnow1).
  destruct (Hk a _ _ _ Hrun) as ((evs2 & Htr2 & Hall2) & Hrd2 & Hnow2).
  split; [|split; congruence].
  exists (evs1 ++ evs2)%list. split.
  - rewrite Htr2, Htr1, app_assoc. reflexivity.
  - apply Forall_app. auto.
Qed.

Lemma onlyCalls_callSdk {A} (P : Request -> Prop) (api : Api) (req : Request)
    (decode : Body -> option A) :
  P req -> onlyCalls P (callSdk api req decode).
Proof.
  intros HP st r st' Hrun. pose proof (callSdk_state api req decode st) as Hst.
  rewrite Hrun in Hst. simpl in Hst. subst st'. split; [|auto].
  eexists. split; [reflexivity|]. constructor; [exact HP | constructor].
Qed.

Lemma onlyCalls_paginate {E} (P : Request -> Prop) (request : Z -> Request)
    (decode : Body -> option (option (list E)))
    (add : E -> ResourceIDMetaMap -> Res ResourceIDMetaMap) (failure : string)
    (api : Api) :
  (forall n, P (request n)) ->
  forall fuel pageNum resources,
    onlyCalls P (paginate request decode add failure fuel api pageNum resources).
Proof.
  intros HP. induction fuel as [|fuel IH]; intros pageNum resources.
  - by apply onlyCalls_silent.
  - cbn [paginate]. apply onlyCalls_bind; [by apply onlyCalls_callSdk|].
    intros [[listing resp] [e|]]; [by apply onlyCalls_silent|].
    apply onlyCalls_bind; [by apply onlyCalls_silent|].
    intros [[|x entities]|]; try by apply onlyCalls_silent.
    apply onlyCalls_bind; [by apply onlyCalls_silent|]. intros m. apply IH.
Qed.

(** X9. The five exporters call nothing but their own listing endpoint
    (the paginated ones always with page size 100), never change the
    resource data and take no time on the clock, whatever the server
    answers and however the run ends. *)
Theorem exporters_only_list (fuel : nat) (api : Api) :
  onlyCalls (fun req => exists n, req = ReqGetIntegrationsActions 100 n)
    (getAllIntegrationActions fuel api) /\
  onlyCalls (fun req => exists n, req = ReqGetIntegrationsCredentials n 100)
    (getAllCredentials fuel api) /\
  onlyCalls (fun req => exists n, req = ReqGetTelephonyProvidersEdgesPhones n 100)
    (getAllPhones fuel api) /\
  onlyCalls (fun req => req = ReqGetOauthClients) (getAllOAuthClients api) /\
  onlyCalls (fun req => req = ReqGetIdentityprovidersGeneric) (getAllIdpGeneric api).
Proof.
  split; [|split; [|split; [|split]]].
  - intros st r st' Hrun. unfold getAllIntegrationActions in Hrun.
    rewrite getAllIntegrationActions_from_paginate in Hrun.
    refine (onlyCalls_paginate (fun req => exists n, req = ReqGetIntegrationsActions 100 n)
              _ _ _ _ _ _ fuel 1 ∅ st r st' Hrun).
    eauto.
  - intros st r st' Hrun. unfold getAllCredentials in Hrun.
    rewrite getAllCredentials_from_paginate in Hrun.
    refine (onlyCalls_paginate (fun req => exists n, req = ReqGetIntegrationsCredentials n 100)
              _ _ _ _ _ _ fuel 1 ∅ st r st' Hrun).
    eauto.
  - intros st r st' Hrun. unfold getAllPhones in Hrun.
    rewrite getAllPhones_from_paginate in Hrun.
    refine (onlyCalls_paginate (fun req => exists n, req = ReqGetTelephonyProvidersEdgesPhones n 100)
              _ _ _ _ _ _ fuel 1 ∅ st r st' Hrun).
    eauto.
  - unfold getAllOAuthClients, GetOauthClients.
    apply onlyCalls_bind; [by apply onlyCalls_callSdk|].
    intros [[clients resp] [e|]]; [by apply onlyCalls_silent|].
    apply onlyCalls_bind; [by apply onlyCalls_silent|].
    intros [[|x entities]|]; try by apply onlyCalls_silent.
    apply onlyCalls_bind; [by apply onlyCalls_silent|]. intros m.
    by apply onlyCalls_silent.
  - unfold getAllIdpGeneric, GetIdentityprovidersGeneric.
    apply onlyCalls_bind; [by apply onlyCalls_callSdk|].
    intros [[generic resp] [e|]]; [|by apply onlyCalls_silent].
    destruct (isStatus404 resp); by apply onlyCalls_silent.
Qed.

(** ** Lookups, reads and the update call *)

Lemma findRoutingQueue_app (name : string) (l1 l2 : list Queue.t) :
  findRoutingQueue name (l1 ++ l2) =
    match findRoutingQueue name l1 with
    | Val None => findRoutingQueue name l2
    | r => r
    end.
Proof.
  induction l1 as [|queue l1 IH]; [reflexivity|]. cbn [app findRoutingQueue].
  destruct (Queue.Name queue) as [queueName|]; [|exact IH].
  destruct (decide (queueName = name)); [|exact IH].
  destruct (Queue.Id queue); reflexivity.
Qed.

Lemma findRoutingQueue_first (name : string) (before after : list Queue.t)
    (queue : Queue.t) (id : string) :
  Forall (fun q => Queue.Name q <> Some name) before ->
  Queue.Name queue = Some name ->
  Queue.Id queue = Some id ->
  findRoutingQueue name (before ++ queue :: after) = Val (Some id).
Proof.
  intros Hbefore Hname Hid. rewrite findRoutingQueue_app.
  rewrite (findRoutingQueue_none _ _ Hbefore). cbn [findRoutingQueue].
  rewrite Hname, Hid. by destruct (decide (name = name)).
Qed.

Lemma dataSourceRoutingQueueRead_try_run (api : Api) (name : string) :
  forall pages final,
    Forall (fun page => page <> []) pages ->
    final = None \/ final = Some [] ->
    forall fuel pageNum st,
      (forall history i page,
         pages !! i = Some page ->
         listed (api history (ReqGetRoutingQueues (pageNum + Z.of_nat i) 100 name))
           (BQueueListing (Some page))) ->
      (forall history,
         listed (api history
                   (ReqGetRoutingQueues (pageNum + Z.of_nat (length pages)) 100 name))
           (BQueueListing final)) ->
      (length pages < fuel)%nat ->
      exists evs,
        Forall (fun ev : Event =>
                  exists n, ev.1 = ReqGetRoutingQueues n 100 name) evs /\
        (length evs <= S (length pages))%nat /\
        let st' rd := State.mk (State.trace st ++ evs)%list (State.now st) rd in
        dataSourceRoutingQueueRead_try fuel api name pageNum st =
          match findRoutingQueue name (concat pages) with
          | Val (Some id) => (Val None, st' (ResourceData.SetId id (State.rd st)))
          | Val None =>
              (Val (RetryableError ("No routing queues found with name " +:+ name)),
               st' (State.rd st))
          | Panic => (Panic, st' (State.rd st))
          | OutOfFuel => (OutOfFuel, st' (State.rd st))
          end /\
        (findRoutingQueue name (concat pages) = Val None ->
         map fst evs =
           map (fun i => ReqGetRoutingQueues (pageNum + Z.of_nat i) 100 name)
               (seq 0 (S (length pages)))).
Proof.
  intros pages final Hne Hfinal.
  induction Hne as [|page pages Hpage _ IH];
    intros fuel pageNum st Hpages Hlast Hfuel;
    (destruct fuel as [|fuel]; [simpl in Hfuel; lia|]).
  - cbn [dataSourceRoutingQueueRead_try]. cbn zeta. unfold bind at 1, GetRoutingQueues.
    destruct (callSdk_listed api (ReqGetRoutingQueues pageNum 100 name)
                (fun b => match b with BQueueListing l => Some l | _ => None end) st
                (BQueueListing final) final) as [r ->]; [|reflexivity|].
    { specialize (Hlast (State.trace st)). simpl in Hlast.
      by rewrite Z.add_0_r in Hlast. }
    cbn beta iota. rewrite bind_liftR. cbn [deref].
    exists [(ReqGetRoutingQueues pageNum 100 name,
             api (State.trace st) (ReqGetRoutingQueues pageNum 100 name))].
    split; [|split; [|split]].
    + constructor; [|constructor]. simpl. eauto.
    + simpl. lia.
    + simpl. destruct Hfinal as [-> | ->]; reflexivity.
    + intros _. simpl. by rewrite Z.add_0_r.
  - cbn [dataSourceRoutingQueueRead_try]. cbn zeta. unfold bind at 1, GetRoutingQueues.
    destruct (callSdk_listed api (ReqGetRoutingQueues pageNum 100 name)
                (fun b => match b with BQueueListing l => Some l | _ => None end) st
                (BQueueListing (Some page)) (Some page)) as [r ->]; [|reflexivity|].
    { specialize (Hpages (State.trace st) 0%nat page eq_refl).
      by rewrite Z.add_0_r in Hpages. }
    cbn beta iota. rewrite bind_liftR. cbn [deref].
    destruct page as [|queue page]; [congruence|].
    rewrite bind_liftR. cbn [concat]. rewrite findRoutingQueue_app.
    set (st1 := State.mk _ _ _).
    destruct (findRoutingQueue name (queue :: page)) as [[id|]| |] eqn:Hfound.
    + exists [(ReqGetRoutingQueues pageNum 100 name,
               api (State.trace st) (ReqGetRoutingQueues pageNum 100 name))].
      split; [|split; [|split]].
      * constructor; [|constructor]. simpl. eauto.
      * simpl. lia.
      * reflexivity.
      * discriminate.
    + destruct (IH fuel (pageNum + 1) st1) as (evs & Hevs & Hlen & Hrun & Hall).
      * intros history i page' Hi.
        replace (pageNum + 1 + Z.of_nat i) with (pageNum + Z.of_nat (S i)) by lia.
        apply Hpages. exact Hi.
      * intros history.
        replace (pageNum + 1 + Z.of_nat (length pages))
          with (pageNum + Z.of_nat (length ((queue :: page) :: pages))) by (simpl; lia).
        apply Hlast.
      * simpl in Hfuel. lia.
      * exists ((ReqGetRoutingQueues pageNum 100 name,
                 api (State.trace st) (ReqGetRoutingQueues pageNum 100 name)) :: evs).
        split; [|split; [|split]].
        -- constructor; [simpl; eauto | exact Hevs].
        -- simpl. lia.
        -- cbn zeta in Hrun |- *. rewrite Hrun. subst st1. cbn [State.trace State.now State.rd].
           rewrite <- app_assoc. reflexivity.
        -- intros Hnone. cbn [map fst length]. rewrite (Hall Hnone).
           change (seq 0 (S (S (length pages))))
             with (0%nat :: seq 1 (S (length pages))).
           rewrite <- seq_shift. cbn [map]. rewrite Z.add_0_r. f_equal.
           rewrite map_map. apply map_ext. intros i. f_equal. lia.
    + exists [(ReqGetRoutingQueues pageNum 100 name,
               api (State.trace st) (ReqGetRoutingQueues pageNum 100 name))].
      split; [|split; [|split]].
      * constructor; [|constructor]. simpl. eauto.
      * simpl. lia.
      * reflexivity.
      * discriminate.
    + exists [(ReqGetRoutingQueues pageNum 100 name,
               api (State.trace st) (ReqGetRoutingQueues pageNum 100 name))].
      split; [|split; [|split]].
      * constructor; [|constructor]. simpl. eauto.
      * simpl. lia.
      * reflexivity.
      * discriminate.
Qed.

(** X10. One try of the routing-queue lookup searches page after page: on
    a collection served in pages it binds the ID of the first queue, in
    page order, whose name is exactly the requested one, wherever that
    queue is; when no queue has that name it has requested every page, the
    empty one included, reports the retryable error and leaves the resource
    data alone. *)
Theorem routing_queue_lookup_searches_pages (api : Api) (name : string)
    (pages : list (list Queue.t)) (final : option (list Queue.t))
    (st : State.t) (fuel : nat) :
  servesPages api (fun n => ReqGetRoutingQueues n 100 name) BQueueListing pages final ->
  (length pages < fuel)%nat ->
  let run := dataSourceRoutingQueueRead_try fuel api name 1 st in
  (forall before queue after id,
     concat pages = (before ++ queue :: after)%list ->
     Forall (fun q => Queue.Name q <> Some name) before ->
     Queue.Name queue = Some name ->
     Queue.Id queue = Some id ->
     run.1 = Val None /\
     State.rd run.2 = ResourceData.SetId id (State.rd st)) /\
  (Forall (fun q => Queue.Name q <> Some name) (concat pages) ->
     run.1 = Val (RetryableError ("No routing queues found with name " +:+ name)) /\
     State.rd run.2 = State.rd st /\
     exists evs,
       State.trace run.2 = (State.trace st ++ evs)%list /\
       map fst evs =
         pageRequests (fun n => ReqGetRoutingQueues n 100 name) (S (length pages))).
Proof.
  intros (Hne & Hfinal & Hpages & Hlast) Hfuel run. subst run.
  destruct (dataSourceRoutingQueueRead_try_run api name pages final Hne Hfinal
              fuel 1 st Hpages Hlast Hfuel) as (evs & _ & _ & Hrun & Hall).
  cbn zeta in Hrun. split.
  - intros before queue after id Hconcat Hbefore Hname Hid.
    rewrite Hrun, Hconcat, (findRoutingQueue_first _ _ _ _ _ Hbefore Hname Hid).
    auto.
  - intros Hnone. apply findRoutingQueue_none in Hnone.
    rewrite Hrun, Hnone. repeat split. exists evs. split; [reflexivity|].
    by apply Hall.
Qed.

(** X11. A try of [readCredential] on a credential that has a name and a
    type makes one call, succeeds, and stores the name and the name of the
    type; the ID and every other attribute stay as they were. The fields
    the server returns are never stored. *)
Theorem readCredential_try_stores_name_and_type (api : Api) (st : State.t)
    (credential : Credential.t) (varType : Credentialtype.t) (name typeName : string) :
  let id := ResourceData.Id (State.rd st) in
  let req := ReqGetIntegrationsCredential id in
  listed (api (State.trace st) req) (BCredential credential) ->
  Credential.Name credential = Some name ->
  Credential.VarType credential = Some varType ->
  Credentialtype.Name varType = Some typeName ->
  exists st',
    readCredential_try api st = (Val None, st') /\
    State.trace st' = (State.trace st ++ [(req, api (State.trace st) req)])%list /\
    ResourceData.Id (State.rd st') = id /\
    ResourceData.GetString (State.rd st') "name" = Val name /\
    ResourceData.GetString (State.rd st') "credential_type_name" = Val typeName /\
    forall key, key <> "name" -> key <> "credential_type_name" ->
      ResourceData.attrs (State.rd st') !! key = ResourceData.attrs (State.rd st) !! key.
Proof.
  intros id req Hlisted Hname Htype HtypeName.
  unfold readCredential_try. unfold bind at 1, getD. unfold bind at 1.
  unfold GetIntegrationsCredential. fold id. fold req.
  destruct (callSdk_listed api req
              (fun b => match b with BCredential c => Some c | _ => None end)
              st _ credential Hlisted eq_refl) as [r ->].
  cbn beta iota. rewrite bind_liftR. cbn [deref].
  rewrite bind_liftR, Hname. cbn [deref].
  unfold bind at 1, dSet at 1, modifyD at 1.
  rewrite bind_liftR, Htype. cbn [deref].
  rewrite bind_liftR, HtypeName. cbn [deref].
  eexists. split; [reflexivity|]. cbn.
  repeat split; try by (unfold ResourceData.GetString; cbn; simplify_map_eq).
  intros key Hk1 Hk2. by simplify_map_eq.
Qed.

(** X12. A credential without a name, which the exporter skips without
    harm, makes [readCredential] panic: the name is dereferenced
    unconditionally. *)
Theorem readCredential_nameless_panics (ctx : Context.t) (meta : providerMeta.t)
    (st : State.t) (credential : Credential.t) :
  let api := providerMeta.ClientConfig meta in
  let req := ReqGetIntegrationsCredential (ResourceData.Id (State.rd st)) in
  listed (api (State.trace st) req) (BCredential credential) ->
  Credential.Name credential = None ->
  (readCredential ctx meta st).1 = Panic /\
  forall resources,
    addCredential (Credentialinfo.mk (Credential.Id credential) None) resources =
      Val resources.
Proof.
  intros api req Hlisted Hname. split; [|reflexivity].
  assert (Htry : exists st1, readCredential_try api st = (Panic, st1)).
  { unfold readCredential_try. unfold bind at 1, getD. unfold bind at 1.
    unfold GetIntegrationsCredential. fold req.
    destruct (callSdk_listed api req
                (fun b => match b with BCredential c => Some c | _ => None end)
                st _ credential Hlisted eq_refl) as [r ->].
    cbn beta iota. rewrite bind_liftR. cbn [deref].
    rewrite bind_liftR, Hname. cbn [deref]. eauto. }
  destruct Htry as [st1 Htry].
  unfold readCredential, withRetriesForRead. fold api.
  unfold bind at 1, getD.
  destruct (ResourceData.IsNewResource (State.rd st)).
  - unfold withRetries. rewrite retryLoop_unfold. unfold bind at 1.
    by rewrite Htry.
  - unfold bind at 1. by rewrite Htry.
Qed.

Section ChangesDataBy.
Context (R : ResourceData.t -> ResourceData.t -> Prop).
Context (R_refl : forall d, R d d).
Context (R_trans : forall d1 d2 d3, R d1 d2 -> R d2 d3 -> R d1 d3).

Lemma changesDataBy_same {A} (m : M A) :
  (forall st, State.rd (m st).2 = State.rd st) -> changesDataBy R m.
Proof. intros H st r st' Hrun. specialize (H st). rewrite Hrun in H. simpl in H.
  rewrite H. apply R_refl. Qed.

Lemma changesDataBy_ret {A} (a : A) : changesDataBy R (ret a).
Proof. by apply changesDataBy_same. Qed.

Lemma changesDataBy_liftR {A} (r : Res A) : changesDataBy R (liftR r).
Proof. by apply changesDataBy_same. Qed.

Lemma changesDataBy_getD : changesDataBy R getD.
Proof. by apply changesDataBy_same. Qed.

Lemma changesDataBy_callSdk {A} api req (decode : Body -> option A) :
  changesDataBy R (callSdk api req decode).
Proof. apply changesDataBy_same. intros st. by rewrite callSdk_state. Qed.

Lemma changesDataBy_bind {A B} (m : M A) (k : A -> M B) :
  changesDataBy R m -> (forall a, changesDataBy R (k a)) -> changesDataBy R (bind m k).
Proof.
  intros Hm Hk st r st' Hrun. unfold bind in Hrun.
  destruct (m st) as [[a| |] st1] eqn:Hmst.
  - eapply R_trans; [eapply Hm; eauto | eapply Hk; eauto].
  - injection Hrun as <- <-. eapply Hm; eauto.
  - injection Hrun as <- <-. eapply Hm; eauto.
Qed.

Lemma changesDataBy_modifyD f :
  (forall d, R d (f d)) -> changesDataBy R (modifyD f).
Proof. intros Hf st r st' [= <- <-]. apply Hf. Qed.
End ChangesDataBy.

Lemma sameEntity_refl d : sameEntity d d.
Proof. by split. Qed.

Lemma sameEntity_trans d1 d2 d3 : sameEntity d1 d2 -> sameEntity d2 d3 -> sameEntity d1 d3.
Proof. intros [? ?] [? ?]. split; congruence. Qed.

Lemma sameEntityOrNone_refl d : sameEntityOrNone d d.
Proof. split; auto. Qed.

Lemma sameEntityOrNone_trans d1 d2 d3 :
  sameEntityOrNone d1 d2 -> sameEntityOrNone d2 d3 -> sameEntityOrNone d1 d3.
Proof.
  intros [[?|?] ?] [[?|?] ?]; split; try congruence; (left + right); congruence.
Qed.

Lemma sameEntity_Set key v d : sameEntity d (ResourceData.Set_ key v d).
Proof. destruct v; by split. Qed.

Lemma sameEntityOrNone_Set key v d : sameEntityOrNone d (ResourceData.Set_ key v d).
Proof. destruct v; split; auto. Qed.

Lemma sameEntityOrNone_clear d : sameEntityOrNone d (ResourceData.SetId EmptyString d).
Proof. split; auto. Qed.

Ltac data_step Hrefl Htrans HSet :=
  match goal with
  | |- changesDataBy _ (bind _ _) => apply (changesDataBy_bind _ Htrans); [|intros]
  | |- changesDataBy _ (ret _) => apply (changesDataBy_ret _ Hrefl)
  | |- changesDataBy _ (RetryableError _) => apply (changesDataBy_ret _ Hrefl)
  | |- changesDataBy _ (liftR _) => apply (changesDataBy_liftR _ Hrefl)
  | |- changesDataBy _ getD => apply (changesDataBy_getD _ Hrefl)
  | |- changesDataBy _ (callSdk _ _ _) => apply (changesDataBy_callSdk _ Hrefl)
  | |- changesDataBy _ (dSet _ _) => apply changesDataBy_modifyD; intros; apply HSet
  | |- changesDataBy _ (match ?x with _ => _ end) => destruct x
  end.

Lemma changesDataBy_template (R : ResourceData.t -> ResourceData.t -> Prop)
    (R_refl : forall d, R d d) actionId templateName api :
  changesDataBy R (sdkGetIntegrationActionTemplate actionId templateName api).
Proof.
  apply changesDataBy_same; [exact R_refl|]. intros st.
  unfold sdkGetIntegrationActionTemplate, bind. rewrite CallAPI_run.
  destruct (Reply.err _); [reflexivity|].
  destruct (Reply.response _) as [r|]; [|reflexivity]. simpl.
  destruct (APIResponse.Error r); reflexivity.
Qed.

Lemma readOAuthClient_try_sameEntity (api : Api) :
  changesDataBy sameEntity (readOAuthClient_try api).
Proof.
  unfold readOAuthClient_try, GetOauthClient.
  repeat data_step sameEntity_refl sameEntity_trans sameEntity_Set.
Qed.

Lemma readIdpGeneric_try_sameEntity (api : Api) :
  changesDataBy sameEntity (readIdpGeneric_try api).
Proof.
  unfold readIdpGeneric_try, GetIdentityprovidersGeneric.
  repeat data_step sameEntity_refl sameEntity_trans sameEntity_Set.
Qed.

Lemma readCredential_try_sameEntity (api : Api) :
  changesDataBy sameEntity (readCredential_try api).
Proof.
  unfold readCredential_try, GetIntegrationsCredential.
  repeat data_step sameEntity_refl sameEntity_trans sameEntity_Set.
Qed.

Lemma readIntegrationAction_try_sameEntityOrNone (api : Api) :
  changesDataBy sameEntityOrNone (readIntegrationAction_try api).
Proof.
  unfold readIntegrationAction_try.
  apply (changesDataBy_bind _ sameEntityOrNone_trans);
    [apply (changesDataBy_getD _ sameEntityOrNone_refl)|]. intros d.
  apply (changesDataBy_bind _ sameEntityOrNone_trans).
  { intros st r st' Hrun. rewrite sdkGetIntegrationAction_callSdk in Hrun.
    eapply (changesDataBy_callSdk _ sameEntityOrNone_refl); eauto. }
  intros [[action resp] [e|]].
  { destruct (isStatus404 resp); apply (changesDataBy_ret _ sameEntityOrNone_refl). }
  apply (changesDataBy_bind _ sameEntityOrNone_trans);
    [apply (changesDataBy_template _ sameEntityOrNone_refl)|].
  intros [[reqTemp resp2] [e|]].
  { destruct (isStatus404 resp2);
      [|apply (changesDataBy_ret _ sameEntityOrNone_refl)].
    apply (changesDataBy_bind _ sameEntityOrNone_trans);
      [|intros; apply (changesDataBy_ret _ sameEntityOrNone_refl)].
    apply changesDataBy_modifyD. apply sameEntityOrNone_clear. }
  apply (changesDataBy_bind _ sameEntityOrNone_trans);
    [apply (changesDataBy_template _ sameEntityOrNone_refl)|].
  intros [[successTemp resp3] [e|]].
  { destruct (isStatus404 resp3);
      [|apply (changesDataBy_ret _ sameEntityOrNone_refl)].
    apply (changesDataBy_bind _ sameEntityOrNone_trans);
      [|intros; apply (changesDataBy_ret _ sameEntityOrNone_refl)].
    apply changesDataBy_modifyD. apply sameEntityOrNone_clear. }
  repeat data_step sameEntityOrNone_refl sameEntityOrNone_trans sameEntityOrNone_Set.
Qed.

(** X13. What a try of a read does to the identity of the resource,
    whatever the server answers and however the try ends: the tries of
    [readOAuthClient], [readIdpGeneric] and [readCredential] keep the
    resource ID and the new-resource mark; the try of
    [readIntegrationAction] keeps the mark and either keeps the ID or
    resets it to the empty string. *)
Theorem read_closures_keep_the_entity (api : Api) :
  changesDataBy sameEntity (readOAuthClient_try api) /\
  changesDataBy sameEntity (readIdpGeneric_try api) /\
  changesDataBy sameEntity (readCredential_try api) /\
  changesDataBy sameEntityOrNone (readIntegrationAction_try api).
Proof.
  split; [apply readOAuthClient_try_sameEntity|].
  split; [apply readIdpGeneric_try_sameEntity|].
  split; [apply readCredential_try_sameEntity|].
  apply readIntegrationAction_try_sameEntityOrNone.
Qed.

Lemma sdkGetIntegrationActionTemplate_servesText (actionId templateName : string)
    (api : Api) (st : State.t) (text : string) :
  let req := ReqGetIntegrationActionTemplate actionId templateName in
  servesText (api (State.trace st) req) text ->
  exists r,
    sdkGetIntegrationActionTemplate actionId templateName api st =
      (Val (Some text, Some r, None),
       State.mk (State.trace st ++ [(req, api (State.trace st) req)])%list
         (State.now st) (State.rd st)).
Proof.
  intros req (Herr & r & Hr & He & Ht). exists r.
  unfold sdkGetIntegrationActionTemplate, bind. rewrite CallAPI_run. fold req.
  cbn beta iota. rewrite Herr, Hr. simpl. rewrite He, Ht. reflexivity.
Qed.

(** X14. The templates that [readIntegrationAction] stores are those of
    the template endpoints: when the action and its two templates are
    served, the stored request block carries the text of
    [requesttemplate.vm] and the stored response block the text of
    [successtemplate.vm], whatever templates the configuration inside the
    action itself carries. Three calls are made and the ID is kept. *)
Theorem readIntegrationAction_try_templates_from_endpoint (api : Api) (st : State.t)
    (action : IntegrationAction.t) (name requestTemplate successTemplate : string)
    (request : Requestconfig.t) (response : Responseconfig.t) :
  let id := ResourceData.Id (State.rd st) in
  let get := ReqGetIntegrationAction id in
  let getRequest := ReqGetIntegrationActionTemplate id "requesttemplate.vm" in
  let getSuccess := ReqGetIntegrationActionTemplate id "successtemplate.vm" in
  let history1 := (State.trace st ++ [(get, api (State.trace st) get)])%list in
  let history2 := (history1 ++ [(getRequest, api history1 getRequest)])%list in
  listed (api (State.trace st) get) (BAction action) ->
  IntegrationAction.Name action = Some name ->
  IntegrationAction.Config action = Some (Actionconfig.mk (Some request) (Some response)) ->
  servesText (api history1 getRequest) requestTemplate ->
  servesText (api history2 getSuccess) successTemplate ->
  exists st' configRequest configResponse,
    readIntegrationAction_try api st = (Val None, st') /\
    State.trace st' = (history2 ++ [(getSuccess, api history2 getSuccess)])%list /\
    ResourceData.Id (State.rd st') = id /\
    ResourceData.attrs (State.rd st') !! "config_request" =
      Some (VList [VMap configRequest]) /\
    configRequest !! "request_template" = Some (VString requestTemplate) /\
    ResourceData.attrs (State.rd st') !! "config_response" =
      Some (VList [VMap configResponse]) /\
    configResponse !! "success_template" = Some (VString successTemplate).
Proof.
  intros id get getRequest getSuccess history1 history2
    Hlisted Hname Hconfig Hrequest Hsuccess.
  unfold readIntegrationAction_try.
  unfold bind at 1, getD. unfold bind at 1.
  rewrite sdkGetIntegrationAction_callSdk. fold id. fold get.
  destruct (callSdk_listed api get
              (fun b => match b with BAction a => Some a | _ => None end)
              st _ _ Hlisted eq_refl) as [r ->].
  cbn beta iota. unfold bind at 1. fold history1.
  destruct (sdkGetIntegrationActionTemplate_servesText id "requesttemplate.vm" api
              (State.mk history1 (State.now st) (State.rd st)) _ Hrequest) as [r1 ->].
  cbn beta iota. cbn [State.trace State.now State.rd]. fold getRequest. fold history2.
  unfold bind at 1.
  destruct (sdkGetIntegrationActionTemplate_servesText id "successtemplate.vm" api
              (State.mk history2 (State.now st) (State.rd st)) _ Hsuccess) as [r2 ->].
  cbn beta iota. cbn [State.trace State.now State.rd]. fold getSuccess.
  rewrite bind_liftR. cbn [deref]. rewrite Hconfig, Hname.
  cbn [Actionconfig.Request Actionconfig.Response].
  unfold bind, dSet, modifyD, liftR, ret. cbn [deref].
  eexists. eexists. eexists. split; [reflexivity|].
  cbn [State.trace State.rd].
  split; [reflexivity|]. split.
  { destruct (IntegrationAction.Category action), (IntegrationAction.IntegrationId action),
      (IntegrationAction.Secure action), (IntegrationAction.Contract action) as [[[[?|]|] [[?|]|]]|];
      reflexivity. }
  unfold flattenActionConfigRequest, flattenActionConfigResponse.
  cbn [Requestconfig.RequestTemplate Responseconfig.SuccessTemplate ResourceData.Set_
       ResourceData.attrs fmap option_fmap option_map].
  split; [by simplify_map_eq|]. split.
  { destruct (Requestconfig.Headers _); by simplify_map_eq. }
  split; [by simplify_map_eq|]. by simplify_map_eq.
Qed.

(** X15. One call of the update of an integration action: the PATCH
    carries the version that the GET made just before returned, with the
    configured name, category and configuration; when the GET does not
    yield an action no PATCH is made; the resource data is never
    changed. *)
Theorem updateIntegrationAction_call_sends_read_version (meta : providerMeta.t)
    (name category : string) (st : State.t) :
  let api := providerMeta.ClientConfig meta in
  let id := ResourceData.Id (State.rd st) in
  let get := ReqGetIntegrationAction id in
  let history := (State.trace st ++ [(get, api (State.trace st) get)])%list in
  let run := updateIntegrationAction_call meta name category st in
  (forall action config,
     listed (api (State.trace st) get) (BAction action) ->
     buildSdkActionConfig (State.rd st) = Val config ->
     let patch :=
       ReqPatchIntegrationsAction id
         (Updateactioninput.mk (Some category) (Some name) config
            (IntegrationAction.Version action)) in
     State.trace run.2 = (history ++ [(patch, api history patch)])%list) /\
  ((forall action, ~ listed (api (State.trace st) get) (BAction action)) ->
     State.trace run.2 = history) /\
  State.rd run.2 = State.rd st.
Proof.
  intros api id get history run. subst run.
  set (decode := fun b => match b with BAction a => Some a | _ => None end).
  assert (Hcall : updateIntegrationAction_call meta name category st =
    bind (callSdk api get decode)
      (fun '(action, resp, getErr) =>
         match getErr with
         | Some e =>
             ret (resp, Some (DiagError
                                ("Failed to read integration action " +:+ id +:+ ": " +:+ e)))
         | None =>
             action <- liftR (deref action);
             config <- liftR (buildSdkActionConfig (State.rd st));
             '(_, _, err) <-
               PatchIntegrationsAction api id
                 (Updateactioninput.mk (Some category) (Some name) config
                    (IntegrationAction.Version action));
             match err with
             | Some e =>
                 ret (resp, Some (DiagError
                                    ("Failed to update integration action " +:+ name
                                       +:+ ": " +:+ e)))
             | None => ret (resp, None)
             end
         end) st).
  { unfold updateIntegrationAction_call. unfold bind at 1, getD. fold api. fold id.
    unfold bind at 1. rewrite sdkGetIntegrationAction_callSdk. fold get. fold decode.
    reflexivity. }
  rewrite Hcall. clear Hcall.
  split; [|split].
  - intros action config Hlisted Hconfig.
    set (patch := ReqPatchIntegrationsAction id _). unfold bind at 1.
    destruct (callSdk_listed api get decode st _ _ Hlisted eq_refl) as [r ->].
    cbn beta iota. rewrite bind_liftR. cbn [deref].
    rewrite bind_liftR, Hconfig. unfold bind at 1, PatchIntegrationsAction.
    fold history. fold decode. fold patch.
    pose proof (callSdk_state api patch decode
                  (State.mk history (State.now st) (State.rd st))) as Hst.
    destruct (callSdk api patch decode _) as [[[[p resp] [e|]]| |] st1];
      simpl in Hst; subst st1; reflexivity.
  - intros Hnot. unfold bind at 1.
    destruct (callSdk_run api get decode st)
      as [(Hacc & r & Hr & ->)|[_ [[e ->]| ->]]]; try reflexivity.
    destruct (decode (APIResponse.Payload r)) as [action|] eqn:Hdec; [|reflexivity].
    exfalso. apply (Hnot action). destruct Hacc as (Herr & r' & Hr' & He).
    split; [exact Herr|]. exists r. rewrite Hr in Hr'. injection Hr' as <-.
    repeat split; auto. unfold decode in Hdec.
    destruct (APIResponse.Payload r); congruence.
  - unfold bind at 1.
    pose proof (callSdk_state api get decode st) as Hst.
    destruct (callSdk api get decode st) as [[[[action resp] [e|]]| |] st1];
      simpl in Hst; subst st1; try reflexivity.
    cbn beta iota. rewrite bind_liftR.
    destruct action as [action|]; [|reflexivity]. cbn [deref].
    rewrite bind_liftR.
    destruct (buildSdkActionConfig _) as [config| |]; try reflexivity.
    unfold bind at 1, PatchIntegrationsAction.
    match goal with |- context [callSdk api ?rq ?dc ?s] =>
      pose proof (callSdk_state api rq dc s) as Hst;
      destruct (callSdk api rq dc s) as [[[[p resp2] [e|]]| |] st1]
    end; simpl in Hst; subst st1; reflexivity.
Qed.

(** ** The generic identity provider: update, create, read *)

Lemma retryLoop_callsOnly (req : Request) (interval : Z)
    (method : M (option RetryError.t)) :
  0 <= interval ->
  callsOnly req method ->
  forall retries, callsOnly req (retryLoop interval retries method).
Proof.
  intros Hint Hm. induction retries as [|retries IH]; intros st r st' Hrun;
    rewrite retryLoop_unfold in Hrun; unfold bind at 1 in Hrun;
    destruct (method st) as [[[[e [|]]|]| |] st1] eqn:Hmst;
    cbn beta iota in Hrun;
    try (injection Hrun as <- <-; eapply Hm; exact Hmst).
  unfold bind, Sleep in Hrun.
  destruct (Hm _ _ _ Hmst) as (Hnow & ev & evs & Htr & Hall).
  apply IH in Hrun as (Hnow' & ev' & evs' & Htr' & Hall').
  cbn [State.now State.trace] in *. split; [lia|].
  exists ev, (evs ++ ev' :: evs')%list. split.
  - rewrite Htr', Htr. rewrite <- !app_assoc. reflexivity.
  - rewrite app_comm_cons. apply Forall_app. split; assumption.
Qed.

Lemma withRetriesForRead_callsOnly (req : Request) (ctx : Context.t) (timeout : Z)
    (method : M (option RetryError.t)) :
  callsOnly req method ->
  callsOnly req (withRetriesForRead ctx timeout method).
Proof.
  intros Hm st r st' Hrun. unfold withRetriesForRead in Hrun.
  unfold bind at 1, getD in Hrun.
  destruct (ResourceData.IsNewResource (State.rd st)).
  - unfold withRetries in Hrun. eapply retryLoop_callsOnly; eauto. lia.
  - unfold bind at 1 in Hrun.
    destruct (method st) as [[[[e [|]]|]| |] st1] eqn:Hmst;
      cbn beta iota in Hrun.
    + unfold bind, modifyD, ret in Hrun. injection Hrun as <- <-.
      cbn [State.now State.trace]. eapply Hm; eauto.
    + injection Hrun as <- <-; eapply Hm; eauto.
    + injection Hrun as <- <-; eapply Hm; eauto.
    + injection Hrun as <- <-; eapply Hm; eauto.
    + injection Hrun as <- <-; eapply Hm; eauto.
Qed.

Lemma readIdpGeneric_try_callsOnly (api : Api) :
  callsOnly ReqGetIdentityprovidersGeneric (readIdpGeneric_try api).
Proof.
  intros st r st' Hrun.
  assert (State.now st' = State.now st /\
          State.trace st' =
            (State.trace st ++ [(ReqGetIdentityprovidersGeneric,
                                 api (State.trace st) ReqGetIdentityprovidersGeneric)])%list)
    as [Hnow Htr].
  { revert Hrun. unfold readIdpGeneric_try, GetIdentityprovidersGeneric.
    unfold bind at 1.
    match goal with |- context [callSdk api ?rq ?dc st] =>
      pose proof (callSdk_state api rq dc st) as Hst;
      destruct (callSdk api rq dc st) as [[[[generic resp] [e|]]| |] st1]
    end; simpl in Hst; subst st1; cbn beta iota.
    - destruct (isStatus404 resp); intros [= <- <-]; auto.
    - rewrite bind_liftR. destruct generic as [generic|]; cbn [deref];
        [|intros [= <- <-]; auto].
      unfold bind, dSet, modifyD, ret. intros [= <- <-]. auto.
    - intros [= <- <-]; auto.
    - intros [= <- <-]; auto. }
  split; [lia|]. eexists. exists []. split; [exact Htr|].
  constructor; [reflexivity | constructor].
Qed.

(** X16. [updateIdpGeneric] puts first and reads afterwards: its calls
    are the PUT of the request body followed by GETs of the identity
    provider only. A PUT that fails is reported with the message of the
    update, with no read, no wait and the resource data untouched; after a
    PUT that is accepted at least twenty seconds pass and at least one GET
    is made. The retry helper of the read is the one modelled above. *)
Theorem updateIdpGeneric_puts_then_waits (ctx : Context.t) (meta : providerMeta.t)
    (st : State.t) (update : Genericsaml.t) :
  let api := providerMeta.ClientConfig meta in
  let put := ReqPutIdentityprovidersGeneric update in
  let reply := api (State.trace st) put in
  let run := updateIdpGeneric ctx meta st in
  updateIdpGeneric_body (State.rd st) = Val update ->
  (exists reads,
     State.trace run.2 = (State.trace st ++ (put, reply) :: reads)%list /\
     Forall (fun ev : Event => ev.1 = ReqGetIdentityprovidersGeneric) reads) /\
  (forall e, failsWith reply e ->
     run = (Val (Some (DiagError ("Failed to update IDP Generic: " +:+ e))),
            State.mk (State.trace st ++ [(put, reply)])%list
              (State.now st) (State.rd st))) /\
  (forall generic, listed reply (BGenericsaml generic) ->
     State.now st + 20 * Second <= State.now run.2 /\
     exists read reads,
       State.trace run.2 = (State.trace st ++ (put, reply) :: read :: reads)%list).
Proof.
  intros api put reply run Hbody. subst run.
  set (decode := fun b => match b with BGenericsaml g => Some g | _ => None end).
  set (st1 := State.mk (State.trace st ++ [(put, reply)])%list
                (State.now st) (State.rd st)).
  assert (Hupdate : updateIdpGeneric ctx meta st =
    match callSdk api put decode st with
    | (Val (_, _, Some e), s) =>
        (Val (Some (DiagError ("Failed to update IDP Generic: " +:+ e))), s)
    | (Val (_, _, None), s) =>
        readIdpGeneric ctx meta
          (State.mk (State.trace s) (State.now s + 20 * Second) (State.rd s))
    | (Panic, s) => (Panic, s)
    | (OutOfFuel, s) => (OutOfFuel, s)
    end).
  { unfold updateIdpGeneric. unfold bind at 1, getD. rewrite bind_liftR, Hbody.
    unfold bind at 1, PutIdentityprovidersGeneric. fold api. fold put. fold decode.
    destruct (callSdk api put decode st) as [[[[g resp] [e|]]| |] s]; reflexivity. }
  rewrite Hupdate. clear Hupdate.
  pose proof (withRetriesForRead_callsOnly ReqGetIdentityprovidersGeneric ctx
                (30 * Second) (readIdpGeneric_try api)
                (readIdpGeneric_try_callsOnly api)) as Hread.
  split; [|split].
  - pose proof (callSdk_state api put decode st) as Hst. fold reply in Hst.
    destruct (callSdk api put decode st) as [[[[g resp] [e|]]| |] s];
      simpl in Hst; subst s; try (exists []; split; [reflexivity | constructor]).
    cbn [State.trace State.now State.rd].
    destruct (readIdpGeneric ctx meta _) as [r st'] eqn:Hrun.
    apply Hread in Hrun as (_ & ev & evs & Htr & Hall).
    exists (ev :: evs). split; [|exact Hall].
    cbn [snd State.trace] in *. rewrite Htr, <- app_assoc. reflexivity.
  - intros e Hfails. rewrite (callSdk_failsWith api put decode st e Hfails).
    reflexivity.
  - intros generic Hlisted.
    destruct (callSdk_listed api put decode st _ generic Hlisted eq_refl) as [r ->].
    cbn [State.trace State.now State.rd].
    destruct (readIdpGeneric ctx meta _) as [res st'] eqn:Hrun.
    apply Hread in Hrun as (Hnow & ev & evs & Htr & _).
    cbn [snd State.trace State.now] in *. split; [exact Hnow|].
    exists ev, evs. fold put. fold reply. rewrite Htr, <- app_assoc. reflexivity.
Qed.

Lemma retryLoop_sameEntity (interval : Z) (method : M (option RetryError.t)) :
  changesDataBy sameEntity method ->
  forall retries, changesDataBy sameEntity (retryLoop interval retries method).
Proof.
  intros Hm. induction retries as [|retries IH]; intros st r st' Hrun;
    rewrite retryLoop_unfold in Hrun; unfold bind at 1 in Hrun;
    destruct (method st) as [[[[e [|]]|]| |] st1] eqn:Hmst;
    cbn beta iota in Hrun;
    try (injection Hrun as <- <-; eapply Hm; exact Hmst).
  unfold bind, Sleep in Hrun. apply IH in Hrun. cbn [State.rd] in Hrun.
  eapply sameEntity_trans; [eapply Hm; exact Hmst | exact Hrun].
Qed.

Lemma withRetriesForRead_entity (ctx : Context.t) (timeout : Z)
    (method : M (option RetryError.t)) :
  changesDataBy sameEntity method ->
  forall st r st',
    withRetriesForRead ctx timeout method st = (r, st') ->
    sameEntityOrNone (State.rd st) (State.rd st') /\
    (ResourceData.IsNewResource (State.rd st) = true \/ r <> Val None ->
     sameEntity (State.rd st) (State.rd st')).
Proof.
  intros Hm st r st' Hrun. unfold withRetriesForRead in Hrun.
  unfold bind at 1, getD in Hrun.
  assert (Hweak : forall d d', sameEntity d d' -> sameEntityOrNone d d').
  { intros d d' [? ?]. split; auto. }
  destruct (ResourceData.IsNewResource (State.rd st)) eqn:Hnew.
  - unfold withRetries in Hrun. apply retryLoop_sameEntity in Hrun; auto.
  - unfold bind at 1 in Hrun.
    destruct (method st) as [[[[e [|]]|]| |] st1] eqn:Hmst;
      cbn beta iota in Hrun.
    + unfold bind, modifyD, ret in Hrun. injection Hrun as <- <-.
      cbn [State.rd]. apply Hm in Hmst as [Hid Hmark]. split.
      * split; [by right | exact Hmark].
      * intros [?|?]; congruence.
    + injection Hrun as <- <-. apply Hm in Hmst. auto.
    + injection Hrun as <- <-. apply Hm in Hmst. auto.
    + injection Hrun as <- <-. apply Hm in Hmst. auto.
    + injection Hrun as <- <-. apply Hm in Hmst. auto.
Qed.

(** X17. [createIdpGeneric] sets the ID [generic] before anything else,
    whatever ID the resource data carried: the create ends with the ID
    [generic] or with the empty ID, and with [generic] whenever it runs
    under the new-resource mark or does not end in success. The retry
    helper of the read is the one modelled above. *)
Theorem createIdpGeneric_pins_the_id (ctx : Context.t) (meta : providerMeta.t)
    (st : State.t) :
  let run := createIdpGeneric ctx meta st in
  let id := ResourceData.Id (State.rd run.2) in
  (id = "generic" \/ id = EmptyString) /\
  (ResourceData.IsNewResource (State.rd st) = true \/ run.1 <> Val None ->
   id = "generic").
Proof.
  intros run id. subst id run.
  set (st0 := State.mk (State.trace st) (State.now st)
                (ResourceData.SetId "generic" (State.rd st))).
  assert (Hcreate : createIdpGeneric ctx meta st = updateIdpGeneric ctx meta st0)
    by reflexivity.
  rewrite Hcreate. clear Hcreate.
  assert (Hkey : forall r st',
    updateIdpGeneric ctx meta st0 = (r, st') ->
    sameEntityOrNone (State.rd st0) (State.rd st') /\
    (ResourceData.IsNewResource (State.rd st0) = true \/ r <> Val None ->
     sameEntity (State.rd st0) (State.rd st'))).
  { intros r st'. unfold updateIdpGeneric. unfold bind at 1, getD.
    rewrite bind_liftR.
    destruct (updateIdpGeneric_body (State.rd st0)) as [update| |].
    - unfold bind at 1, PutIdentityprovidersGeneric.
      match goal with |- context [callSdk ?api ?rq ?dc st0] =>
        pose proof (callSdk_state api rq dc st0) as Hst;
        destruct (callSdk api rq dc st0) as [[[[g resp] [e|]]| |] s]
      end; simpl in Hst; subst s; cbn beta iota.
      + intros [= <- <-]. cbn [State.rd]. split;
          [apply sameEntityOrNone_refl | intros _; apply sameEntity_refl].
      + unfold bind at 1, Sleep. intros Hrun. unfold readIdpGeneric in Hrun.
        apply withRetriesForRead_entity in Hrun; [exact Hrun|].
        apply readIdpGeneric_try_sameEntity.
      + intros [= <- <-]. cbn [State.rd]. split;
          [apply sameEntityOrNone_refl | intros _; apply sameEntity_refl].
      + intros [= <- <-]. cbn [State.rd]. split;
          [apply sameEntityOrNone_refl | intros _; apply sameEntity_refl].
    - intros [= <- <-]. split;
        [apply sameEntityOrNone_refl | intros _; apply sameEntity_refl].
    - intros [= <- <-]. split;
        [apply sameEntityOrNone_refl | intros _; apply sameEntity_refl]. }
  destruct (updateIdpGeneric ctx meta st0) as [r st'] eqn:Hrun.
  destruct (Hkey r st' eq_refl) as [[Hid _] Hstrong]. cbn [fst snd].
  split; [exact Hid|]. intros H. by apply Hstrong in H as [-> _].
Qed.

Lemma updateIdpGeneric_body_scalars (d : ResourceData.t) (update : Genericsaml.t) :
  updateIdpGeneric_body d = Val update ->
  ResourceData.GetString d "name" = deref (Genericsaml.Name update) /\
  ResourceData.GetString d "issuer_uri" = deref (Genericsaml.IssuerURI update) /\
  ResourceData.GetString d "target_uri" = deref (Genericsaml.SsoTargetURI update) /\
  ResourceData.GetString d "relying_party_identifier" =
    deref (Genericsaml.RelyingPartyIdentifier update) /\
  ResourceData.GetBool d "disabled" = deref (Genericsaml.Disabled update) /\
  ResourceData.GetString d "logo_image_data" = deref (Genericsaml.LogoImageData update) /\
  ResourceData.GetBool d "endpoint_compression" =
    deref (Genericsaml.EndpointCompression update) /\
  ResourceData.GetString d "name_identifier_format" =
    deref (Genericsaml.NameIdentifierFormat update) /\
  is_Some (Genericsaml.Name update) /\
  is_Some (Genericsaml.IssuerURI update) /\
  is_Some (Genericsaml.SsoTargetURI update) /\
  is_Some (Genericsaml.RelyingPartyIdentifier update) /\
  is_Some (Genericsaml.Disabled update) /\
  is_Some (Genericsaml.LogoImageData update) /\
  is_Some (Genericsaml.EndpointCompression update) /\
  is_Some (Genericsaml.NameIdentifierFormat update).
Proof.
  unfold updateIdpGeneric_body. intros H. res_inv H.
  destruct a7 as [[|cert [|cert' certs]]|]; injection H as <-; simpl;
    repeat split; eauto.
Qed.

(** X18. Update followed by read is stable: against a server that accepts
    the PUT and then serves what was put, [updateIdpGeneric] succeeds after
    one PUT, twenty seconds and one GET, and each of the eight scalar
    attributes reads afterwards as it read before the update. The retry
    helper of the read is the one modelled above. *)
Theorem updateIdpGeneric_then_read_keeps_scalars (ctx : Context.t)
    (meta : providerMeta.t) (st : State.t) (update generic : Genericsaml.t) :
  let api := providerMeta.ClientConfig meta in
  let put := ReqPutIdentityprovidersGeneric update in
  let get := ReqGetIdentityprovidersGeneric in
  let history := (State.trace st ++ [(put, api (State.trace st) put)])%list in
  updateIdpGeneric_body (State.rd st) = Val update ->
  listed (api (State.trace st) put) (BGenericsaml generic) ->
  listed (api history get) (BGenericsaml update) ->
  exists st',
    updateIdpGeneric ctx meta st = (Val None, st') /\
    State.trace st' = (history ++ [(get, api history get)])%list /\
    State.now st' = State.now st + 20 * Second /\
    ResourceData.Id (State.rd st') = ResourceData.Id (State.rd st) /\
    (forall key,
       key ∈ ["name"; "issuer_uri"; "target_uri"; "relying_party_identifier";
              "logo_image_data"; "name_identifier_format"] ->
       ResourceData.GetString (State.rd st') key =
         ResourceData.GetString (State.rd st) key) /\
    (forall key,
       key ∈ ["disabled"; "endpoint_compression"] ->
       ResourceData.GetBool (State.rd st') key = ResourceData.GetBool (State.rd st) key).
Proof.
  intros api put get history Hbody Hput Hget.
  set (decode := fun b => match b with BGenericsaml g => Some g | _ => None end).
  set (st2 := State.mk history (State.now st + 20 * Second) (State.rd st)).
  destruct (updateIdpGeneric_body_scalars _ _ Hbody)
    as (Hn & Hi & Ht & Hr & Hd & Hl & Hc & Hf &
        [name En] & [issuer Ei] & [target Et] & [rp Er] & [disabled Ed] &
        [logo El] & [compression Ec] & [format Ef]).
  assert (Htry : exists rd',
    readIdpGeneric_try api st2 =
      (Val None, State.mk (history ++ [(get, api history get)])%list
                   (State.now st + 20 * Second) rd') /\
    ResourceData.Id rd' = ResourceData.Id (State.rd st) /\
    ResourceData.attrs rd' !! "name" = Some (VString name) /\
    ResourceData.attrs rd' !! "issuer_uri" = Some (VString issuer) /\
    ResourceData.attrs rd' !! "target_uri" = Some (VString target) /\
    ResourceData.attrs rd' !! "relying_party_identifier" = Some (VString rp) /\
    ResourceData.attrs rd' !! "disabled" = Some (VBool disabled) /\
    ResourceData.attrs rd' !! "logo_image_data" = Some (VString logo) /\
    ResourceData.attrs rd' !! "endpoint_compression" = Some (VBool compression) /\
    ResourceData.attrs rd' !! "name_identifier_format" = Some (VString format)).
  { unfold readIdpGeneric_try, GetIdentityprovidersGeneric. unfold bind at 1.
    fold get. fold decode.
    destruct (callSdk_listed api get decode st2 _ update Hget eq_refl) as [r ->].
    cbn beta iota. rewrite bind_liftR. cbn [deref].
    rewrite En, Ei, Et, Er, Ed, El, Ec, Ef.
    unfold bind, dSet, modifyD, ret. cbn [fmap option_fmap option_map].
    eexists. split; [reflexivity|].
    cbn [State.rd ResourceData.Set_ ResourceData.Id ResourceData.attrs].
    split; [by destruct (readIdpGeneric_certificates update)|].
    destruct (readIdpGeneric_certificates update);
      cbn [ResourceData.Set_ ResourceData.attrs ResourceData.Id
           ResourceData.IsNewResource];
      repeat split; by simplify_map_eq. }
  destruct Htry as (rd' & Htry & Hid & An & Ai & At & Ar & Ad & Al & Ac & Af).
  exists (State.mk (history ++ [(get, api history get)])%list
            (State.now st + 20 * Second) rd').
  split; [|split; [reflexivity|]; split; [reflexivity|]; split; [exact Hid|]; split].
  - unfold updateIdpGeneric. unfold bind at 1, getD. rewrite bind_liftR, Hbody.
    unfold bind at 1, PutIdentityprovidersGeneric. fold api. fold put. fold decode.
    destruct (callSdk_listed api put decode st _ generic Hput eq_refl) as [r ->].
    cbn beta iota. unfold bind at 1, Sleep.
    cbn [State.trace State.now State.rd]. fold history. fold st2.
    unfold readIdpGeneric, withRetriesForRead. fold api.
    unfold bind at 1, getD.
    destruct (ResourceData.IsNewResource (State.rd st2)).
    + unfold withRetries. rewrite retryLoop_unfold. unfold bind at 1.
      rewrite Htry. reflexivity.
    + unfold bind at 1. rewrite Htry. reflexivity.
  - intros key Hkey. cbn [State.rd]. unfold ResourceData.GetString at 1.
    repeat (apply elem_of_cons in Hkey as [->|Hkey]);
      [rewrite An, Hn, En | rewrite Ai, Hi, Ei | rewrite At, Ht, Et
      | rewrite Ar, Hr, Er | rewrite Al, Hl, El | rewrite Af, Hf, Ef
      | by apply elem_of_nil in Hkey]; reflexivity.
  - intros key Hkey. cbn [State.rd]. unfold ResourceData.GetBool at 1.
    repeat (apply elem_of_cons in Hkey as [->|Hkey]);
      [rewrite Ad, Hd, Ed | rewrite Ac, Hc, Ec | by apply elem_of_nil in Hkey];
      reflexivity.
Qed.

(** ** Phone capabilities and lines *)

Lemma foldl_snoc_map {A B} (f : A -> B) (l : list A) (acc : list B) :
  foldl (fun acc x => (acc ++ [f x])%list) acc l = (acc ++ map f l)%list.
Proof.
  revert acc. induction l as [|x l IH]; intros acc; simpl.
  - by rewrite app_nil_r.
  - rewrite IH, <- app_assoc. reflexivity.
Qed.

Lemma map_Sprintv (Sprintv : Value -> string) :
  (forall s, Sprintv (VString s) = s) ->
  forall l, map Sprintv (VString <$> l) = l.
Proof.
  intros Hfmt. induction l as [|c l IH]; [reflexivity|].
  rewrite fmap_cons. cbn [map]. by rewrite Hfmt, IH.
Qed.

(** X19. Round trip of the [capabilities] block: a block that holds the
    nine attributes at their schema types comes back, key by key and with
    no other key, from flattening the SDK capabilities built from it. With
    the attribute not set, the capabilities built are empty but present,
    and they flatten to a list of one empty block. [Sprintv] is any
    formatter that renders a string as itself. *)
Theorem phone_capabilities_roundtrip (Sprintv : Value -> string) (d : ResourceData.t) :
  (forall s, Sprintv (VString s) = s) ->
  (forall (cap : gmap string Value) (others : list Value)
          (provisions registers dualRegisters allowReboot noRebalance
             noCloudProvisioning cdm : bool)
          (hardwareIdType : string) (mediaCodecs : list string),
     ResourceData.attrs d !! "capabilities" = Some (VList (VMap cap :: others)) ->
     cap !! "provisions" = Some (VBool provisions) ->
     cap !! "registers" = Some (VBool registers) ->
     cap !! "dual_registers" = Some (VBool dualRegisters) ->
     cap !! "hardware_id_type" = Some (VString hardwareIdType) ->
     cap !! "allow_reboot" = Some (VBool allowReboot) ->
     cap !! "no_rebalance" = Some (VBool noRebalance) ->
     cap !! "no_cloud_provisioning" = Some (VBool noCloudProvisioning) ->
     cap !! "media_codecs" = Some (VList (VString <$> mediaCodecs)) ->
     cap !! "cdm" = Some (VBool cdm) ->
     exists sdk out,
       buildSdkCapabilities Sprintv d = Val (Some sdk) /\
       flattenPhoneCapabilities (Some sdk) = Some [VMap out] /\
       (forall key, key ∈ capabilityKeys -> out !! key = cap !! key) /\
       (forall key, is_Some (out !! key) -> key ∈ capabilityKeys)) /\
  (ResourceData.attrs d !! "capabilities" = None ->
   exists sdk,
     buildSdkCapabilities Sprintv d = Val (Some sdk) /\
     flattenPhoneCapabilities (Some sdk) = Some [VMap ∅]).
Proof.
  intros Hfmt. split.
  - intros cap others provisions registers dualRegisters allowReboot noRebalance
      noCloudProvisioning cdm hardwareIdType mediaCodecs
      Hd Hp Hr Hdr Hh Ha Hnr Hnc Hm Hc.
    unfold buildSdkCapabilities, ResourceData.GetList. rewrite Hd. simpl.
    rewrite Hp, Hr, Hdr, Hh, Ha, Hnr, Hnc, Hm, Hc. simpl.
    assert ((if (0 <? String.length hardwareIdType)%nat then hardwareIdType
             else EmptyString) = hardwareIdType) as ->.
    { destruct hardwareIdType; reflexivity. }
    assert ((if (0 <? length (VString <$> mediaCodecs))%nat
             then foldl (fun acc codec => (acc ++ [Sprintv codec])%list) []
                    (VString <$> mediaCodecs)
             else []) = mediaCodecs) as ->.
    { rewrite foldl_snoc_map. cbn [app].
      rewrite (map_Sprintv _ Hfmt). by destruct mediaCodecs. }
    eexists. eexists. split; [reflexivity|].
    unfold flattenPhoneCapabilities. simpl. split; [reflexivity|]. split.
    + intros key Hkey. unfold capabilityKeys in Hkey.
      repeat (apply elem_of_cons in Hkey as [->|Hkey]);
        [..|by apply elem_of_nil in Hkey]; by simplify_map_eq.
    + intros key [v Hv]. unfold capabilityKeys.
      destruct (decide (key = "provisions")) as [->|?]; [set_solver|].
      destruct (decide (key = "registers")) as [->|?]; [set_solver|].
      destruct (decide (key = "dual_registers")) as [->|?]; [set_solver|].
      destruct (decide (key = "hardware_id_type")) as [->|?]; [set_solver|].
      destruct (decide (key = "allow_reboot")) as [->|?]; [set_solver|].
      destruct (decide (key = "no_rebalance")) as [->|?]; [set_solver|].
      destruct (decide (key = "no_cloud_provisioning")) as [->|?]; [set_solver|].
      destruct (decide (key = "media_codecs")) as [->|?]; [set_solver|].
      destruct (decide (key = "cdm")) as [->|?]; [set_solver|].
      by simplify_map_eq.
  - intros Hd. unfold buildSdkCapabilities, ResourceData.GetList. rewrite Hd.
    eexists. split; reflexivity.
Qed.

Lemma Itoa_inj (a b : nat) : Itoa a = Itoa b -> a = b.
Proof.
  unfold Itoa. intros H.
  assert (Some (Nat.to_uint a) = Some (Nat.to_uint b)) as [= E].
  { rewrite <- !NilEmpty.usu. by rewrite H. }
  rewrite <- (DecimalNat.Unsigned.of_to a), <- (DecimalNat.Unsigned.of_to b).
  by rewrite E.
Qed.

Lemma buildSdkLines_range_imap (ref : Domainentityref.t) (baseId : string) :
  Domainentityref.Id ref = Some baseId ->
  forall rest i lines,
    buildSdkLines_range (Some ref) rest i lines =
      Val (lines ++ imap (fun k => standaloneLine ref baseId (i + k)) rest)%list.
Proof.
  intros Hid. induction rest as [|address rest IH]; intros i lines.
  - simpl. by rewrite app_nil_r.
  - cbn [buildSdkLines_range deref res_bind]. rewrite Hid. cbn [deref res_bind].
    rewrite IH. cbn [imap]. rewrite <- app_assoc. cbn [app].
    unfold standaloneLine at 2. rewrite Nat.add_0_r. do 3 f_equal.
    apply imap_ext. intros k x _. unfold compose. f_equal. lia.
Qed.

Lemma standaloneLine_names (ref : Domainentityref.t) (baseId : string)
    (rest : list string) (i : nat) :
  NoDup (Line.Name <$> imap (fun k => standaloneLine ref baseId (i + k)) rest).
Proof.
  rewrite fmap_imap.
  rewrite (imap_ext _ (fun k _ => Some ("line_" +:+ baseId +:+ "_" +:+ Itoa (i + k + 1))))
    by reflexivity.
  rewrite (imap_seq rest (fun j => Some ("line_" +:+ baseId +:+ "_" +:+ Itoa (j + 1))) i).
  apply NoDup_fmap_2; [|apply NoDup_seq].
  intros a b [= H]. do 3 apply String.app_inj in H. apply Itoa_inj in H. lia.
Qed.

(** X20. [buildSdkLines] builds one line per address, and exactly one
    line when there is no address; the phone is standalone exactly when
    there is an address; every line carries the line base settings and a
    name, and the names are pairwise distinct. Without line base settings
    it panics. [interfaceListToStrings] is any conversion that returns the
    configured strings. *)
Theorem buildSdkLines_shape (interfaceListToStrings : list Value -> Res (list string))
    (d : ResourceData.t) (ref : Domainentityref.t) (baseId : string)
    (strs : list string) :
  lineAddressesAre d strs ->
  interfaceListToStrings (VString <$> strs) = Val strs ->
  (Domainentityref.Id ref = Some baseId ->
   exists lines,
     buildSdkLines interfaceListToStrings d (Some ref) =
       Val (Some lines, bool_decide (strs <> [])) /\
     length lines = Nat.max 1 (length strs) /\
     Forall (fun line => Line.LineBaseSettings line = Some ref /\
                         is_Some (Line.Name line)) lines /\
     NoDup (Line.Name <$> lines)) /\
  buildSdkLines interfaceListToStrings d None = Panic.
Proof.
  intros Hattr Hstrs.
  assert (Hbuild : forall lineBaseSettings,
    buildSdkLines interfaceListToStrings d lineBaseSettings =
      match strs with
      | [] =>
          res_bind (deref lineBaseSettings) (fun ref =>
          res_bind (deref (Domainentityref.Id ref)) (fun baseId =>
          Val (Some [Line.mk (Some ("line_" +:+ baseId)) None lineBaseSettings], false)))
      | _ =>
          res_bind (buildSdkLines_range lineBaseSettings strs 0 []) (fun lines =>
          Val (Some lines, true))
      end).
  { intros lineBaseSettings. unfold buildSdkLines, ResourceData.GetOk.
    destruct Hattr as [Hd|[Hd ->]]; rewrite Hd.
    - cbn [assertList res_bind isZeroValue]. rewrite Hstrs. cbn [res_bind].
      destruct strs; reflexivity.
    - change (VString <$> []) with (@nil Value) in Hstrs.
      cbn [res_bind]. rewrite Hstrs. reflexivity. }
  split.
  - intros Hid. rewrite Hbuild. destruct strs as [|address strs].
    + cbn [deref res_bind]. rewrite Hid. cbn [deref res_bind app].
      eexists. split; [reflexivity|]. split; [reflexivity|]. split.
      * constructor; [|constructor]. split; [reflexivity | eauto].
      * simpl. apply NoDup_singleton.
    + rewrite (buildSdkLines_range_imap ref baseId Hid). cbn [res_bind app].
      eexists. split; [f_equal; f_equal; by rewrite bool_decide_eq_true_2|].
      split; [rewrite length_imap; simpl; lia|]. split.
      * apply Forall_forall. intros line Hin.
        apply elem_of_lookup_imap_1 in Hin as (k & x & -> & _).
        split; [reflexivity | simpl; eauto].
      * apply standaloneLine_names.
  - rewrite Hbuild. destruct strs; reflexivity.
Qed.

Lemma flattenPhoneLines_range_Val (lines : list Line.t) :
  forall acc out,
    flattenPhoneLines_range lines acc = Val out ->
    exists added,
      out = (acc ++ added)%list /\
      Forall (fun s => s <> EmptyString) added /\
      (length added <= length lines)%nat /\
      Forall (fun line => is_Some (Line.Properties line)) lines.
Proof.
  induction lines as [|line lines IH]; intros acc out H.
  - injection H as <-. exists []. rewrite app_nil_r. repeat split; constructor.
  - cbn [flattenPhoneLines_range] in H.
    apply res_bind_Val in H as (properties & Hprops & H).
    apply res_bind_Val in H as (did & Hdid & H).
    assert (Hsome : is_Some (Line.Properties line)).
    { destruct (Line.Properties line); [eauto | discriminate]. }
    destruct (String.length did =? 0)%nat eqn:Hlen.
    + apply IH in H as (added & -> & Hne & Hle & Hall).
      exists added. repeat split; auto. simpl. lia.
    + apply IH in H as (added & -> & Hne & Hle & Hall).
      exists (did :: added). rewrite <- app_assoc. repeat split; auto.
      * constructor; [|exact Hne]. intros ->. discriminate.
      * simpl. lia.
Qed.

Lemma flattenPhoneLines_range_fuel (lines : list Line.t) :
  forall acc, flattenPhoneLines_range lines acc <> OutOfFuel.
Proof.
  induction lines as [|line lines IH]; intros acc; [discriminate|].
  cbn [flattenPhoneLines_range].
  destruct (Line.Properties line) as [properties|]; cbn [deref res_bind];
    [|discriminate].
  match goal with |- res_bind ?r _ <> _ => assert (Hr : r <> OutOfFuel) end.
  { destruct (properties !! "station_identity_address") as [[| | |m|]|];
      cbn [assertIfaceMap res_bind]; try discriminate.
    destruct (m !! "value") as [[| | |m'|]|]; cbn [assertIfaceMap res_bind];
      try discriminate.
    destruct (m' !! "instance") as [[]|]; discriminate. }
  match goal with |- res_bind ?r _ <> _ => destruct r as [did| |] end;
    cbn [res_bind]; try done.
  destruct (String.length did =? 0)%nat; apply IH.
Qed.

(** X21. [flattenPhoneLines] returns nil for nil; otherwise the addresses
    it returns are at most one per line and never the empty string; and a
    line without properties makes it panic. *)
Theorem flattenPhoneLines_edges :
  flattenPhoneLines None = Val None /\
  (forall lines out,
     flattenPhoneLines (Some lines) = Val out ->
     exists addresses,
       out = Some addresses /\
       Forall (fun s => s <> EmptyString) addresses /\
       (length addresses <= length lines)%nat) /\
  (forall lines,
     Exists (fun line => Line.Properties line = None) lines ->
     flattenPhoneLines (Some lines) = Panic).
Proof.
  split; [reflexivity|]. split.
  - intros lines out H. cbn [flattenPhoneLines] in H.
    apply res_bind_Val in H as (l & Hl & [= <-]).
    apply flattenPhoneLines_range_Val in Hl as (added & -> & Hne & Hle & _).
    exists added. auto.
  - intros lines Hex. cbn [flattenPhoneLines].
    pose proof (flattenPhoneLines_range_fuel lines []) as Hfuel.
    destruct (flattenPhoneLines_range lines []) as [out| |] eqn:Hrun;
      [|reflexivity|done].
    apply flattenPhoneLines_range_Val in Hrun as (_ & _ & _ & _ & Hall).
    apply Exists_exists in Hex as (line & Hin & Hnone).
    rewrite Forall_forall in Hall. destruct (Hall line Hin) as [p Hp]. congruence.
Qed.

Lemma length_eqb_0 (s : string) :
  (String.length s =? 0)%nat = bool_decide (s = EmptyString).
Proof. by destruct s. Qed.

Lemma flattenPhoneLines_range_decoded (ref : Domainentityref.t) (baseId : string)
    (i : nat) (address : string) (lines : list Line.t) (acc : list string) :
  flattenPhoneLines_range (decodedLine (standaloneLine ref baseId i address) :: lines) acc =
    if bool_decide (address = EmptyString) then flattenPhoneLines_range lines acc
    else flattenPhoneLines_range lines (acc ++ [address])%list.
Proof.
  cbn [flattenPhoneLines_range]. unfold decodedLine, standaloneLine.
  cbn [Line.Properties fmap option_fmap option_map deref res_bind].
  rewrite map_fmap_singleton. cbn [decoded].
  rewrite map_fmap_singleton. cbn [decoded].
  rewrite map_fmap_singleton. cbn [decoded].
  rewrite lookup_singleton_eq. cbn [assertIfaceMap res_bind].
  rewrite lookup_singleton_eq. cbn [assertIfaceMap res_bind].
  rewrite lookup_singleton_eq. cbn [assertIfaceString res_bind].
  by rewrite length_eqb_0.
Qed.

Lemma flattenPhoneLines_range_standalone (ref : Domainentityref.t) (baseId : string) :
  forall rest i acc,
    flattenPhoneLines_range
      (decodedLine <$> imap (fun k => standaloneLine ref baseId (i + k)) rest) acc =
      Val (acc ++ filter (fun s => s <> EmptyString) rest)%list.
Proof.
  induction rest as [|address rest IH]; intros i acc.
  - simpl. by rewrite app_nil_r.
  - cbn [imap]. rewrite fmap_cons, flattenPhoneLines_range_decoded.
    rewrite (imap_ext _ (fun k => standaloneLine ref baseId (S i + k))).
    2:{ intros k x _. unfold compose. f_equal. lia. }
    rewrite !IH. rewrite filter_cons.
    destruct (decide (address = EmptyString)) as [->|Hne].
    + rewrite bool_decide_eq_true_2 by done.
      destruct (decide (EmptyString <> EmptyString)); [done|]. reflexivity.
    + rewrite bool_decide_eq_false_2 by done.
      destruct (decide (address <> EmptyString)); [|done].
      rewrite <- app_assoc. reflexivity.
Qed.

(** X22. Round trip of the line addresses of a standalone phone: from the
    lines that [buildSdkLines] builds, once encoded to JSON and decoded
    again, [flattenPhoneLines] returns the configured addresses in order,
    the empty ones dropped. Applied to the lines as built in memory, whose
    properties hold pointers to maps, it panics. *)
Theorem phone_lines_roundtrip
    (interfaceListToStrings : list Value -> Res (list string))
    (d : ResourceData.t) (ref : Domainentityref.t) (baseId : string)
    (strs : list string) :
  lineAddressesAre d strs ->
  interfaceListToStrings (VString <$> strs) = Val strs ->
  Domainentityref.Id ref = Some baseId ->
  strs <> [] ->
  exists lines,
    buildSdkLines interfaceListToStrings d (Some ref) = Val (Some lines, true) /\
    flattenPhoneLines (Some (decodedLine <$> lines)) =
      Val (Some (filter (fun s => s <> EmptyString) strs)) /\
    flattenPhoneLines (Some lines) = Panic.
Proof.
  intros Hattr Hstrs Hid Hne.
  assert (Hbuild : buildSdkLines interfaceListToStrings d (Some ref) =
            Val (Some (imap (fun k => standaloneLine ref baseId (0 + k)) strs), true)).
  { unfold buildSdkLines, ResourceData.GetOk.
    destruct Hattr as [Hd|[_ ->]]; [rewrite Hd | done].
    cbn [assertList res_bind isZeroValue]. rewrite Hstrs. cbn [res_bind].
    destruct strs as [|address strs]; [done|].
    cbn [fmap list_fmap length Nat.eqb negb orb].
    rewrite (buildSdkLines_range_imap ref baseId Hid). reflexivity. }
  eexists. split; [exact Hbuild|]. split.
  - cbn [flattenPhoneLines]. rewrite flattenPhoneLines_range_standalone. reflexivity.
  - destruct strs as [|address strs]; [done|]. cbn [imap flattenPhoneLines].
    cbn [flattenPhoneLines_range]. unfold standaloneLine at 1.
    cbn [Line.Properties deref res_bind]. rewrite lookup_singleton_eq.
    reflexivity.
Qed.

(** ** The further properties on sample configurations *)

Lemma exporters_only_list_witness :
  State.rd (getAllPhones 3 shortPageServer emptyState).2 = State.rd emptyState /\
  State.now (getAllPhones 3 shortPageServer emptyState).2 = State.now emptyState.
Proof.
  destruct (exporters_only_list 3 shortPageServer) as (_ & _ & Hphones & _).
  destruct (getAllPhones 3 shortPageServer emptyState) as [r st'] eqn:Hrun.
  destruct (Hphones emptyState r st' Hrun) as (_ & Hrd & Hnow). split; assumption.
Defined.

Lemma config_response_roundtrip_witness :
  exists sdkResponse out,
    buildSdkActionConfigResponse sampleResponseData = Val (Some sdkResponse) /\
    flattenActionConfigResponse sdkResponse = [VMap out] /\
    out !! "translation_map_defaults" = Some (VStringMap ∅).
Proof.
  destruct (config_response_roundtrip sampleResponseData sampleConfigResponse []
              (Some {[ "status" := "$.status" ]}) None (Some "${rawResult}"))
    as (sdkResponse & out & Hb & Hf & _ & Hdefaults & _).
  - reflexivity.
  - simpl. rewrite map_fmap_singleton. reflexivity.
  - reflexivity.
  - reflexivity.
  - exists sdkResponse, out. split; [exact Hb|]. split; [exact Hf | exact Hdefaults].
Defined.

Lemma buildSdkActionConfig_never_nil_witness :
  buildSdkActionConfig emptyData =
    Val (Some (Actionconfig.mk (Some Requestconfig.empty) (Some Responseconfig.empty))).
Proof.
  destruct (buildSdkActionConfig_never_nil emptyData) as [_ Hempty].
  destruct Hempty as [Hbuild _]; [reflexivity | reflexivity | exact Hbuild].
Defined.

Lemma buildCredentialFields_exact_witness :
  buildCredentialFields sampleFieldsData = Val (Some {[ "token" := "secret" ]}).
Proof.
  destruct (buildCredentialFields_exact sampleFieldsData {[ "token" := VString "secret" ]})
    as [Hval _].
  - reflexivity.
  - apply Hval. rewrite map_fmap_singleton. reflexivity.
Defined.

Lemma oauth_roles_roundtrip_witness :
  (exists sdkRoles,
     buildOAuthRoles notFoundServer sampleRolesData emptyState =
       (Val (Some sdkRoles, None), emptyState) /\
     flattenOAuthRoles sdkRoles = VBlockSet {[ roleBlock "role-1" "division-1" ]}) /\
  buildOAuthRoles notFoundServer sampleNoRolesData emptyState =
    (Val (None, None), emptyState).
Proof.
  split.
  - destruct (oauth_roles_roundtrip notFoundServer sampleRolesData
                {[ roleBlock "role-1" "division-1" ]} emptyState)
      as ([sdkRoles|] & Hbuild & Hflat).
    + reflexivity.
    + intros role Hrole. apply elem_of_singleton in Hrole as ->.
      exists "role-1", "division-1". split; [reflexivity | discriminate].
    + exists sdkRoles. split; [exact Hbuild | apply Hflat].
    + exfalso. eapply (non_empty_singleton_L (C := gset (gmap string string))), Hflat.
  - destruct (oauth_roles_roundtrip notFoundServer sampleNoRolesData ∅ emptyState)
      as ([sdkRoles|] & Hbuild & Hflat).
    + reflexivity.
    + intros role Hrole. by apply not_elem_of_empty in Hrole.
    + by destruct Hflat as [Hne _].
    + exact Hbuild.
Defined.

Lemma exporters_drop_pages_on_failure_witness :
  let run := getAllCredentials 3 brokenPageServer emptyState in
  run.1 = Val (None, Some (DiagError "Failed to get page of credentials: internal error")) /\
  exists evs,
    State.trace run.2 = evs /\
    map fst evs =
      [ReqGetIntegrationsCredentials 1 100; ReqGetIntegrationsCredentials 2 100].
Proof.
  destruct exporters_drop_pages_on_failure as (_ & Hc & _).
  destruct (Hc brokenPageServer [sampleCredentials] "internal error" emptyState 3%nat)
    as (evs & st' & Hrun & Htr & Hreqs).
  - repeat constructor. discriminate.
  - intros history [|i] page [= <-]. split; [reflexivity|].
    eexists. split; [reflexivity|]. split; reflexivity.
  - intros history. right. split; [reflexivity|].
    eexists. split; [reflexivity|]. split; [eauto | reflexivity].
  - repeat constructor; simpl; eauto.
  - simpl. lia.
  - cbn zeta. rewrite Hrun. split; [reflexivity|].
    exists evs. split; [exact Htr | exact Hreqs].
Defined.

Lemma exporters_last_listed_wins_witness :
  exists resources,
    addCredentials
      [Credentialinfo.mk (Some "cred-1") (Some "old");
       Credentialinfo.mk (Some "cred-1") (Some "new");
       Credentialinfo.mk (Some "cred-2") (Some "other")] ∅ = Val resources /\
    resources !! "cred-1" = Some (ResourceMeta.mk "new").
Proof.
  destruct exporters_last_listed_wins as (_ & _ & Hc & _).
  apply (Hc [Credentialinfo.mk (Some "cred-1") (Some "old")]
            (Credentialinfo.mk (Some "cred-1") (Some "new"))
            [Credentialinfo.mk (Some "cred-2") (Some "other")] "cred-1" "new").
  - repeat constructor; simpl; eauto.
  - reflexivity.
  - reflexivity.
  - tauto.
  - constructor; [discriminate | constructor].
Defined.

Lemma getAllIdpGeneric_exports_at_most_one_witness :
  (getAllIdpGeneric idpServer emptyState).1 =
    Val (Some {[ "0" := ResourceMeta.mk "generic" ]}, None) /\
  (getAllIdpGeneric notFoundServer emptyState).1 = Val (Some ∅, None).
Proof.
  split.
  - destruct (getAllIdpGeneric_exports_at_most_one idpServer emptyState)
      as (_ & Hlisted & _).
    apply (Hlisted sampleGeneric). split; [reflexivity|].
    eexists. split; [reflexivity|]. split; reflexivity.
  - destruct (getAllIdpGeneric_exports_at_most_one notFoundServer emptyState)
      as (_ & _ & Hnot & _).
    apply Hnot. split; [reflexivity|]. right.
    eexists. split; [reflexivity | discriminate].
Defined.

Lemma queuePagesServer_serves :
  servesPages queuePagesServer (fun n => ReqGetRoutingQueues n 100 "Support")
    BQueueListing
    [[sampleQueue]; [Queue.mk (Some "queue-8") (Some "Support")]] None.
Proof.
  split; [repeat constructor; discriminate|]. split; [by left|]. split.
  - intros history [|[|i]] page [= <-]; (split; [reflexivity|]);
      eexists; (split; [reflexivity|]); split; reflexivity.
  - intros history. split; [reflexivity|].
    eexists. split; [reflexivity|]. split; reflexivity.
Qed.

Lemma routing_queue_lookup_searches_pages_witness :
  let run := dataSourceRoutingQueueRead_try 3 queuePagesServer "Support" 1
               sampleLookupState in
  run.1 = Val None /\ ResourceData.Id (State.rd run.2) = "queue-8".
Proof.
  destruct (routing_queue_lookup_searches_pages queuePagesServer "Support"
              [[sampleQueue]; [Queue.mk (Some "queue-8") (Some "Support")]] None
              sampleLookupState 3%nat) as [Hfound _].
  - exact queuePagesServer_serves.
  - simpl. lia.
  - destruct (Hfound [sampleQueue] (Queue.mk (Some "queue-8") (Some "Support")) []
                "queue-8") as [Hres Hrd].
    + reflexivity.
    + constructor; [discriminate | constructor].
    + reflexivity.
    + reflexivity.
    + cbn zeta. rewrite Hres, Hrd. split; reflexivity.
Defined.

Lemma readCredential_try_stores_name_and_type_witness :
  exists st',
    readCredential_try credentialServer sampleCredentialState = (Val None, st') /\
    ResourceData.GetString (State.rd st') "credential_type_name" = Val "basicAuth" /\
    ResourceData.attrs (State.rd st') !! "fields" = None.
Proof.
  destruct (readCredential_try_stores_name_and_type credentialServer
              sampleCredentialState sampleTypedCredential
              (Credentialtype.mk (Some "basicAuth")) "token" "basicAuth")
    as (st' & Hrun & _ & _ & _ & Htype & Hframe).
  - split; [reflexivity|]. eexists. split; [reflexivity|]. split; reflexivity.
  - reflexivity.
  - reflexivity.
  - reflexivity.
  - exists st'. split; [exact Hrun|]. split; [exact Htype|].
    rewrite Hframe; [reflexivity | discriminate | discriminate].
Defined.

Lemma readCredential_nameless_panics_witness :
  (readCredential sampleContext (providerMeta.mk namelessCredentialServer)
     sampleCredentialState).1 = Panic.
Proof.
  apply (readCredential_nameless_panics sampleContext
           (providerMeta.mk namelessCredentialServer) sampleCredentialState
           (Credential.mk (Some "cred-1") None None None)).
  - split; [reflexivity|]. eexists. split; [reflexivity|]. split; reflexivity.
  - reflexivity.
Defined.

Lemma read_closures_keep_the_entity_witness :
  ResourceData.Id (State.rd (readOAuthClient_try oauthServer sampleOauthState).2) =
    "client-2".
Proof.
  destruct (read_closures_keep_the_entity oauthServer) as (Hoauth & _).
  destruct (readOAuthClient_try oauthServer sampleOauthState) as [r st'] eqn:Hrun.
  destruct (Hoauth sampleOauthState r st' Hrun) as [Hid _]. exact Hid.
Defined.

Lemma readIntegrationAction_try_templates_from_endpoint_witness :
  exists st' configRequest,
    readIntegrationAction_try templateServer sampleActionState = (Val None, st') /\
    ResourceData.attrs (State.rd st') !! "config_request" =
      Some (VList [VMap configRequest]) /\
    configRequest !! "request_template" = Some (VString "${input.rawRequest}").
Proof.
  destruct (readIntegrationAction_try_templates_from_endpoint templateServer
              sampleActionState sampleConfiguredAction "lookup"
              "${input.rawRequest}" "${rawResult}"
              (Requestconfig.mk (Some "https://example.org/items") (Some "stale")
                 (Some "GET") None)
              (Responseconfig.mk None None (Some "stale")))
    as (st' & configRequest & configResponse & Hrun & _ & _ & Hattr & Htemplate & _).
  - split; [reflexivity|]. eexists. split; [reflexivity|]. split; reflexivity.
  - reflexivity.
  - reflexivity.
  - split; [reflexivity|]. eexists. split; [reflexivity|]. split; reflexivity.
  - split; [reflexivity|]. eexists. split; [reflexivity|]. split; reflexivity.
  - exists st', configRequest. split; [exact Hrun|]. split; [exact Hattr | exact Htemplate].
Defined.

Lemma updateIntegrationAction_call_sends_read_version_witness :
  exists body reply1 reply2,
    State.trace (updateIntegrationAction_call (providerMeta.mk versionConflictServer)
                   "lookup" "crm" sampleActionState).2 =
      [(ReqGetIntegrationAction "action-1", reply1);
       (ReqPatchIntegrationsAction "action-1" body, reply2)] /\
    Updateactioninput.Version body = Some 3.
Proof.
  destruct (updateIntegrationAction_call_sends_read_version
              (providerMeta.mk versionConflictServer) "lookup" "crm" sampleActionState)
    as (Hpatch & _).
  eexists. eexists. eexists. split.
  - apply (Hpatch sampleAction).
    + split; [reflexivity|]. eexists. split; [reflexivity|]. split; reflexivity.
    + vm_compute. reflexivity.
  - reflexivity.
Defined.

Lemma updateIdpGeneric_puts_then_waits_witness :
  exists update,
    updateIdpGeneric_body sampleIdpData = Val update /\
    let run := updateIdpGeneric sampleContext (providerMeta.mk idpServer)
                 (State.mk [] 0 sampleIdpData) in
    20 * Second <= State.now run.2 /\
    exists read reads,
      State.trace run.2 =
        (ReqPutIdentityprovidersGeneric update,
         idpServer [] (ReqPutIdentityprovidersGeneric update)) :: read :: reads.
Proof.
  eexists. split; [vm_compute; reflexivity|].
  eapply (updateIdpGeneric_puts_then_waits sampleContext (providerMeta.mk idpServer)
            (State.mk [] 0 sampleIdpData)).
  - vm_compute. reflexivity.
  - split; [reflexivity|]. eexists. split; [reflexivity|]. split; reflexivity.
Defined.

Lemma createIdpGeneric_pins_the_id_witness :
  ResourceData.Id
    (State.rd (createIdpGeneric sampleContext (providerMeta.mk notFoundServer)
                 (State.mk [] 0 (ResourceData.mk "stale" ∅ true))).2) = "generic".
Proof.
  apply (createIdpGeneric_pins_the_id sampleContext (providerMeta.mk notFoundServer)
           (State.mk [] 0 (ResourceData.mk "stale" ∅ true))).
  left. reflexivity.
Defined.

Lemma updateIdpGeneric_then_read_keeps_scalars_witness :
  exists st',
    updateIdpGeneric sampleContext (providerMeta.mk echoIdpServer)
      (State.mk [] 0 sampleIdpData) = (Val None, st') /\
    ResourceData.GetString (State.rd st') "issuer_uri" = Val "https://issuer.example.org" /\
    ResourceData.GetString (State.rd st') "target_uri" = Val EmptyString.
Proof.
  destruct (updateIdpGeneric_then_read_keeps_scalars sampleContext
              (providerMeta.mk echoIdpServer) (State.mk [] 0 sampleIdpData)
              sampleGeneric sampleGeneric)
    as (st' & Hrun & _ & _ & _ & Hstrings & _).
  - vm_compute. reflexivity.
  - split; [reflexivity|]. exists (okResponse (BGenericsaml sampleGeneric)).
    split; [reflexivity|]. split; reflexivity.
  - split; [reflexivity|]. exists (okResponse (BGenericsaml sampleGeneric)).
    split; [vm_compute; reflexivity|]. split; reflexivity.
  - exists st'. split; [exact Hrun|]. split.
    + rewrite Hstrings; [vm_compute; reflexivity|].
      apply (bool_decide_unpack _). vm_compute. reflexivity.
    + rewrite Hstrings; [vm_compute; reflexivity|].
      apply (bool_decide_unpack _). vm_compute. reflexivity.
Defined.

Lemma phone_capabilities_roundtrip_witness :
  exists sdk out,
    buildSdkCapabilities sampleSprintv samplePhoneData = Val (Some sdk) /\
    flattenPhoneCapabilities (Some sdk) = Some [VMap out] /\
    out !! "media_codecs" = Some (VList [VString "audio/opus"]).
Proof.
  destruct (phone_capabilities_roundtrip sampleSprintv samplePhoneData) as [Hround _];
    [reflexivity|].
  destruct (Hround sampleCapabilities [] false true false true false false true
              "mac" ["audio/opus"])
    as (sdk & out & Hbuild & Hflat & Hkeys & _); try reflexivity.
  exists sdk, out. split; [exact Hbuild|]. split; [exact Hflat|].
  rewrite Hkeys; [reflexivity|].
  apply (bool_decide_unpack _). vm_compute. reflexivity.
Defined.

Lemma buildSdkLines_shape_witness :
  exists lines,
    buildSdkLines sampleInterfaceListToStrings samplePhoneData
      (Some sampleLineBaseSettings) = Val (Some lines, true) /\
    length lines = 2%nat /\
    NoDup (Line.Name <$> lines).
Proof.
  destruct (buildSdkLines_shape sampleInterfaceListToStrings samplePhoneData
              sampleLineBaseSettings "base-1" ["+13175550000"; "+13175550001"])
    as [Hshape _].
  - left. reflexivity.
  - reflexivity.
  - destruct Hshape as (lines & Hbuild & Hlen & _ & Hnames); [reflexivity|].
    exists lines. split; [exact Hbuild|]. split; [exact Hlen | exact Hnames].
Defined.

Lemma flattenPhoneLines_edges_witness :
  flattenPhoneLines (Some [Line.mk (Some "line_base-1") None (Some sampleLineBaseSettings)]) =
    Panic.
Proof.
  destruct flattenPhoneLines_edges as (_ & _ & Hpanic).
  apply Hpanic. constructor. reflexivity.
Defined.

Lemma phone_lines_roundtrip_witness :
  exists lines,
    buildSdkLines sampleInterfaceListToStrings samplePhoneData
      (Some sampleLineBaseSettings) = Val (Some lines, true) /\
    flattenPhoneLines (Some (decodedLine <$> lines)) =
      Val (Some ["+13175550000"; "+13175550001"]).
Proof.
  destruct (phone_lines_roundtrip sampleInterfaceListToStrings samplePhoneData
              sampleLineBaseSettings "base-1" ["+13175550000"; "+13175550001"])
    as (lines & Hbuild & Hflat & _).
  - left. reflexivity.
  - reflexivity.
  - reflexivity.
  - discriminate.
  - exists lines. split; [exact Hbuild | exact Hflat].
Defined.
